(** * Link generation and paging links of stac_fastapi.pgstac

    A shallow embedding of [stac_fastapi/pgstac/models/links.py]: the
    helpers [filter_links] and [merge_params], the link classes
    [BaseLinks], [PagingLinks], [CollectionLinks] and [ItemLinks], and
    the part of Python they run on (strings, [urllib.parse], dictionaries
    that are shared by reference).

    Python [str] values are [string]s, read as the UTF-8 bytes of the
    text.  Python objects that the code mutates or shares (dictionaries
    and lists) live in a heap and are denoted by their location, so that
    aliasing is visible.  [TileLinks], which no other class uses, is
    modelled on its own, with the attribute that only its
    [__post_init__] assigns. *)

From Stdlib Require Import Ascii String ZArith Lia.
From stdpp Require Import base option strings list gmap pretty.

Open Scope string_scope.
Open Scope list_scope.

(** ** Outcomes of Python code *)

(** The exceptions the modelled code can raise.  [NotModelled] marks the
    few library paths this development leaves out (it is never a Python
    exception): validation of bracketed IP literals and of non-ASCII
    hosts in [urlsplit], and [str()] of a container. *)
Inductive exn :=
  | KeyError
  | TypeError
  | AttributeError
  | ValueError
  | NotModelled.

Inductive result (A : Type) :=
  | Ok (a : A)
  | Raise (e : exn).
Arguments Ok {A} a.
Arguments Raise {A} e.

Definition rbind {A B} (r : result A) (k : A -> result B) : result B :=
  match r with
  | Ok a => k a
  | Raise e => Raise e
  end.

(** ** Python strings *)

Module Py.

Definition chr (n : nat) : ascii := ascii_of_nat n.
Definition ord (c : ascii) : nat := nat_of_ascii c.

Definition str1 (c : ascii) : string := String c EmptyString.

(** [c in s] for a one-character [c]. *)
Fixpoint contains (c : ascii) (s : string) : bool :=
  match s with
  | EmptyString => false
  | String a s' => if Ascii.eqb a c then true else contains c s'
  end.

(** [s.split(c, 1)] when [c in s]: the text before the first [c] and
    the text after it. *)
Fixpoint split1 (c : ascii) (s : string) : option (string * string) :=
  match s with
  | EmptyString => None
  | String a s' =>
      if Ascii.eqb a c then Some (EmptyString, s')
      else match split1 c s' with
           | Some (l, r) => Some (String a l, r)
           | None => None
           end
  end.

(** [s.split(c)]: never empty, one more piece than occurrences of [c]. *)
Fixpoint split (c : ascii) (s : string) : list string :=
  match s with
  | EmptyString => [EmptyString]
  | String a s' =>
      if Ascii.eqb a c then EmptyString :: split c s'
      else match split c s' with
           | p :: ps => String a p :: ps
           | [] => [str1 a]
           end
  end.

(** [sep.join(l)] *)
Fixpoint join (sep : string) (l : list string) : string :=
  match l with
  | [] => EmptyString
  | [x] => x
  | x :: l' => x +:+ sep +:+ join sep l'
  end.

(** [s.replace(a, b)] for one-character [a] and [b]. *)
Fixpoint replace (a b : ascii) (s : string) : string :=
  match s with
  | EmptyString => EmptyString
  | String c s' => String (if Ascii.eqb c a then b else c) (replace a b s')
  end.

(** [s.replace(a, "")] for a one-character [a]. *)
Fixpoint remove (a : ascii) (s : string) : string :=
  match s with
  | EmptyString => EmptyString
  | String c s' => if Ascii.eqb c a then remove a s' else String c (remove a s')
  end.

(** [s.lstrip(chars)] *)
Fixpoint lstrip (chars : ascii -> bool) (s : string) : string :=
  match s with
  | EmptyString => EmptyString
  | String c s' => if chars c then lstrip chars s' else s
  end.

(** [s.rstrip(chars)] *)
Fixpoint rstrip (chars : ascii -> bool) (s : string) : string :=
  match s with
  | EmptyString => EmptyString
  | String c s' =>
      match rstrip chars s' with
      | EmptyString => if chars c then EmptyString else str1 c
      | r => String c r
      end
  end.

Definition strip (chars : ascii -> bool) (s : string) : string :=
  rstrip chars (lstrip chars s).

Definition startswith (p s : string) : bool := String.prefix p s.

Fixpoint forallb (f : ascii -> bool) (s : string) : bool :=
  match s with
  | EmptyString => true
  | String c s' => f c && forallb f s'
  end.

Definition is_upper (c : ascii) : bool := Nat.leb 65 (ord c) && Nat.leb (ord c) 90.
Definition is_lower (c : ascii) : bool := Nat.leb 97 (ord c) && Nat.leb (ord c) 122.
Definition is_digit (c : ascii) : bool := Nat.leb 48 (ord c) && Nat.leb (ord c) 57.
Definition is_ascii (c : ascii) : bool := Nat.ltb (ord c) 128.
Definition is_alpha (c : ascii) : bool := is_upper c || is_lower c.

Definition lower_char (c : ascii) : ascii :=
  if is_upper c then chr (ord c + 32) else c.

(** [s.lower()] on ASCII letters. *)
Fixpoint lower (s : string) : string :=
  match s with
  | EmptyString => EmptyString
  | String c s' => String (lower_char c) (lower s')
  end.

(** Truth value of a string: [if s:]. *)
Definition truthy (s : string) : bool :=
  match s with EmptyString => false | _ => true end.

(** [s[:2]] *)
Definition take2 (s : string) : string :=
  match s with
  | String a (String b _) => String a (String b EmptyString)
  | _ => s
  end.

(** [s[2:]] *)
Definition drop2 (s : string) : string :=
  match s with
  | String _ (String _ r) => r
  | _ => EmptyString
  end.

(** [s[:1]] *)
Definition take1 (s : string) : string :=
  match s with
  | String a _ => str1 a
  | EmptyString => EmptyString
  end.

(** The longest prefix of [s] whose characters satisfy [f], and the rest. *)
Fixpoint span (f : ascii -> bool) (s : string) : string * string :=
  match s with
  | EmptyString => (EmptyString, EmptyString)
  | String c s' =>
      if f c then let '(l, r) := span f s' in (String c l, r)
      else (EmptyString, s)
  end.

(** [s.rfind(c)] as a cut: the text up to and including the last [c],
    and the text after it; [None] when [c] does not occur. *)
Fixpoint rsplit1 (c : ascii) (s : string) : option (string * string) :=
  match s with
  | EmptyString => None
  | String a s' =>
      match rsplit1 c s' with
      | Some (l, r) => Some (String a l, r)
      | None => if Ascii.eqb a c then Some (str1 a, s') else None
      end
  end.

(** [del l[-1]], and [l.pop()] that ignores an empty list. *)
Definition removelast_list {A} (l : list A) : list A := List.removelast l.

End Py.

(** ** Ordered dictionaries

    A Python [dict] whose iteration order matters (the query parameters
    that [urlencode] serialises): an association list with distinct keys,
    in insertion order. *)

Module Dict.

Fixpoint get {V} (k : string) (d : list (string * V)) : option V :=
  match d with
  | [] => None
  | (k', v) :: d' => if String.eqb k' k then Some v else get k d'
  end.

(** [d[k] = v]: an existing key keeps its position, a new key goes last. *)
Fixpoint set {V} (k : string) (v : V) (d : list (string * V)) : list (string * V) :=
  match d with
  | [] => [(k, v)]
  | (k', v') :: d' =>
      if String.eqb k' k then (k, v) :: d' else (k', v') :: set k v d'
  end.

(** [d.update(e)] *)
Definition update {V} (d e : list (string * V)) : list (string * V) :=
  fold_left (fun acc kv => set (fst kv) (snd kv) acc) e d.

Definition keys {V} (d : list (string * V)) : list string := map fst d.

End Dict.

(** ** [urllib.parse]

    The functions of CPython 3.11's [urllib/parse.py] that [links.py]
    imports, for [str] arguments and the default keyword arguments. *)

Module urllib.

Definition mem (s : string) (l : list string) : bool :=
  existsb (String.eqb s) l.

Definition uses_relative : list string :=
  [""; "ftp"; "http"; "gopher"; "nntp"; "imap";
   "wais"; "file"; "https"; "shttp"; "mms";
   "prospero"; "rtsp"; "rtspu"; "sftp";
   "svn"; "svn+ssh"; "ws"; "wss"].

Definition uses_netloc : list string :=
  [""; "ftp"; "http"; "gopher"; "nntp"; "telnet";
   "imap"; "wais"; "file"; "mms"; "https"; "shttp";
   "snews"; "prospero"; "rtsp"; "rtspu"; "rsync";
   "svn"; "svn+ssh"; "sftp"; "nfs"; "git"; "git+ssh";
   "ws"; "wss"].

Definition uses_params : list string :=
  [""; "ftp"; "hdl"; "prospero"; "http"; "imap";
   "https"; "shttp"; "rtsp"; "rtspu"; "sip"; "sips";
   "mms"; "sftp"; "tel"].

Definition scheme_chars (c : ascii) : bool :=
  Py.is_lower c || Py.is_upper c || Py.is_digit c || Py.contains c "+-.".

(** [_WHATWG_C0_CONTROL_OR_SPACE]: the characters 0x00 to 0x20. *)
Definition c0_control_or_space (c : ascii) : bool := Nat.leb (Py.ord c) 32.

(** Removal of [_UNSAFE_URL_BYTES_TO_REMOVE] (tab, CR, LF). *)
Definition remove_unsafe (s : string) : string :=
  Py.remove (Py.chr 10) (Py.remove (Py.chr 13) (Py.remove (Py.chr 9) s)).

Record SplitResult := {
  s_scheme : string;
  s_netloc : string;
  s_path : string;
  s_query : string;
  s_fragment : string
}.

Record ParseResult := {
  scheme : string;
  netloc : string;
  path : string;
  params : string;
  query : string;
  fragment : string
}.

(** [_splitnetloc(url, 2)]: the earliest of "/", "?" and "#" after the
    two slashes ends the network location. *)
Definition _splitnetloc (url : string) : string * string :=
  Py.span (fun c => negb (Py.contains c "/?#")) (Py.drop2 url).

(** The bracket checks of [urlsplit]; a netloc with both brackets goes
    through [_check_bracketed_netloc], which is not modelled. *)
Definition check_brackets (netloc : string) : result unit :=
  let o := Py.contains "[" netloc in
  let c := Py.contains "]" netloc in
  if (o && negb c) || (c && negb o) then Raise ValueError
  else if o && c then Raise NotModelled
  else Ok tt.

(** [_checknetloc]: nothing to check for an empty or ASCII netloc; the
    NFKC check of other netlocs is not modelled. *)
Definition _checknetloc (netloc : string) : result unit :=
  if negb (Py.truthy netloc) || Py.forallb Py.is_ascii netloc then Ok tt
  else Raise NotModelled.

Definition split_scheme (url scheme : string) : string * string :=
  match Py.split1 ":" url with
  | Some (String c0 pre, rest) =>
      if Py.is_ascii c0 && Py.is_alpha c0 && Py.forallb scheme_chars (String c0 pre)
      then (Py.lower (String c0 pre), rest)
      else (scheme, url)
  | _ => (scheme, url)
  end.

Definition urlsplit (url scheme : string) : result SplitResult :=
  let url := Py.lstrip c0_control_or_space url in
  let scheme := Py.strip c0_control_or_space scheme in
  let url := remove_unsafe url in
  let scheme := remove_unsafe scheme in
  let '(scheme, url) := split_scheme url scheme in
  rbind
    (if String.eqb (Py.take2 url) "//" then
       let '(netloc, url) := _splitnetloc url in
       rbind (check_brackets netloc) (fun _ => Ok (netloc, url))
     else Ok (EmptyString, url))
    (fun '(netloc, url) =>
       let '(url, fragment) :=
         match Py.split1 "#" url with
         | Some (u, f) => (u, f)
         | None => (url, EmptyString)
         end in
       let '(url, query) :=
         match Py.split1 "?" url with
         | Some (u, q) => (u, q)
         | None => (url, EmptyString)
         end in
       rbind (_checknetloc netloc) (fun _ =>
         Ok {| s_scheme := scheme; s_netloc := netloc; s_path := url;
               s_query := query; s_fragment := fragment |})).

(** [s[:-1]] *)
Fixpoint removelast (s : string) : string :=
  match s with
  | EmptyString => EmptyString
  | String _ EmptyString => EmptyString
  | String c s' => String c (removelast s')
  end.

Definition _splitparams (url : string) : string * string :=
  match Py.rsplit1 "/" url with
  | Some (head, tail) =>
      match Py.split1 ";" tail with
      | Some (a, b) => (head +:+ a, b)
      | None => (url, EmptyString)
      end
  | None =>
      match Py.split1 ";" url with
      | Some (a, b) => (a, b)
      | None => (removelast url, url)
      end
  end.

Definition urlparse (url scheme : string) : result ParseResult :=
  rbind (urlsplit url scheme) (fun sr =>
    let '(url, params) :=
      if mem (s_scheme sr) uses_params && Py.contains ";" (s_path sr)
      then _splitparams (s_path sr)
      else (s_path sr, EmptyString) in
    Ok {| scheme := s_scheme sr; netloc := s_netloc sr; path := url;
          params := params; query := s_query sr;
          fragment := s_fragment sr |}).

Definition urlunsplit (scheme netloc url query fragment : string) : string :=
  let url :=
    if Py.truthy netloc
       || (Py.truthy scheme && mem scheme uses_netloc
           && negb (String.eqb (Py.take2 url) "//"))
    then
      let url :=
        if Py.truthy url && negb (String.eqb (Py.take1 url) "/")
        then "/" +:+ url else url in
      "//" +:+ netloc +:+ url
    else url in
  let url := if Py.truthy scheme then scheme +:+ ":" +:+ url else url in
  let url := if Py.truthy query then url +:+ "?" +:+ query else url in
  let url := if Py.truthy fragment then url +:+ "#" +:+ fragment else url in
  url.

Definition urlunparse (p : ParseResult) : string :=
  let url :=
    if Py.truthy (params p) then path p +:+ ";" +:+ params p else path p in
  urlunsplit (scheme p) (netloc p) url (query p) (fragment p).

(** [ParseResult.geturl()] *)
Definition geturl (p : ParseResult) : string := urlunparse p.

(** The loop of [urljoin] over the path segments: ".." pops a resolved
    segment when there is one, "." is skipped. *)
Definition resolve_segments (segments : list string) : list string :=
  fold_left
    (fun resolved seg =>
       if String.eqb seg ".." then Py.removelast_list resolved
       else if String.eqb seg "." then resolved
       else (resolved ++ [seg])%list)
    segments [].

(** [segments[1:-1] = filter(None, segments[1:-1])] *)
Definition filter_inner (segments : list string) : list string :=
  match segments with
  | first :: (_ :: _) as rest =>
      (first :: List.filter Py.truthy (Py.removelast_list rest)
             ++ [List.last rest EmptyString])%list
  | _ => segments
  end.

Definition urljoin (base url : string) : result string :=
  if negb (Py.truthy base) then Ok url
  else if negb (Py.truthy url) then Ok base
  else
    rbind (urlparse base EmptyString) (fun b =>
    rbind (urlparse url (scheme b)) (fun u =>
      if negb (String.eqb (scheme u) (scheme b))
         || negb (mem (scheme u) uses_relative)
      then Ok url
      else if mem (scheme u) uses_netloc && Py.truthy (netloc u)
      then Ok (urlunparse u)
      else
        let netloc' :=
          if mem (scheme u) uses_netloc then netloc b else netloc u in
        if negb (Py.truthy (path u)) && negb (Py.truthy (params u))
        then
          Ok (urlunparse
                {| scheme := scheme u; netloc := netloc';
                   path := path b; params := params b;
                   query := if Py.truthy (query u) then query u else query b;
                   fragment := fragment u |})
        else
          let base_parts := Py.split "/" (path b) in
          let base_parts :=
            if negb (String.eqb (List.last base_parts EmptyString) EmptyString)
            then Py.removelast_list base_parts else base_parts in
          let segments :=
            if String.eqb (Py.take1 (path u)) "/"
            then Py.split "/" (path u)
            else filter_inner (base_parts ++ Py.split "/" (path u))%list in
          let resolved_path := resolve_segments segments in
          let resolved_path :=
            if mem (List.last segments EmptyString) ["."; ".."]
            then (resolved_path ++ [EmptyString])%list else resolved_path in
          let joined := Py.join "/" resolved_path in
          Ok (urlunparse
                {| scheme := scheme u; netloc := netloc';
                   path := if Py.truthy joined then joined else "/";
                   params := params u; query := query u;
                   fragment := fragment u |}))).

(** *** Percent-encoding *)

(** [_hexdig] and the value of a hexadecimal digit. *)
Definition hexval (c : ascii) : option nat :=
  if Py.is_digit c then Some (Py.ord c - 48)
  else if Nat.leb 65 (Py.ord c) && Nat.leb (Py.ord c) 70 then Some (Py.ord c - 55)
  else if Nat.leb 97 (Py.ord c) && Nat.leb (Py.ord c) 102 then Some (Py.ord c - 87)
  else None.

(** One piece of [string.split("%")] after the first, as
    [unquote_to_bytes] treats it: two hexadecimal digits give a byte,
    anything else keeps its percent sign. *)
Definition unquote_item (item : string) : string :=
  match item with
  | String a (String b rest) =>
      match hexval a, hexval b with
      | Some x, Some y => String (Py.chr (16 * x + y)) rest
      | _, _ => "%" +:+ item
      end
  | _ => "%" +:+ item
  end.

(** [unquote(string)].  On the UTF-8 bytes of the text this is
    [unquote_to_bytes]; Python then decodes with [errors="replace"],
    which changes the result only where the escapes decode to bytes
    that are not UTF-8 (never for ASCII escapes). *)
Definition unquote (s : string) : string :=
  match Py.split "%" s with
  | [] => s
  | bit0 :: items => bit0 +:+ Py.join EmptyString (map unquote_item items)
  end.

Definition _ALWAYS_SAFE (c : ascii) : bool :=
  Py.is_upper c || Py.is_lower c || Py.is_digit c || Py.contains c "_.-~".

Definition hexdigit (n : nat) : ascii :=
  if Nat.ltb n 10 then Py.chr (48 + n) else Py.chr (55 + n).

(** [_Quoter.__missing__]: the byte itself when safe, else "%XX". *)
Definition quoter (safe : ascii -> bool) (c : ascii) : string :=
  if _ALWAYS_SAFE c || (Py.is_ascii c && safe c) then Py.str1 c
  else String "%" (String (hexdigit (Py.ord c / 16))
                     (String (hexdigit (Py.ord c mod 16)) EmptyString)).

(** [quote(string, safe)]: every byte through the quoter. *)
Fixpoint quote (safe : ascii -> bool) (s : string) : string :=
  match s with
  | EmptyString => EmptyString
  | String c s' => quoter safe c +:+ quote safe s'
  end.

(** [quote_plus(string)] with [safe=""]. *)
Definition quote_plus (s : string) : string :=
  if negb (Py.contains " " s) then quote (fun _ => false) s
  else Py.replace " " "+" (quote (fun c => Ascii.eqb c " ") s).

(** A value of the query dictionary: the [str] a caller passes in
    [newparams], or the list of strings [parse_qs] builds. *)
Inductive qvalue :=
  | QStr (s : string)
  | QList (l : list string).

(** The "key=value" items of [urlencode(query, doseq=True)]. *)
Definition urlencode_items (query : list (string * qvalue)) : list string :=
  flat_map
    (fun '(k, v) =>
       let k := quote_plus k in
       match v with
       | QStr s => [k +:+ "=" +:+ quote_plus s]
       | QList l => map (fun elt => k +:+ "=" +:+ quote_plus elt) l
       end)
    query.

(** [urlencode(query, True)] *)
Definition urlencode (query : list (string * qvalue)) : string :=
  Py.join "&" (urlencode_items query).

(** The body of the loop of [parse_qsl] for one "name=value" field,
    with [keep_blank_values=False] and [strict_parsing=False]. *)
Definition parse_field (name_value : string) : list (string * string) :=
  if negb (Py.truthy name_value) then []
  else match Py.split1 "=" name_value with
       | None => []
       | Some (n, v) =>
           if Py.truthy v
           then [(unquote (Py.replace "+" " " n), unquote (Py.replace "+" " " v))]
           else []
       end.

(** [parse_qsl(qs)] *)
Definition parse_qsl (qs : string) : list (string * string) :=
  let query_args := if Py.truthy qs then Py.split "&" qs else [] in
  flat_map parse_field query_args.

(** The loop of [parse_qs]: a repeated name appends to its list. *)
Definition group_pairs (pairs : list (string * string)) : list (string * qvalue) :=
  fold_left
    (fun parsed '(name, value) =>
       match Dict.get name parsed with
       | Some (QList l) => Dict.set name (QList (l ++ [value])%list) parsed
       | _ => Dict.set name (QList [value]) parsed
       end)
    pairs [].

(** [parse_qs(qs)] *)
Definition parse_qs (qs : string) : list (string * qvalue) :=
  group_pairs (parse_qsl qs).

End urllib.

(** ** Python values, objects and the heap *)

Abbreviation loc := nat.

Inductive value :=
  | VNone
  | VBool (b : bool)
  | VInt (z : Z)
  | VStr (s : string)
  | VRef (l : loc).

#[global] Instance value_eq_dec : EqDecision value.
Proof. solve_decision. Defined.

(** The objects that are shared by reference: [dict]s with string keys
    (links and the JSON body of a request) and [list]s. *)
Inductive object :=
  | ODict (d : gmap string value)
  | OList (l : list value).

(** The heap: the object at location [l] is the [l]-th element; a new
    object goes to the end. *)
Abbreviation heap := (list object).

(** The request as [links.py] uses it.  [method], [url] and [base_url]
    are [request.method], [str(request.url)] and [str(request.base_url)];
    [json] is what [await request.json()] gives: the object Starlette
    parsed from the body, the same one at every call, or the exception. *)
Module Request.
Record t := {
  method : string;
  url : string;
  base_url : string;
  json : result value
}.
End Request.

(** What the code can change: the heap, and the attribute [postbody]
    that [get_links] sets on the request ([None] while it is not set). *)
Record state := {
  st_heap : heap;
  st_postbody : option value
}.

(** Computations that read and write the state and may raise. *)
Definition M (A : Type) : Type := state -> result (A * state).

Definition ret {A} (a : A) : M A := fun st => Ok (a, st).

Definition bind {A B} (m : M A) (k : A -> M B) : M B :=
  fun st =>
    match m st with
    | Ok (a, st') => k a st'
    | Raise e => Raise e
    end.

Definition lift {A} (r : result A) : M A :=
  fun st =>
    match r with
    | Ok a => Ok (a, st)
    | Raise e => Raise e
    end.

Definition raise {A} (e : exn) : M A := fun _ => Raise e.

Notation "'let*' x := m 'in' k" := (bind m (fun x => k))
  (at level 10, x pattern, m at level 100, k at level 200).

(** A dictionary or list display: a new object on the heap. *)
Definition alloc (o : object) : M value :=
  fun st =>
    Ok (VRef (List.length (st_heap st)),
        {| st_heap := (st_heap st ++ [o])%list;
           st_postbody := st_postbody st |}).

(** [v[k]] for a string key [k]. *)
Definition getitem (v : value) (k : string) : M value :=
  fun st =>
    match v with
    | VRef l =>
        match st_heap st !! l with
        | Some (ODict d) =>
            match d !! k with
            | Some x => Ok (x, st)
            | None => Raise KeyError
            end
        | Some (OList _) => Raise TypeError
        | None => Raise NotModelled
        end
    | _ => Raise TypeError
    end.

(** [v[k] = x] for a string key [k]: the dictionary is updated in place. *)
Definition setitem (v : value) (k : string) (x : value) : M unit :=
  fun st =>
    match v with
    | VRef l =>
        match st_heap st !! l with
        | Some (ODict d) =>
            Ok (tt, {| st_heap := <[l := ODict (<[k := x]> d)]> (st_heap st);
                       st_postbody := st_postbody st |})
        | Some (OList _) => Raise TypeError
        | None => Raise NotModelled
        end
    | _ => Raise TypeError
    end.

(** The values [for x in v] goes through: the elements of a list, the
    keys of a dictionary, the characters of a string. *)
Definition iterate (v : value) : M (list value) :=
  fun st =>
    match v with
    | VRef l =>
        match st_heap st !! l with
        | Some (OList items) => Ok (items, st)
        | Some (ODict d) => Ok (VStr <$> (map_to_list d).*1, st)
        | None => Raise NotModelled
        end
    | VStr s => Ok ((fun c => VStr (Py.str1 c)) <$> list_ascii_of_string s, st)
    | _ => Raise TypeError
    end.

(** [str(v)] *)
Definition py_str (v : value) : result string :=
  match v with
  | VStr s => Ok s
  | VNone => Ok "None"
  | VBool true => Ok "True"
  | VBool false => Ok "False"
  | VInt z => Ok (pretty z)
  | VRef _ => Raise NotModelled
  end.

(** ** Constants of [stac_pydantic] *)

(** Modelled from the spec: the members of [stac_pydantic.links.Relations]
    that [links.py] names; each is the string of its relation. *)
Module Relations.
Definition self := "self".
Definition root := "root".
Definition parent := "parent".
Definition collection := "collection".
Definition item := "item".
Definition next := "next".
Definition previous := "previous".
Definition alternate := "alternate".
End Relations.

(** Modelled from the spec: the members of
    [stac_pydantic.shared.MimeTypes] that the link classes name. *)
Module MimeTypes.
Definition json := "application/json".
Definition geojson := "application/geo+json".
Definition png := "image/png".
Definition html := "text/html".
Definition xml := "application/xml".
End MimeTypes.

(** ** [links.py] *)

Definition INFERRED_LINK_RELS : list string :=
  ["self"; "item"; "parent"; "collection"; "root"].

(** [rel not in INFERRED_LINK_RELS]: only a string can equal a member. *)
Definition not_inferred (rel : value) : bool :=
  match rel with
  | VStr s => negb (urllib.mem s INFERRED_LINK_RELS)
  | _ => true
  end.

(** [filter_links(links)], on the elements of [links]. *)
Fixpoint filter_links (links : list value) : M (list value) :=
  match links with
  | [] => ret []
  | link :: links' =>
      let* rel := getitem link "rel" in
      let* rest := filter_links links' in
      ret (if not_inferred rel then link :: rest else rest)
  end.

Definition merge_params (url : string) (newparams : list (string * urllib.qvalue))
  : result string :=
  rbind (urllib.urlparse url EmptyString) (fun u =>
    let params := urllib.parse_qs (urllib.query u) in
    let params := Dict.update params newparams in
    let param_string := urllib.unquote (urllib.urlencode params) in
    let href :=
      urllib.geturl
        {| urllib.scheme := urllib.scheme u;
           urllib.netloc := urllib.netloc u;
           urllib.path := urllib.path u;
           urllib.params := urllib.params u;
           urllib.query := param_string;
           urllib.fragment := urllib.fragment u |} in
    Ok href).

(** The link classes.  An instance is its class with the attributes that
    [attr.s] gives it; [next] and [prev] default to [None]. *)
Inductive links :=
  | BaseLinks (request : Request.t)
  | PagingLinks (request : Request.t) (next prev : option string)
  | CollectionLinksBase (request : Request.t) (collection_id : string)
  | CollectionLinks (request : Request.t) (collection_id : string)
  | ItemLinks (request : Request.t) (collection_id item_id : string).

Definition request (self : links) : Request.t :=
  match self with
  | BaseLinks r | PagingLinks r _ _ | CollectionLinksBase r _
  | CollectionLinks r _ | ItemLinks r _ _ => r
  end.

(** [BaseLinks.base_url] *)
Definition base_url (self : links) : string := Request.base_url (request self).

(** [BaseLinks.url] *)
Definition url (self : links) : string := Request.url (request self).

(** [BaseLinks.resolve]: [urljoin(str(self.base_url), str(url))] *)
Definition resolve (self : links) (url : value) : result string :=
  rbind (py_str url) (fun u => urllib.urljoin (base_url self) u).

(** [BaseLinks.link_self] *)
Definition BaseLinks_link_self (self : links) : M value :=
  alloc (ODict {[ "rel" := VStr Relations.self;
                  "type" := VStr MimeTypes.json;
                  "href" := VStr (url self) ]}).

(** [BaseLinks.link_root] *)
Definition link_root (self : links) : M value :=
  alloc (ODict {[ "rel" := VStr Relations.root;
                  "type" := VStr MimeTypes.json;
                  "href" := VStr (base_url self) ]}).

(** [self.request.postbody] *)
Definition get_postbody : M value :=
  fun st =>
    match st_postbody st with
    | Some body => Ok (body, st)
    | None => Raise AttributeError
    end.

(** [self.request.postbody = v] *)
Definition set_postbody (v : value) : M unit :=
  fun st => Ok (tt, {| st_heap := st_heap st; st_postbody := Some v |}).

(** [PagingLinks.link_next] *)
Definition link_next (request : Request.t) (next : option string) : M value :=
  match next with
  | Some next =>
      let method := Request.method request in
      if String.eqb method "GET" then
        let* href :=
          lift (merge_params (Request.url request)
                  [("token", urllib.QStr ("next:" +:+ next))]) in
        alloc (ODict {[ "rel" := VStr Relations.next;
                        "type" := VStr MimeTypes.json;
                        "method" := VStr method;
                        "href" := VStr href ]})
      else if String.eqb method "POST" then
        let* body := get_postbody in
        let* _ := setitem body "token" (VStr ("next:" +:+ next)) in
        alloc (ODict {[ "rel" := VStr Relations.next;
                        "type" := VStr MimeTypes.json;
                        "method" := VStr method;
                        "href" := VStr (Request.url request);
                        "body" := body ]})
      else ret VNone
  | None => ret VNone
  end.

(** [PagingLinks.link_prev] *)
Definition link_prev (request : Request.t) (prev : option string) : M value :=
  match prev with
  | Some prev =>
      let method := Request.method request in
      if String.eqb method "GET" then
        let* href :=
          lift (merge_params (Request.url request)
                  [("token", urllib.QStr ("prev:" +:+ prev))]) in
        alloc (ODict {[ "rel" := VStr Relations.previous;
                        "type" := VStr MimeTypes.json;
                        "method" := VStr method;
                        "href" := VStr href ]})
      else if String.eqb method "POST" then
        let* body := get_postbody in
        let* _ := setitem body "token" (VStr ("prev:" +:+ prev)) in
        alloc (ODict {[ "rel" := VStr Relations.previous;
                        "type" := VStr MimeTypes.json;
                        "method" := VStr method;
                        "href" := VStr (Request.url request);
                        "body" := body ]})
      else ret VNone
  | None => ret VNone
  end.

(** [CollectionLinksBase.collection_link] *)
Definition collection_link (self : links) (collection_id rel : string) : M value :=
  let* href := lift (resolve self (VStr ("collections/" +:+ collection_id))) in
  alloc (ODict {[ "rel" := VStr rel;
                  "type" := VStr MimeTypes.json;
                  "href" := VStr href ]}).

(** [CollectionLinks.link_self] *)
Definition CollectionLinks_link_self (self : links) (collection_id : string) : M value :=
  collection_link self collection_id Relations.self.

(** [CollectionLinks.link_parent] *)
Definition CollectionLinks_link_parent (self : links) : M value :=
  alloc (ODict {[ "rel" := VStr Relations.parent;
                  "type" := VStr MimeTypes.json;
                  "href" := VStr (base_url self) ]}).

(** [CollectionLinks.link_items] *)
Definition link_items (self : links) (collection_id : string) : M value :=
  let* href :=
    lift (resolve self (VStr ("collections/" +:+ collection_id +:+ "/items"))) in
  alloc (ODict {[ "rel" := VStr "items";
                  "type" := VStr MimeTypes.geojson;
                  "href" := VStr href ]}).

(** [ItemLinks.link_self] *)
Definition ItemLinks_link_self (self : links) (collection_id item_id : string) : M value :=
  let* href :=
    lift (resolve self
            (VStr ("collections/" +:+ collection_id +:+ "/items/" +:+ item_id))) in
  alloc (ODict {[ "rel" := VStr Relations.self;
                  "type" := VStr MimeTypes.geojson;
                  "href" := VStr href ]}).

(** [ItemLinks.link_parent] *)
Definition ItemLinks_link_parent (self : links) (collection_id : string) : M value :=
  collection_link self collection_id Relations.parent.

(** [ItemLinks.link_collection] *)
Definition link_collection (self : links) (collection_id : string) : M value :=
  collection_link self collection_id Relations.collection.

(** [ItemLinks.link_tiles] *)
Definition link_tiles (self : links) (collection_id item_id : string) : M value :=
  let* href :=
    lift (resolve self
            (VStr ("collections/" +:+ collection_id +:+ "/items/" +:+ item_id
                   +:+ "/tiles"))) in
  alloc (ODict {[ "rel" := VStr Relations.alternate;
                  "type" := VStr MimeTypes.json;
                  "title" := VStr "tiles";
                  "href" := VStr href ]}).

(** [dir(self)] without the names that start with an underscore (none of
    them starts with "link_"): the attributes of the instance and of its
    classes, sorted. *)
Definition dir (self : links) : list string :=
  match self with
  | BaseLinks _ =>
      ["base_url"; "create_links"; "get_links"; "link_root"; "link_self";
       "request"; "resolve"; "url"]
  | PagingLinks _ _ _ =>
      ["base_url"; "create_links"; "get_links"; "link_next"; "link_prev";
       "link_root"; "link_self"; "next"; "prev"; "request"; "resolve"; "url"]
  | CollectionLinksBase _ _ =>
      ["base_url"; "collection_id"; "collection_link"; "create_links";
       "get_links"; "link_root"; "link_self"; "request"; "resolve"; "url"]
  | CollectionLinks _ _ =>
      ["base_url"; "collection_id"; "collection_link"; "create_links";
       "get_links"; "link_items"; "link_parent"; "link_root"; "link_self";
       "request"; "resolve"; "url"]
  | ItemLinks _ _ _ =>
      ["base_url"; "collection_id"; "collection_link"; "create_links";
       "get_links"; "item_id"; "link_collection"; "link_parent"; "link_root";
       "link_self"; "link_tiles"; "request"; "resolve"; "url"]
  end.

(** [getattr(self, name)()] for a name of [dir(self)] that starts with
    "link_": the method the class of [self] resolves the name to. *)
Definition call_link (self : links) (name : string) : M value :=
  if String.eqb name "link_root" then link_root self
  else match self with
  | BaseLinks _ | CollectionLinksBase _ _ =>
      if String.eqb name "link_self" then BaseLinks_link_self self
      else raise AttributeError
  | PagingLinks r next prev =>
      if String.eqb name "link_self" then BaseLinks_link_self self
      else if String.eqb name "link_next" then link_next r next
      else if String.eqb name "link_prev" then link_prev r prev
      else raise AttributeError
  | CollectionLinks _ cid =>
      if String.eqb name "link_self" then CollectionLinks_link_self self cid
      else if String.eqb name "link_parent" then CollectionLinks_link_parent self
      else if String.eqb name "link_items" then link_items self cid
      else raise AttributeError
  | ItemLinks _ cid iid =>
      if String.eqb name "link_self" then ItemLinks_link_self self cid iid
      else if String.eqb name "link_parent" then ItemLinks_link_parent self cid
      else if String.eqb name "link_collection" then link_collection self cid
      else if String.eqb name "link_tiles" then link_tiles self cid iid
      else raise AttributeError
  end.

(** The loop of [create_links]: every producer's result is appended. *)
Fixpoint create_links_loop (self : links) (names : list string) (links : list value)
  : M (list value) :=
  match names with
  | [] => ret links
  | name :: names' =>
      if Py.startswith "link_" name then
        let* link := call_link self name in
        create_links_loop self names' (links ++ [link])%list
      else create_links_loop self names' links
  end.

(** [BaseLinks.create_links] *)
Definition create_links (self : links) : M (list value) :=
  create_links_loop self (dir self) [].

(** The default of the parameter [extra_links] of [get_links]: the list
    that the [def] statement builds once, when the class body runs.  It
    is the object at this location of every heap the methods run on. *)
Definition extra_links_default : loc := 0.

(** The loop of [get_links] over [extra_links]. *)
Fixpoint get_links_loop (self : links) (extra_links : list value) (links : list value)
  : M (list value) :=
  match extra_links with
  | [] => ret links
  | link :: extra_links' =>
      let* rel := getitem link "rel" in
      if not_inferred rel then
        let* href := getitem link "href" in
        let* href' := lift (resolve self href) in
        let* _ := setitem link "href" (VStr href') in
        get_links_loop self extra_links' (links ++ [link])%list
      else get_links_loop self extra_links' links
  end.

(** [BaseLinks.get_links]; [extra_links] is [None] when the caller leaves
    the argument out. *)
Definition get_links (self : links) (extra_links : option value) : M (list value) :=
  let extra_links :=
    match extra_links with
    | Some v => v
    | None => VRef extra_links_default
    end in
  let* _ :=
    if String.eqb (Request.method (request self)) "POST" then
      let* body := lift (Request.json (request self)) in
      set_postbody body
    else ret tt in
  let* links := create_links self in
  match extra_links with
  | VNone => ret links
  | _ =>
      let* items := iterate extra_links in
      get_links_loop self items links
  end.

(** The class [TileLinks]. *)
Module TileLinks.

(** An instance: the three attributes that [attr.s] declares, and
    [item_uri], which only [__post_init__] assigns ([None] while the
    instance has no such attribute). *)
Record t := {
  base_url : string;
  collection_id : string;
  item_id : string;
  item_uri : option string
}.

(** [TileLinks(base_url, collection_id, item_id)]: the [__init__] that
    [attr.s] generates assigns the three attributes.  The hook it runs
    afterwards is [__attrs_post_init__]; the class defines
    [__post_init__] instead, which nothing calls. *)
Definition new (base_url collection_id item_id : string) : t :=
  {| base_url := base_url; collection_id := collection_id;
     item_id := item_id; item_uri := None |}.

(** [TileLinks.__post_init__] *)
Definition __post_init__ (self : t) : result t :=
  rbind
    (urllib.urljoin (base_url self)
       ("collections/" +:+ collection_id self +:+ "/items/" +:+ item_id self))
    (fun uri =>
       Ok {| base_url := base_url self; collection_id := collection_id self;
             item_id := item_id self; item_uri := Some uri |}).

(** [self.item_uri] *)
Definition get_item_uri (self : t) : result string :=
  match item_uri self with
  | Some uri => Ok uri
  | None => Raise AttributeError
  end.

(** [TileLinks.link_tiles] *)
Definition link_tiles (self : t) : M value :=
  let* uri := lift (get_item_uri self) in
  let* href :=
    lift (urllib.urljoin (base_url self)
            ("titiler/tiles/{z}/{x}/{y}.png?url=" +:+ uri)) in
  alloc (ODict {[ "href" := VStr href;
                  "rel" := VStr Relations.item;
                  "title" := VStr "tiles";
                  "type" := VStr MimeTypes.png;
                  "templated" := VBool true ]}).

(** [TileLinks.link_viewer] *)
Definition link_viewer (self : t) : M value :=
  let* uri := lift (get_item_uri self) in
  let* href :=
    lift (urllib.urljoin (base_url self) ("titiler/viewer?url=" +:+ uri)) in
  alloc (ODict {[ "href" := VStr href;
                  "rel" := VStr Relations.alternate;
                  "type" := VStr MimeTypes.html;
                  "title" := VStr "viewer" ]}).

(** [TileLinks.link_tilejson] *)
Definition link_tilejson (self : t) : M value :=
  let* uri := lift (get_item_uri self) in
  let* href :=
    lift (urllib.urljoin (base_url self) ("titiler/tilejson.json?url=" +:+ uri)) in
  alloc (ODict {[ "href" := VStr href;
                  "rel" := VStr Relations.alternate;
                  "type" := VStr MimeTypes.json;
                  "title" := VStr "tilejson" ]}).

(** [TileLinks.link_wmts] *)
Definition link_wmts (self : t) : M value :=
  let* uri := lift (get_item_uri self) in
  let* href :=
    lift (urllib.urljoin (base_url self)
            ("titiler/WMTSCapabilities.xml?url=" +:+ uri)) in
  alloc (ODict {[ "href" := VStr href;
                  "rel" := VStr Relations.alternate;
                  "type" := VStr MimeTypes.xml;
                  "title" := VStr "WMTS Capabilities";
                  "templated" := VBool false ]}).

End TileLinks.

(** ** Reading the heap *)

(** The dictionary a value refers to. *)
Definition deref (h : heap) (v : value) : option (gmap string value) :=
  match v with
  | VRef l =>
      match h !! l with
      | Some (ODict d) => Some d
      | _ => None
      end
  | _ => None
  end.

(** The field [k] of the dictionary a value refers to. *)
Definition field (h : heap) (v : value) (k : string) : option value :=
  match deref h v with
  | Some d => d !! k
  | None => None
  end.

(** A link whose relation is not one of the inferred ones. *)
Definition keeps (h : heap) (link : value) : bool :=
  match field h link "rel" with
  | Some rel => not_inferred rel
  | None => false
  end.

(** A value the code has just built: [None] or an object that was not
    on the heap [h]. *)
Definition fresh_in (h : heap) (v : value) : Prop :=
  match v with
  | VRef l => List.length h <= l
  | VNone => True
  | _ => False
  end.

(** [h'] has every object of [h] at its place: lists as they were,
    dictionaries as they were except for the keys [ks]. *)
Definition preserved (ks : list string) (h h' : heap) : Prop :=
  List.length h <= List.length h' /\
  forall l o, h !! l = Some o ->
    match o with
    | OList items => h' !! l = Some (OList items)
    | ODict d =>
        exists d', h' !! l = Some (ODict d') /\
                   forall k, k ∉ ks -> d' !! k = d !! k
    end.

(** A computation that leaves every object of the heap in place, up to
    the token of a dictionary. *)
Definition frames {A} (m : M A) : Prop :=
  forall st a st', m st = Ok (a, st') ->
    preserved ["token"] (st_heap st) (st_heap st').

(** A computation that moreover returns [None] or a new object. *)
Definition produces (m : M value) : Prop :=
  forall st v st', m st = Ok (v, st') ->
    preserved ["token"] (st_heap st) (st_heap st') /\ fresh_in (st_heap st) v.

(** A value that refers to nothing outside the heap [h]. *)
Definition valid_in (h : heap) (v : value) : Prop :=
  match v with
  | VRef l => l < List.length h
  | _ => True
  end.

(** An entry of [extra_links] that [get_links] can process: a dictionary
    with a relation and, unless the relation is an inferred one, with an
    href that resolves against the base URL. *)
Definition entry_ok (self : links) (h : heap) (v : value) : Prop :=
  exists l d rel,
    v = VRef l /\ h !! l = Some (ODict d) /\ d !! "rel" = Some rel
    /\ (not_inferred rel = true ->
        exists href href',
          d !! "href" = Some href /\ resolve self href = Ok href').

(** A computation that leaves the attribute [postbody] of the request
    as it is. *)
Definition keeps_postbody {A} (m : M A) : Prop :=
  forall st a st', m st = Ok (a, st') -> st_postbody st' = st_postbody st.

(** The same instance on a request with another body. *)
Definition with_json (self : links) (j : result value) : links :=
  let set_json (r : Request.t) :=
    {| Request.method := Request.method r; Request.url := Request.url r;
       Request.base_url := Request.base_url r; Request.json := j |} in
  match self with
  | BaseLinks r => BaseLinks (set_json r)
  | PagingLinks r n p => PagingLinks (set_json r) n p
  | CollectionLinksBase r cid => CollectionLinksBase (set_json r) cid
  | CollectionLinks r cid => CollectionLinks (set_json r) cid
  | ItemLinks r cid iid => ItemLinks (set_json r) cid iid
  end.

(** ** Classes of URLs and parameters for the query merger *)

Definition is_tab_cr_lf (c : ascii) : bool :=
  Ascii.eqb c (Py.chr 9) || Ascii.eqb c (Py.chr 13) || Ascii.eqb c (Py.chr 10).

(** A character a query value keeps through [merge_params] and a new
    parse: not a separator of the query string or of the URL, not one
    that the parser decodes or drops, and not a space (written "+"). *)
Definition plain_value_char (c : ascii) : bool :=
  negb (Py.contains c "&+%# ") && negb (is_tab_cr_lf c).

(** The same for a key, which must not contain "=" either. *)
Definition plain_key_char (c : ascii) : bool :=
  plain_value_char c && negb (Ascii.eqb c "=").

Definition plain_key (k : string) : bool := Py.forallb plain_key_char k.

Definition plain_value (v : string) : bool :=
  Py.truthy v && Py.forallb plain_value_char v.

(** The strings a query value stands for in the query string. *)
Definition values_of (v : urllib.qvalue) : list string :=
  match v with
  | urllib.QStr s => [s]
  | urllib.QList l => l
  end.

(** Every key is plain, every value is plain and not blank, and no key
    has an empty list of values. *)
Definition plain_params (d : list (string * urllib.qvalue)) : bool :=
  forallb
    (fun '(k, v) =>
       plain_key k
       && match values_of v with [] => false | l => forallb plain_value l end)
    d.

(** The (key, value) pairs a query dictionary stands for, in order. *)
Definition flatten (d : list (string * urllib.qvalue)) : list (string * string) :=
  flat_map (fun '(k, v) => map (pair k) (values_of v)) d.

(** A query string that spells its pairs out as they are. *)
Definition render (pairs : list (string * string)) : string :=
  Py.join "&" (map (fun '(k, v) => k +:+ "=" +:+ v) pairs).

(** The dictionary with every value as the list [parse_qs] would give. *)
Definition as_lists (d : list (string * urllib.qvalue)) : list (string * urllib.qvalue) :=
  map (fun '(k, v) => (k, urllib.QList (values_of v))) d.

(** The step of the loop of [parse_qs]. *)
Abbreviation group_step :=
  (fun (parsed : list (string * urllib.qvalue)) '(name, value) =>
     match Dict.get name parsed with
     | Some (urllib.QList l) => Dict.set name (urllib.QList (l ++ [value])) parsed
     | _ => Dict.set name (urllib.QList [value]) parsed
     end).

(** Dictionaries with the same keys, in order, and the same values in
    the query string. *)
Abbreviation same_values :=
  (Forall2 (fun a b : string * urllib.qvalue =>
              a.1 = b.1 /\ values_of a.2 = values_of b.2)).

(** An absolute URL in the shape Starlette gives [request.url]:
    a lower-case scheme, a host without brackets, a path that is empty
    or starts with "/" and has no parameters, any fragment. *)
Definition canonical (p : urllib.ParseResult) : bool :=
  match urllib.scheme p with
  | String c0 _ => Py.is_alpha c0
  | EmptyString => false
  end
  && Py.forallb (fun c => urllib.scheme_chars c && negb (Py.is_upper c))
       (urllib.scheme p)
  && Py.truthy (urllib.netloc p)
  && Py.forallb
       (fun c => negb (Py.contains c "/?#[]") && Py.is_ascii c
                 && negb (is_tab_cr_lf c))
       (urllib.netloc p)
  && (negb (Py.truthy (urllib.path p))
      || String.eqb (Py.take1 (urllib.path p)) "/")
  && Py.forallb (fun c => negb (Py.contains c "?#;") && negb (is_tab_cr_lf c))
       (urllib.path p)
  && negb (Py.truthy (urllib.params p))
  && Py.forallb (fun c => negb (is_tab_cr_lf c)) (urllib.fragment p).

(** The parts of a URL with another query string: the [ParseResult]
    that [merge_params] builds. *)
Definition with_query (p : urllib.ParseResult) (qs : string) : urllib.ParseResult :=
  {| urllib.scheme := urllib.scheme p;
     urllib.netloc := urllib.netloc p;
     urllib.path := urllib.path p;
     urllib.params := urllib.params p;
     urllib.query := qs;
     urllib.fragment := urllib.fragment p |}.

(** A query string that a URL keeps when it is parsed again. *)
Definition query_safe (qs : string) : bool :=
  Py.forallb (fun c => negb (Ascii.eqb c "#") && negb (is_tab_cr_lf c)) qs.

(** ** The claims on the query merger, as the specification words them *)




(** ** Classes of base URLs and path segments for the resolver *)

(** A character of a path segment that the resolver leaves alone: not a
    delimiter of the URL, not a control character or a space. *)
Definition segment_char (c : ascii) : bool :=
  negb (Py.contains c "/?#;:") && negb (urllib.c0_control_or_space c).

(** A non-empty path segment of such characters that is not a dot
    segment. *)
Definition simple_segment (s : string) : bool :=
  Py.truthy s && Py.forallb segment_char s
  && negb (String.eqb s ".") && negb (String.eqb s "..").

(** The path of a directory: "/seg1/.../segk/". *)
Definition dir_path (segs : list string) : string :=
  Py.join "/" (EmptyString :: segs ++ [EmptyString]).

(** The parts of a base URL as Starlette gives [request.base_url]:
    canonical, on a scheme that [urljoin] resolves against, with the
    path of a directory and neither query nor fragment. *)
Definition base_parts_ok (b : urllib.ParseResult) (segs : list string) : bool :=
  canonical b
  && urllib.mem (urllib.scheme b) urllib.uses_relative
  && String.eqb (urllib.path b) (dir_path segs)
  && forallb simple_segment segs
  && negb (Py.truthy (urllib.query b))
  && negb (Py.truthy (urllib.fragment b)).

(** The characters of a relative path of simple segments. *)
Definition path_char (c : ascii) : bool := segment_char c || Ascii.eqb c "/".

(** What follows the path in a URL with the query string [qs]. *)
Definition query_part (qs : string) : string :=
  if Py.truthy qs then String "?" qs else EmptyString.

(** ** A concrete request

    A collection request with stored links, on which the statements
    below are run. *)

(** A heap with the default list, a stored "self" link, a stored
    "license" link with a relative href, and the list of the two. *)
Definition example_heap : heap :=
  [OList [];
   ODict {[ "rel" := VStr "self"; "href" := VStr "http://old/collections/naip" ]};
   ODict {[ "rel" := VStr "license"; "href" := VStr "lic/a.txt" ]};
   OList [VRef 1; VRef 2]].

Definition example_state : state :=
  {| st_heap := example_heap; st_postbody := None |}.

Definition example_links : links :=
  CollectionLinks
    {| Request.method := "GET"; Request.url := "http://test/stac/collections/naip";
       Request.base_url := "http://test/stac/"; Request.json := Raise ValueError |}
    "naip".

(** * Properties *)

(** ** The paging links *)

(** C8: a paging producer declines, without raising and without touching
    the state, whenever its cursor is absent or the method of the
    request is neither GET nor POST. *)
Theorem paging_link_declines (r : Request.t) (cursor : option string) (st : state) :
  cursor = None \/ (Request.method r <> "GET" /\ Request.method r <> "POST") ->
  link_next r cursor st = Ok (VNone, st) /\ link_prev r cursor st = Ok (VNone, st).
Proof.
  intros [-> | [Hget Hpost]]; [done |].
  apply String.eqb_neq in Hget, Hpost.
  unfold link_next, link_prev.
  destruct cursor as [c |]; [| done].
  by rewrite Hget, Hpost.
Qed.

Lemma paging_link_declines_witness :
  let r := {| Request.method := "PUT"; Request.url := "http://test/search";
              Request.base_url := "http://test/"; Request.json := Raise ValueError |} in
  let st := {| st_heap := [OList []]; st_postbody := None |} in
  (Some "abc" = None \/ (Request.method r <> "GET" /\ Request.method r <> "POST"))
  /\ link_next r (Some "abc") st = Ok (VNone, st)
  /\ link_prev r (Some "abc") st = Ok (VNone, st).
Proof.
  intros r st.
  assert (H : Some "abc" = None
              \/ (Request.method r <> "GET" /\ Request.method r <> "POST")).
  { right. split; discriminate. }
  split; [exact H |].
  exact (paging_link_declines r (Some "abc") st H).
Defined.

(** C3: under GET, with a cursor, the next (previous) link has relation
    "next" ("previous"), no body, and as href the request URL with
    token=next:<cursor> (token=prev:<cursor>) merged in by
    [merge_params]; the link is a new dictionary. *)
Theorem paging_link_get (r : Request.t) (c : string) (st : state) (hn hp : string) :
  Request.method r = "GET" ->
  merge_params (Request.url r) [("token", urllib.QStr ("next:" +:+ c))] = Ok hn ->
  merge_params (Request.url r) [("token", urllib.QStr ("prev:" +:+ c))] = Ok hp ->
  (exists d,
     link_next r (Some c) st
     = Ok (VRef (List.length (st_heap st)),
           {| st_heap := st_heap st ++ [ODict d];
              st_postbody := st_postbody st |})
     /\ d !! "rel" = Some (VStr "next")
     /\ d !! "href" = Some (VStr hn)
     /\ d !! "body" = None)
  /\ (exists d,
     link_prev r (Some c) st
     = Ok (VRef (List.length (st_heap st)),
           {| st_heap := st_heap st ++ [ODict d];
              st_postbody := st_postbody st |})
     /\ d !! "rel" = Some (VStr "previous")
     /\ d !! "href" = Some (VStr hp)
     /\ d !! "body" = None).
Proof.
  intros Hm Hn Hp.
  split; eexists; (split; [| split; [| split]]).
  - unfold link_next. rewrite Hm. simpl. unfold bind, lift.
    rewrite Hn. reflexivity.
  - reflexivity.
  - reflexivity.
  - reflexivity.
  - unfold link_prev. rewrite Hm. simpl. unfold bind, lift.
    rewrite Hp. reflexivity.
  - reflexivity.
  - reflexivity.
  - reflexivity.
Qed.

(** ** The items link *)


(** C1: [create_links] appends what every producer returns, also the
    [None] of a producer that declines: without cursors the list of a
    [PagingLinks] starts with two [None] entries. *)
Theorem create_links_keeps_declined (r : Request.t) (st : state) :
  exists st',
    create_links (PagingLinks r None None) st
    = Ok ([VNone; VNone; VRef (List.length (st_heap st));
           VRef (S (List.length (st_heap st)))], st').
Proof.
  eexists. unfold create_links. simpl. unfold bind, ret, link_root, alloc.
  simpl. rewrite length_app. simpl. rewrite Nat.add_1_r. reflexivity.
Qed.

(** ** Steps on the heap *)

Lemma setitem_dict (st : state) (l : loc) (d : gmap string value) (k : string) (x : value) :
  st_heap st !! l = Some (ODict d) ->
  setitem (VRef l) k x st
  = Ok (tt, {| st_heap := <[l := ODict (<[k := x]> d)]> (st_heap st);
               st_postbody := st_postbody st |}).
Proof. intros H. unfold setitem. by rewrite H. Qed.

Lemma getitem_dict (st : state) (l : loc) (d : gmap string value) (k : string) (x : value) :
  st_heap st !! l = Some (ODict d) ->
  d !! k = Some x ->
  getitem (VRef l) k st = Ok (x, st).
Proof. intros H Hk. unfold getitem. by rewrite H, Hk. Qed.

Lemma field_dict (h : heap) (l : loc) (d : gmap string value) (k : string) :
  h !! l = Some (ODict d) -> field h (VRef l) k = d !! k.
Proof. intros H. unfold field, deref. by rewrite H. Qed.

Lemma field_app_l (h h' : heap) (l : loc) (k : string) :
  l < List.length h -> field (h ++ h') (VRef l) k = field h (VRef l) k.
Proof. intros H. unfold field, deref. by rewrite lookup_app_l. Qed.

Lemma field_app_new (h : heap) (d : gmap string value) (k : string) :
  field (h ++ [ODict d]) (VRef (List.length h)) k = d !! k.
Proof.
  apply field_dict. rewrite lookup_app_r by lia.
  by rewrite Nat.sub_diag.
Qed.

(** Under POST a paging producer writes its token into the dictionary
    that [postbody] refers to and puts that same reference in its link. *)
Lemma link_next_post (r : Request.t) (n : string) (b : loc)
    (d : gmap string value) (st : state) :
  Request.method r = "POST" ->
  st_postbody st = Some (VRef b) ->
  st_heap st !! b = Some (ODict d) ->
  link_next r (Some n) st
  = Ok (VRef (List.length (st_heap st)),
        {| st_heap :=
             <[b := ODict (<["token" := VStr ("next:" +:+ n)]> d)]> (st_heap st)
             ++ [ODict {[ "rel" := VStr "next";
                          "type" := VStr "application/json";
                          "method" := VStr "POST";
                          "href" := VStr (Request.url r);
                          "body" := VRef b ]}];
           st_postbody := Some (VRef b) |}).
Proof.
  intros Hm Hp Hb. unfold link_next. rewrite Hm. simpl.
  unfold bind, get_postbody. rewrite Hp.
  rewrite (setitem_dict _ b d) by done.
  unfold alloc. simpl. by rewrite length_insert, Hp.
Qed.

Lemma link_prev_post (r : Request.t) (p : string) (b : loc)
    (d : gmap string value) (st : state) :
  Request.method r = "POST" ->
  st_postbody st = Some (VRef b) ->
  st_heap st !! b = Some (ODict d) ->
  link_prev r (Some p) st
  = Ok (VRef (List.length (st_heap st)),
        {| st_heap :=
             <[b := ODict (<["token" := VStr ("prev:" +:+ p)]> d)]> (st_heap st)
             ++ [ODict {[ "rel" := VStr "previous";
                          "type" := VStr "application/json";
                          "method" := VStr "POST";
                          "href" := VStr (Request.url r);
                          "body" := VRef b ]}];
           st_postbody := Some (VRef b) |}).
Proof.
  intros Hm Hp Hb. unfold link_prev. rewrite Hm. simpl.
  unfold bind, get_postbody. rewrite Hp.
  rewrite (setitem_dict _ b d) by done.
  unfold alloc. simpl. by rewrite length_insert, Hp.
Qed.

(** The producers that [create_links] finds in [dir(self)], in order. *)
Lemma create_links_paging (r : Request.t) (n p : option string) :
  create_links (PagingLinks r n p)
  = (let* a := link_next r n in
     let* b := link_prev r p in
     let* c := link_root (PagingLinks r n p) in
     let* d := BaseLinks_link_self (PagingLinks r n p) in
     ret [a; b; c; d]).
Proof. reflexivity. Qed.

(** C2: under POST, with both cursors, the next link and the previous
    link of the returned list both have the request URL as href and, as
    body, a reference to the one dictionary [postbody], whose token is
    the one written last, "prev:<prev cursor>": the next link does not
    carry its own token. *)
Theorem post_links_share_body (r : Request.t) (n p : string) (b : loc)
    (d : gmap string value) (st : state) :
  Request.method r = "POST" ->
  Request.json r = Ok (VRef b) ->
  st_heap st !! b = Some (ODict d) ->
  exists ln lp rest st',
    get_links (PagingLinks r (Some n) (Some p)) (Some VNone) st
    = Ok (VRef ln :: VRef lp :: rest, st')
    /\ field (st_heap st') (VRef ln) "rel" = Some (VStr "next")
    /\ field (st_heap st') (VRef lp) "rel" = Some (VStr "previous")
    /\ field (st_heap st') (VRef ln) "body" = Some (VRef b)
    /\ field (st_heap st') (VRef lp) "body" = Some (VRef b)
    /\ field (st_heap st') (VRef b) "token" = Some (VStr ("prev:" +:+ p)).
Proof.
  intros Hm Hj Hb.
  pose proof (lookup_lt_Some _ _ _ Hb) as Hlt.
  set (d1 := <["token" := VStr ("next:" +:+ n)]> d).
  set (st1 := {| st_heap := st_heap st; st_postbody := Some (VRef b) |}).
  pose proof (link_next_post r n b d st1 Hm eq_refl Hb) as Hn.
  match type of Hn with _ = Ok (_, ?s) => set (st2 := s) in Hn end.
  assert (Hb2 : st_heap st2 !! b = Some (ODict d1)).
  { simpl. rewrite lookup_app_l by (by rewrite length_insert).
    by apply list_lookup_insert_eq. }
  pose proof (link_prev_post r p b d1 st2 Hm eq_refl Hb2) as Hp.
  match type of Hp with _ = Ok (_, ?s) => set (st3 := s) in Hp end.
  unfold get_links. cbn [request]. rewrite Hm. simpl String.eqb. cbv iota.
  unfold bind at 1. unfold bind at 1. unfold lift. rewrite Hj.
  unfold set_postbody. fold st1.
  rewrite create_links_paging.
  unfold bind at 1. unfold bind at 1. rewrite Hn.
  unfold bind at 1. rewrite Hp.
  unfold bind, link_root, BaseLinks_link_self, alloc, ret.
  do 4 eexists. split; [reflexivity |].
  subst st3 st2 st1. cbn [st_heap]. clear Hn Hp Hb2. fold d1.
  set (m := List.length (st_heap st)) in *.
  set (lnk_next := ODict {[ "rel" := VStr "next"; "type" := VStr "application/json";
                            "method" := VStr "POST"; "href" := VStr (Request.url r);
                            "body" := VRef b ]}).
  set (lnk_prev := ODict {[ "rel" := VStr "previous"; "type" := VStr "application/json";
                            "method" := VStr "POST"; "href" := VStr (Request.url r);
                            "body" := VRef b ]}).
  set (h2 := <[b := ODict d1]> (st_heap st) ++ [lnk_next]).
  set (h3 := <[b := ODict (<["token" := VStr ("prev:" +:+ p)]> d1)]> h2).
  assert (Hlen2 : List.length h2 = S m).
  { subst h2 m. rewrite length_app, length_insert. simpl. lia. }
  assert (Hlen3 : List.length h3 = S m)
    by (subst h3; by rewrite length_insert).
  assert (Hnext : h3 !! m = Some lnk_next).
  { subst h3. rewrite list_lookup_insert_ne by lia.
    subst h2. rewrite lookup_app_r by (rewrite length_insert; lia).
    by rewrite length_insert, Nat.sub_diag. }
  assert (Hbody : h3 !! b = Some (ODict (<["token" := VStr ("prev:" +:+ p)]> d1))).
  { subst h3. apply list_lookup_insert_eq. lia. }
  rewrite Hlen2.
  match goal with |- field ?h _ _ = _ /\ _ => set (hf := h) end.
  assert (Hf1 : hf !! m = Some lnk_next).
  { subst hf. rewrite !lookup_app_l by (rewrite ?length_app; simpl; lia). done. }
  assert (Hf2 : hf !! S m = Some lnk_prev).
  { subst hf. rewrite <- Hlen3.
    rewrite !(lookup_app_l (_ ++ _)) by (rewrite ?length_app; simpl; lia).
    rewrite lookup_app_r by lia. by rewrite Nat.sub_diag. }
  assert (Hf3 : hf !! b = Some (ODict (<["token" := VStr ("prev:" +:+ p)]> d1))).
  { subst hf. rewrite !lookup_app_l by (rewrite ?length_app; simpl; lia). done. }
  rewrite !(field_dict hf m _ _ Hf1), !(field_dict hf (S m) _ _ Hf2),
    !(field_dict hf b _ _ Hf3).
  repeat split; try reflexivity.
  apply lookup_insert_eq.
Qed.

Lemma post_links_share_body_witness :
  let r := {| Request.method := "POST"; Request.url := "http://test/search";
              Request.base_url := "http://test/"; Request.json := Ok (VRef 1) |} in
  let d : gmap string value := {[ "limit" := VInt 3 ]} in
  let st := {| st_heap := [OList []; ODict d]; st_postbody := None |} in
  exists ln lp rest st',
    get_links (PagingLinks r (Some "n") (Some "p")) (Some VNone) st
    = Ok (VRef ln :: VRef lp :: rest, st')
    /\ field (st_heap st') (VRef ln) "rel" = Some (VStr "next")
    /\ field (st_heap st') (VRef lp) "rel" = Some (VStr "previous")
    /\ field (st_heap st') (VRef ln) "body" = Some (VRef 1)
    /\ field (st_heap st') (VRef lp) "body" = Some (VRef 1)
    /\ field (st_heap st') (VRef 1) "token" = Some (VStr "prev:p").
Proof.
  intros r d st.
  exact (post_links_share_body r "n" "p" 1 d st eq_refl eq_refl eq_refl).
Defined.

(** ** What the producers leave in place *)

Lemma preserved_refl (ks : list string) (h : heap) : preserved ks h h.
Proof.
  split; [done |]. intros l [d | items] H; [| done].
  exists d. by split.
Qed.

Lemma preserved_trans (ks : list string) (h1 h2 h3 : heap) :
  preserved ks h1 h2 -> preserved ks h2 h3 -> preserved ks h1 h3.
Proof.
  intros [Hl1 H1] [Hl2 H2]. split; [lia |].
  intros l o Ho. specialize (H1 l o Ho). destruct o as [d | items].
  - destruct H1 as (d' & Hd' & Hk). specialize (H2 l _ Hd').
    destruct H2 as (d'' & Hd'' & Hk'). exists d''. split; [done |].
    intros k Hnot. by rewrite Hk', Hk.
  - exact (H2 l _ H1).
Qed.

Lemma preserved_weaken (ks ks' : list string) (h h' : heap) :
  ks ⊆ ks' -> preserved ks h h' -> preserved ks' h h'.
Proof.
  intros Hsub [Hl H]. split; [done |].
  intros l o Ho. specialize (H l o Ho). destruct o as [d | items]; [| done].
  destruct H as (d' & Hd' & Hk). exists d'. split; [done |].
  intros k Hnot. apply Hk. intros Hin. apply Hnot, Hsub, Hin.
Qed.

Lemma preserved_alloc (ks : list string) (h : heap) (o : object) :
  preserved ks h (h ++ [o]).
Proof.
  split; [rewrite length_app; lia |].
  intros l o' Ho'.
  assert (Hl : (h ++ [o]) !! l = Some o').
  { rewrite lookup_app_l; [done | by eapply lookup_lt_Some]. }
  destruct o' as [d | items]; [| done]. exists d. by split.
Qed.

Lemma preserved_setitem (h : heap) (l : loc) (d : gmap string value)
    (k : string) (x : value) :
  h !! l = Some (ODict d) ->
  preserved [k] h (<[l := ODict (<[k := x]> d)]> h).
Proof.
  intros Hl. split; [by rewrite length_insert |].
  intros l' o Ho. destruct (decide (l' = l)) as [Heq | Hne].
  - rewrite Heq in *. rewrite Hl in Ho. injection Ho as <-.
    exists (<[k := x]> d). split.
    + apply list_lookup_insert_eq. by eapply lookup_lt_Some.
    + intros k' Hk'. apply lookup_insert_ne. intros ->. apply Hk'. by left.
  - rewrite <- (list_lookup_insert_ne h l l' (ODict (<[k := x]> d))) in Ho by done.
    destruct o as [d' | items]; [| done]. exists d'. by split.
Qed.

Lemma produces_alloc (o : object) : produces (alloc o).
Proof.
  intros st v st' H. unfold alloc in H. injection H as <- <-.
  split; [apply preserved_alloc | simpl; lia].
Qed.

Lemma produces_ret_None : produces (ret VNone).
Proof.
  intros st v st' H. injection H as <- <-.
  split; [apply preserved_refl | done].
Qed.

Lemma frames_lift {A} (r : result A) : frames (lift r).
Proof.
  intros st a st' H. unfold lift in H. destruct r; [| done].
  injection H as <- <-. apply preserved_refl.
Qed.

Lemma frames_get_postbody : frames get_postbody.
Proof.
  intros st a st' H. unfold get_postbody in H.
  destruct (st_postbody st); [| done]. injection H as <- <-.
  apply preserved_refl.
Qed.

Lemma frames_setitem_token (v x : value) : frames (setitem v "token" x).
Proof.
  intros st a st' H. unfold setitem in H.
  destruct v as [| | | | l]; try done.
  destruct (st_heap st !! l) as [[d | items] |] eqn:Hl; try done.
  injection H as <- <-. simpl. by apply preserved_setitem.
Qed.

Lemma fresh_in_mono (h h' : heap) (v : value) :
  List.length h <= List.length h' -> fresh_in h' v -> fresh_in h v.
Proof. destruct v; simpl; try done. lia. Qed.

Lemma produces_bind {A} (m : M A) (k : A -> M value) :
  frames m -> (forall a, produces (k a)) -> produces (bind m k).
Proof.
  intros Hm Hk st v st' H. unfold bind in H.
  destruct (m st) as [[a st1] |] eqn:Hmst; [| done].
  specialize (Hm _ _ _ Hmst). destruct (Hk a _ _ _ H) as [Hp Hf].
  split; [by eapply preserved_trans |].
  eapply fresh_in_mono; [| exact Hf]. apply Hm.
Qed.

Create HintDb producers.
#[local] Hint Resolve produces_alloc produces_ret_None frames_lift
  frames_get_postbody frames_setitem_token : producers.
#[local] Hint Extern 2 (produces (bind _ _)) =>
  apply produces_bind; [| intros ?] : producers.

Lemma produces_raise (e : exn) : produces (raise e).
Proof. intros st v st' H. discriminate H. Qed.
#[local] Hint Resolve produces_raise : producers.

Lemma produces_link_next (r : Request.t) (n : option string) : produces (link_next r n).
Proof.
  unfold link_next. destruct n; [| auto with producers].
  repeat case_match; auto 6 with producers.
Qed.

Lemma produces_link_prev (r : Request.t) (p : option string) : produces (link_prev r p).
Proof.
  unfold link_prev. destruct p; [| auto with producers].
  repeat case_match; auto 6 with producers.
Qed.
#[local] Hint Resolve produces_link_next produces_link_prev : producers.

Lemma produces_call_link (self : links) (name : string) :
  produces (call_link self name).
Proof.
  unfold call_link, link_root, BaseLinks_link_self, CollectionLinks_link_self,
    CollectionLinks_link_parent, link_items, ItemLinks_link_self,
    ItemLinks_link_parent, link_collection, link_tiles, collection_link.
  repeat case_match; auto 6 with producers.
Qed.

Lemma create_links_loop_frame (self : links) (names : list string) :
  forall (links : list value) (st : state) (res : list value) (st' : state),
    create_links_loop self names links st = Ok (res, st') ->
    preserved ["token"] (st_heap st) (st_heap st')
    /\ exists gen, res = links ++ gen /\ Forall (fresh_in (st_heap st)) gen.
Proof.
  induction names as [| name names IH]; intros links st res st' H; simpl in H.
  - injection H as <- <-. split; [apply preserved_refl |].
    exists []. by rewrite app_nil_r.
  - destruct (Py.startswith "link_" name).
    + unfold bind in H.
      destruct (call_link self name st) as [[v st1] |] eqn:Hcall; [| done].
      destruct (produces_call_link self name _ _ _ Hcall) as [Hp Hf].
      destruct (IH _ _ _ _ H) as (Hp' & gen & -> & Hgen).
      split; [by eapply preserved_trans |].
      exists (v :: gen). split; [by rewrite <- app_assoc |].
      constructor; [done |].
      eapply Forall_impl; [exact Hgen |]. intros x Hx.
      eapply fresh_in_mono; [| exact Hx]. apply Hp.
    + by apply IH.
Qed.

Lemma create_links_frame (self : links) (st : state) (gen : list value) (st' : state) :
  create_links self st = Ok (gen, st') ->
  preserved ["token"] (st_heap st) (st_heap st')
  /\ Forall (fresh_in (st_heap st)) gen.
Proof.
  intros H. destruct (create_links_loop_frame _ _ _ _ _ _ H) as (Hp & g & -> & Hg).
  by split.
Qed.

(** ** The loop over [extra_links] *)

(** [get_links] with extra links is [get_links] without, followed by
    the loop over the elements of [extra_links]. *)
Lemma get_links_extra (self : links) (e : loc) (st : state) :
  get_links self (Some (VRef e)) st
  = match get_links self (Some VNone) st with
    | Ok (gen, st1) =>
        (let* items := iterate (VRef e) in get_links_loop self items gen) st1
    | Raise x => Raise x
    end.
Proof.
  unfold get_links, bind.
  destruct (if String.eqb (Request.method (request self)) "POST" then _ else _)
    as [[[] st0] |]; [| done].
  by destruct (create_links self st0) as [[gen st1] |].
Qed.

Lemma get_links_frame (self : links) (st : state) (gen : list value) (st1 : state) :
  get_links self (Some VNone) st = Ok (gen, st1) ->
  preserved ["token"] (st_heap st) (st_heap st1)
  /\ Forall (fresh_in (st_heap st)) gen.
Proof.
  unfold get_links, bind. intros H.
  destruct (if String.eqb (Request.method (request self)) "POST" then _ else _)
    as [[[] st0] |] eqn:Hpre; [| done].
  assert (Hh : st_heap st0 = st_heap st).
  { destruct (String.eqb _ _).
    - unfold lift, set_postbody in Hpre.
      destruct (Request.json (request self)); [| done].
      by injection Hpre as <-.
    - by injection Hpre as <-. }
  destruct (create_links self st0) as [[g st2] |] eqn:Hc; [| done].
  injection H as <- <-. rewrite <- Hh. by apply (create_links_frame self).
Qed.

Lemma field_set_href (h : heap) (l : loc) (d : gmap string value)
    (x v : value) (k : string) :
  h !! l = Some (ODict d) ->
  k <> "href" ->
  field (<[l := ODict (<["href" := x]> d)]> h) v k = field h v k.
Proof.
  intros Hl Hk. unfold field, deref. destruct v as [| | | | l']; try done.
  destruct (decide (l' = l)) as [Heq | Hne].
  - rewrite Heq.
    rewrite list_lookup_insert_eq by (by eapply lookup_lt_Some).
    rewrite Hl. by rewrite lookup_insert_ne.
  - by rewrite list_lookup_insert_ne.
Qed.

Lemma keeps_set_href (h : heap) (l : loc) (d : gmap string value) (x v : value) :
  h !! l = Some (ODict d) ->
  keeps (<[l := ODict (<["href" := x]> d)]> h) v = keeps h v.
Proof. intros Hl. unfold keeps. by rewrite (field_set_href h l d). Qed.

Lemma keeps_preserved (ks : list string) (h h' : heap) (v : value) :
  "rel" ∉ ks -> preserved ks h h' -> valid_in h v -> keeps h' v = keeps h v.
Proof.
  intros Hk [_ Hp] Hv. unfold keeps, field, deref.
  destruct v as [| | | | l]; try done. simpl in Hv.
  destruct (lookup_lt_is_Some_2 _ _ Hv) as [o Ho]. rewrite Ho.
  specialize (Hp l o Ho). destruct o as [d | items].
  - destruct Hp as (d' & -> & Hd'). by rewrite Hd'.
  - by rewrite Hp.
Qed.

(** What the loop returns when it returns: the links it was given,
    followed by the entries it keeps, in order. *)
Lemma get_links_loop_inv (self : links) (items : list value) :
  forall (links : list value) (st : state) (res : list value) (st' : state),
    get_links_loop self items links st = Ok (res, st') ->
    res = links ++ List.filter (keeps (st_heap st)) items
    /\ Forall (fun v => is_Some (field (st_heap st) v "rel")) items
    /\ preserved ["href"] (st_heap st) (st_heap st').
Proof.
  induction items as [| v items IH]; intros links st res st' H; simpl in H.
  - injection H as <- <-. rewrite app_nil_r.
    split; [done | split; [done | apply preserved_refl]].
  - unfold bind in H.
    destruct (getitem v "rel" st) as [[rel st0] |] eqn:Hrel; [| done].
    unfold getitem in Hrel. destruct v as [| | | | l]; try done.
    destruct (st_heap st !! l) as [[d | its] |] eqn:Hl; try done.
    destruct (d !! "rel") as [rel' |] eqn:Hd; [| done].
    injection Hrel as <- <-.
    assert (Hk : keeps (st_heap st) (VRef l) = not_inferred rel').
    { unfold keeps. by rewrite (field_dict _ _ d), Hd. }
    assert (Hv : is_Some (field (st_heap st) (VRef l) "rel")).
    { rewrite (field_dict _ _ d) by done. by rewrite Hd. }
    cbn [List.filter]. rewrite Hk.
    destruct (not_inferred rel') eqn:Hni.
    + unfold getitem in H. rewrite Hl in H.
      destruct (d !! "href") as [href |]; [| done].
      unfold lift in H. destruct (resolve self href) as [href' |]; [| done].
      rewrite (setitem_dict _ l d) in H by done.
      destruct (IH _ _ _ _ H) as (-> & Hvs & Hp). cbn [st_heap] in Hvs, Hp.
      split; [| split].
      2:{ constructor; [done |]. eapply Forall_impl; [exact Hvs |].
          intros x. cbn beta. by rewrite (field_set_href _ l d). }
      2:{ eapply preserved_trans; [| exact Hp]. by apply preserved_setitem. }
      rewrite <- app_assoc. simpl. f_equal. f_equal.
      apply List.filter_ext. intros x.
      by rewrite (keeps_set_href _ l d).
    + destruct (IH _ _ _ _ H) as (-> & Hvs & Hp).
      split; [done | split; [by constructor | done]].
Qed.

Lemma filter_links_run (links : list value) (st : state) :
  Forall (fun v => is_Some (field (st_heap st) v "rel")) links ->
  filter_links links st = Ok (List.filter (keeps (st_heap st)) links, st).
Proof.
  induction 1 as [| v links [rel Hrel] _ IH]; [done |].
  assert (Hk : keeps (st_heap st) v = not_inferred rel).
  { unfold keeps. by rewrite Hrel. }
  assert (Hget : getitem v "rel" st = Ok (rel, st)).
  { unfold field, deref in Hrel. destruct v as [| | | | l]; try done.
    destruct (st_heap st !! l) as [[d | its] |] eqn:Hl; try done.
    by apply (getitem_dict _ _ d). }
  cbn [filter_links List.filter]. unfold bind.
  by rewrite Hget, IH, Hk.
Qed.

Lemma entry_ok_set_href (self : links) (h : heap) (l : loc)
    (d : gmap string value) (x v : value) :
  v <> VRef l -> entry_ok self h v ->
  entry_ok self (<[l := ODict (<["href" := x]> d)]> h) v.
Proof.
  intros Hne (l' & d' & rel & -> & Hl' & Hrel & Hhref).
  exists l', d', rel. repeat split; try done.
  rewrite list_lookup_insert_ne; [done |]. congruence.
Qed.

(** The loop runs to its end on entries it can process; each entry it
    keeps has its href overwritten with the resolved one, in place, and
    nothing else on the heap changes. *)
Lemma get_links_loop_run (self : links) (items : list value) :
  forall (links : list value) (st : state),
    NoDup items ->
    Forall (entry_ok self (st_heap st)) items ->
    exists st',
      get_links_loop self items links st
      = Ok (links ++ List.filter (keeps (st_heap st)) items, st')
      /\ (forall l d href href',
            VRef l ∈ items ->
            st_heap st !! l = Some (ODict d) ->
            keeps (st_heap st) (VRef l) = true ->
            d !! "href" = Some href ->
            resolve self href = Ok href' ->
            st_heap st' !! l = Some (ODict (<["href" := VStr href']> d)))
      /\ (forall l,
            ~ (VRef l ∈ items /\ keeps (st_heap st) (VRef l) = true) ->
            st_heap st' !! l = st_heap st !! l).
Proof.
  induction items as [| v items IH]; intros links st Hnd Hok.
  - exists st. simpl. rewrite app_nil_r. repeat split; try done.
    intros l d href href' Hin. by apply elem_of_nil in Hin.
  - apply NoDup_cons in Hnd as [Hnotin Hnd].
    apply Forall_cons in Hok as [Hv Hok].
    destruct Hv as (l0 & d0 & rel & -> & Hl0 & Hrel & Hhref).
    assert (Hk0 : keeps (st_heap st) (VRef l0) = not_inferred rel).
    { unfold keeps. by rewrite (field_dict _ _ d0), Hrel. }
    simpl. unfold bind. rewrite (getitem_dict _ _ d0 _ rel) by done.
    rewrite Hk0. destruct (not_inferred rel) eqn:Hni.
    + destruct (Hhref eq_refl) as (href0 & href0' & Hh0 & Hres0).
      rewrite (getitem_dict _ _ d0 _ href0) by done.
      unfold lift. rewrite Hres0. rewrite (setitem_dict _ l0 d0) by done.
      set (st2 := {| st_heap := <[l0 := ODict (<["href" := VStr href0']> d0)]> (st_heap st);
                     st_postbody := st_postbody st |}).
      destruct (IH (links ++ [VRef l0]) st2 Hnd) as (st' & Hrun & Ha & Hb).
      { apply Forall_forall. intros x Hx.
        apply entry_ok_set_href.
        - intros ->. by apply Hnotin.
        - by apply (proj1 (Forall_forall _ _) Hok). }
      assert (Hfilter : List.filter (keeps (st_heap st2)) items
                        = List.filter (keeps (st_heap st)) items).
      { apply List.filter_ext. intros x. cbn [st_heap st2].
        by apply (keeps_set_href _ l0 d0). }
      exists st'. split; [| split].
      * rewrite Hrun, Hfilter. by rewrite <- app_assoc.
      * intros l d href href' Hin Hl Hk Hh Hres.
        apply elem_of_cons in Hin as [Heq | Hin].
        -- injection Heq as ->.
           rewrite Hb.
           ++ cbn [st_heap st2].
              rewrite list_lookup_insert_eq by (by eapply lookup_lt_Some).
              congruence.
           ++ intros [Hin _]. by apply Hnotin.
        -- assert (Hne : l <> l0) by (intros ->; by apply Hnotin).
           apply (Ha l d href href' Hin); try done.
           ++ cbn [st_heap st2]. by rewrite list_lookup_insert_ne.
           ++ cbn [st_heap st2]. by rewrite (keeps_set_href _ l0 d0).
      * intros l Hnot.
        assert (Hne : l <> l0).
        { intros ->. apply Hnot. split; [by left | by rewrite Hk0]. }
        rewrite Hb.
        -- cbn [st_heap st2]. by rewrite list_lookup_insert_ne.
        -- intros [Hin Hk]. apply Hnot. split; [by right |].
           cbn [st_heap st2] in Hk.
           by rewrite (keeps_set_href _ l0 d0) in Hk.
    + destruct (IH links st Hnd Hok) as (st' & Hrun & Ha & Hb).
      exists st'. split; [done | split].
      * intros l d href href' Hin Hl Hk Hh Hres.
        apply elem_of_cons in Hin as [Heq | Hin]; [| by eapply Ha].
        injection Heq as ->. congruence.
      * intros l Hnot. apply Hb. intros [Hin Hk]. apply Hnot.
        split; [by right | done].
Qed.

Lemma entry_ok_preserved (self : links) (h h' : heap) (v : value) :
  preserved ["token"] h h' -> entry_ok self h v -> entry_ok self h' v.
Proof.
  intros [_ Hp] (l & d & rel & -> & Hl & Hrel & Hhref).
  destruct (Hp l _ Hl) as (d' & Hl' & Hd').
  assert (Hne : forall k, k <> "token" -> k ∉ ["token"]).
  { intros k Hk Hin. apply list_elem_of_singleton in Hin. done. }
  exists l, d', rel. repeat split; try done.
  - rewrite Hd'; [done | by apply Hne].
  - intros Hni. destruct (Hhref Hni) as (href & href' & Hh & Hres).
    exists href, href'. split; [| done]. rewrite Hd'; [done | by apply Hne].
Qed.

Lemma entry_ok_valid (self : links) (h : heap) (v : value) :
  entry_ok self h v -> valid_in h v.
Proof.
  intros (l & d & rel & -> & Hl & _). simpl. by eapply lookup_lt_Some.
Qed.

Lemma filter_keeps_preserved (h h' : heap) (items : list value) :
  preserved ["token"] h h' ->
  Forall (valid_in h) items ->
  List.filter (keeps h') items = List.filter (keeps h) items.
Proof.
  intros Hp Hv. apply List.filter_ext_in. intros x Hx.
  apply (keeps_preserved ["token"]); [| done |].
  - intros Hin. by apply list_elem_of_singleton in Hin.
  - apply (proj1 (Forall_forall _ _) Hv). by apply list_elem_of_In.
Qed.

(** [get_links] on a list of entries it can process: the generated links
    followed by the entries whose relation is not inferred, each of them
    the caller's own dictionary with its href overwritten. *)
Lemma get_links_extra_run (self : links) (e : loc) (items : list value)
    (st : state) (gen : list value) (st1 : state) :
  get_links self (Some VNone) st = Ok (gen, st1) ->
  st_heap st !! e = Some (OList items) ->
  NoDup items ->
  Forall (entry_ok self (st_heap st)) items ->
  exists st',
    get_links self (Some (VRef e)) st
    = Ok (gen ++ List.filter (keeps (st_heap st)) items, st')
    /\ forall l href href',
         VRef l ∈ items ->
         keeps (st_heap st) (VRef l) = true ->
         field (st_heap st) (VRef l) "href" = Some href ->
         resolve self href = Ok href' ->
         field (st_heap st') (VRef l) "href" = Some (VStr href').
Proof.
  intros Hgen He Hnd Hok.
  destruct (get_links_frame _ _ _ _ Hgen) as [Hp Hfresh].
  assert (He1 : st_heap st1 !! e = Some (OList items)).
  { destruct Hp as [_ Hp]. exact (Hp e _ He). }
  assert (Hok1 : Forall (entry_ok self (st_heap st1)) items).
  { eapply Forall_impl; [exact Hok |]. intros x. by apply entry_ok_preserved. }
  assert (Hvalid : Forall (valid_in (st_heap st)) items).
  { eapply Forall_impl; [exact Hok |]. intros x. by apply entry_ok_valid. }
  destruct (get_links_loop_run self items gen st1 Hnd Hok1) as (st' & Hrun & Ha & _).
  exists st'. split.
  - rewrite get_links_extra, Hgen. unfold bind, iterate. rewrite He1, Hrun.
    by rewrite (filter_keeps_preserved _ _ _ Hp Hvalid).
  - intros l href href' Hin Hk Hh Hres.
    assert (Hvl : valid_in (st_heap st) (VRef l)).
    { by apply (proj1 (Forall_forall _ _) Hvalid). }
    unfold field, deref in Hh.
    destruct (st_heap st !! l) as [[d | its] |] eqn:Hl; try done.
    destruct Hp as [Hlen Hp]. destruct (Hp l _ Hl) as (d' & Hl' & Hd').
    rewrite (field_dict _ l (<["href" := VStr href']> d')).
    + apply lookup_insert_eq.
    + apply (Ha l d' href href'); try done.
      * rewrite (keeps_preserved ["token"] (st_heap st)); try done.
        intros Hx. by apply list_elem_of_singleton in Hx.
      * rewrite Hd'; [done |]. intros Hx. by apply list_elem_of_singleton in Hx.
Qed.

(** Whatever its argument, [get_links] leaves every list of the heap as
    it was, and every dictionary too, up to its token and its href. *)
Lemma get_links_preserved (self : links) (extra_links : option value)
    (st : state) (res : list value) (st' : state) :
  get_links self extra_links st = Ok (res, st') ->
  preserved ["token"; "href"] (st_heap st) (st_heap st').
Proof.
  intros H.
  assert (Hsplit : exists gen st1,
            get_links self (Some VNone) st = Ok (gen, st1)
            /\ (st' = st1
                \/ exists items, get_links_loop self items gen st1 = Ok (res, st'))).
  { unfold get_links, bind in *.
    destruct (if String.eqb (Request.method (request self)) "POST" then _ else _)
      as [[[] st0] |]; [| done].
    destruct (create_links self st0) as [[gen st1] |]; [| done].
    exists gen, st1. split; [done |].
    set (v := match extra_links with Some v => v | None => VRef extra_links_default end) in H.
    destruct v as [| | | s | l]; try done.
    - left. by injection H as <- <-.
    - right. unfold iterate in H. by eexists.
    - right. unfold iterate in H.
      destruct (st_heap st1 !! l) as [[d | its] |]; try done; by eexists. }
  destruct Hsplit as (gen & st1 & Hgen & Hrest).
  destruct (get_links_frame _ _ _ _ Hgen) as [Hp _].
  assert (Hp1 : preserved ["token"; "href"] (st_heap st) (st_heap st1)).
  { eapply preserved_weaken; [| exact Hp].
    intros x Hx%list_elem_of_singleton. subst x. by left. }
  destruct Hrest as [-> | [items Hloop]]; [done |].
  destruct (get_links_loop_inv _ _ _ _ _ _ Hloop) as (_ & _ & Hp2).
  eapply preserved_trans; [exact Hp1 |].
  eapply preserved_weaken; [| exact Hp2].
  intros x Hx%list_elem_of_singleton. subst x. right. by left.
Qed.

(** ** The filter and the extra links *)

(** C6: [filter_links] returns, in order, exactly the links whose
    relation is not an inferred one; and of the extra links that
    [get_links] is given, only those follow the generated links in the
    result, so that no entry with an inferred relation is in it. *)
Theorem inferred_links_dropped (self : links) (e : loc) (items links : list value)
    (st st' : state) (res : list value) :
  Forall (fun v => is_Some (field (st_heap st) v "rel")) links ->
  st_heap st !! e = Some (OList items) ->
  Forall (valid_in (st_heap st)) items ->
  get_links self (Some (VRef e)) st = Ok (res, st') ->
  filter_links links st = Ok (List.filter (keeps (st_heap st)) links, st)
  /\ exists gen,
       res = gen ++ List.filter (keeps (st_heap st)) items
       /\ Forall (fresh_in (st_heap st)) gen
       /\ forall v, v ∈ items -> keeps (st_heap st) v = false -> v ∉ res.
Proof.
  intros Hlinks He Hvalid Hrun.
  split; [by apply filter_links_run |].
  rewrite get_links_extra in Hrun.
  destruct (get_links self (Some VNone) st) as [[gen st1] |] eqn:Hgen; [| done].
  destruct (get_links_frame _ _ _ _ Hgen) as [Hp Hfresh].
  assert (He1 : st_heap st1 !! e = Some (OList items)).
  { destruct Hp as [_ Hp]. exact (Hp e _ He). }
  unfold bind, iterate in Hrun. rewrite He1 in Hrun.
  destruct (get_links_loop_inv _ _ _ _ _ _ Hrun) as (-> & Hrefs & _).
  rewrite (filter_keeps_preserved _ _ _ Hp Hvalid).
  exists gen. repeat split; try done.
  intros v Hin Hk Hres. apply elem_of_app in Hres as [Hg | Hf].
  - assert (Hv : valid_in (st_heap st) v)
      by (by apply (proj1 (Forall_forall _ _) Hvalid)).
    assert (Hf : fresh_in (st_heap st) v)
      by (by apply (proj1 (Forall_forall _ _) Hfresh)).
    assert (Hr : is_Some (field (st_heap st1) v "rel"))
      by (by apply (proj1 (Forall_forall _ _) Hrefs)).
    destruct v as [| | | | l]; simpl in *; try done.
    + by destruct Hr.
    + lia.
  - apply list_elem_of_In, List.filter_In in Hf as [_ Hf]. congruence.
Qed.

(** C10: [get_links] overwrites the href of every extra link it keeps in
    the caller's own dictionary, which is the object it appends to the
    result; and a call without the argument works on the one list at
    [extra_links_default]. *)
Theorem get_links_mutates_extra_links (self : links) (e : loc)
    (items : list value) (st : state) (gen : list value) (st1 : state) :
  get_links self (Some VNone) st = Ok (gen, st1) ->
  st_heap st !! e = Some (OList items) ->
  NoDup items ->
  Forall (entry_ok self (st_heap st)) items ->
  (exists st',
     get_links self (Some (VRef e)) st
     = Ok (gen ++ List.filter (keeps (st_heap st)) items, st')
     /\ forall l href href',
          VRef l ∈ items ->
          keeps (st_heap st) (VRef l) = true ->
          field (st_heap st) (VRef l) "href" = Some href ->
          resolve self href = Ok href' ->
          field (st_heap st') (VRef l) "href" = Some (VStr href')
          /\ VRef l ∈ gen ++ List.filter (keeps (st_heap st)) items)
  /\ get_links self None st
     = get_links self (Some (VRef extra_links_default)) st
  /\ forall arg res st' default,
       st_heap st !! extra_links_default = Some (OList default) ->
       get_links self arg st = Ok (res, st') ->
       st_heap st' !! extra_links_default = Some (OList default).
Proof.
  intros Hgen He Hnd Hok. split; [| split; [done |]].
  2:{ intros arg res st' default Hd Hrun.
      destruct (get_links_preserved _ _ _ _ _ Hrun) as [_ Hp].
      exact (Hp _ _ Hd). }
  destruct (get_links_extra_run self e items st gen st1 Hgen He Hnd Hok)
    as (st' & Hrun & Hhref).
  exists st'. split; [done |].
  intros l href href' Hin Hk Hh Hres. split; [by eapply Hhref |].
  apply elem_of_app. right.
  apply list_elem_of_In, List.filter_In. split; [by apply list_elem_of_In | done].
Qed.

(** ** Resolution of the href of an extra link *)



(** ** Instances on concrete requests *)

Lemma paging_link_get_witness :
  let r := {| Request.method := "GET";
              Request.url := "http://test/search?limit=3&bbox=1,2,3,4";
              Request.base_url := "http://test/";
              Request.json := Raise ValueError |} in
  let st := {| st_heap := [OList []]; st_postbody := None |} in
  (exists d,
     link_next r (Some "abc") st
     = Ok (VRef 1, {| st_heap := [OList []; ODict d]; st_postbody := None |})
     /\ d !! "rel" = Some (VStr "next")
     /\ d !! "href"
        = Some (VStr "http://test/search?limit=3&bbox=1,2,3,4&token=next:abc")
     /\ d !! "body" = None)
  /\ (exists d,
     link_prev r (Some "abc") st
     = Ok (VRef 1, {| st_heap := [OList []; ODict d]; st_postbody := None |})
     /\ d !! "rel" = Some (VStr "previous")
     /\ d !! "href"
        = Some (VStr "http://test/search?limit=3&bbox=1,2,3,4&token=prev:abc")
     /\ d !! "body" = None).
Proof.
  intros r st.
  apply (paging_link_get r "abc" st
           "http://test/search?limit=3&bbox=1,2,3,4&token=next:abc"
           "http://test/search?limit=3&bbox=1,2,3,4&token=prev:abc").
  - reflexivity.
  - vm_compute. reflexivity.
  - vm_compute. reflexivity.
Defined.

Lemma inferred_links_dropped_witness :
  exists res st',
    get_links example_links (Some (VRef 3)) example_state = Ok (res, st')
    /\ filter_links [VRef 1; VRef 2] example_state = Ok ([VRef 2], example_state)
    /\ exists gen,
         res = gen ++ [VRef 2]
         /\ Forall (fresh_in example_heap) gen
         /\ forall v, v ∈ [VRef 1; VRef 2] -> keeps example_heap v = false -> v ∉ res.
Proof.
  eexists. eexists. split; [vm_compute; reflexivity |].
  eapply (inferred_links_dropped example_links 3 [VRef 1; VRef 2] [VRef 1; VRef 2]
            example_state).
  - repeat constructor; vm_compute; eauto.
  - reflexivity.
  - repeat constructor; simpl; lia.
  - vm_compute. reflexivity.
Defined.

Lemma get_links_mutates_extra_links_witness :
  exists gen st1,
    get_links example_links (Some VNone) example_state = Ok (gen, st1)
    /\ (exists st',
          get_links example_links (Some (VRef 3)) example_state
          = Ok (gen ++ [VRef 2], st')
          /\ forall l href href',
               VRef l ∈ [VRef 1; VRef 2] ->
               keeps example_heap (VRef l) = true ->
               field example_heap (VRef l) "href" = Some href ->
               resolve example_links href = Ok href' ->
               field (st_heap st') (VRef l) "href" = Some (VStr href')
               /\ VRef l ∈ gen ++ [VRef 2])
    /\ get_links example_links None example_state
       = get_links example_links (Some (VRef extra_links_default)) example_state
    /\ forall arg res st' default,
         example_heap !! extra_links_default = Some (OList default) ->
         get_links example_links arg example_state = Ok (res, st') ->
         st_heap st' !! extra_links_default = Some (OList default).
Proof.
  eexists. eexists. split; [vm_compute; reflexivity |].
  eapply (get_links_mutates_extra_links example_links 3 [VRef 1; VRef 2]
            example_state).
  - vm_compute. reflexivity.
  - reflexivity.
  - apply (bool_decide_unpack _). vm_compute. exact I.
  - repeat constructor.
    + eexists 1, _, _. repeat split; try reflexivity. vm_compute. discriminate.
    + eexists 2, _, _. repeat split; try reflexivity.
      intros _. eexists _, _. split; [reflexivity | vm_compute; reflexivity].
Defined.



(** ** Strings *)

#[local] Arguments String.append !s1 s2 : simpl nomatch.

Lemma str_app_assoc (a b c : string) : (a +:+ b) +:+ c = a +:+ (b +:+ c).
Proof. induction a as [| x a IH]; simpl; [done | by rewrite IH]. Qed.

Lemma str_app_nil_r (a : string) : a +:+ "" = a.
Proof. induction a as [| x a IH]; simpl; [done | by rewrite IH]. Qed.

Lemma contains_app (c : ascii) (a b : string) :
  Py.contains c (a +:+ b) = Py.contains c a || Py.contains c b.
Proof.
  induction a as [| x a IH]; simpl; [done |].
  by destruct (Ascii.eqb x c).
Qed.

Lemma forallb_app (f : ascii -> bool) (a b : string) :
  Py.forallb f (a +:+ b) = Py.forallb f a && Py.forallb f b.
Proof.
  induction a as [| x a IH]; simpl; [done |].
  rewrite IH. by destruct (f x).
Qed.

Lemma forallb_impl (f g : ascii -> bool) (s : string) :
  (forall c, f c = true -> g c = true) ->
  Py.forallb f s = true -> Py.forallb g s = true.
Proof.
  intros Hfg. induction s as [| x s IH]; simpl; [done |].
  intros [Hx Hs]%andb_true_iff. by rewrite (Hfg _ Hx), IH.
Qed.

(** A string of characters that satisfy [f] does not contain a
    character that does not. *)
Lemma forallb_contains (f : ascii -> bool) (c : ascii) (s : string) :
  f c = false -> Py.forallb f s = true -> Py.contains c s = false.
Proof.
  intros Hc. induction s as [| x s IH]; simpl; [done |].
  intros [Hx Hs]%andb_true_iff.
  destruct (Ascii.eqb_spec x c) as [-> | _]; [congruence | by apply IH].
Qed.

Lemma split1_app (c : ascii) (a b : string) :
  Py.contains c a = false ->
  Py.split1 c (a +:+ String c b) = Some (a, b).
Proof.
  induction a as [| x a IH]; simpl.
  - by rewrite Ascii.eqb_refl.
  - destruct (Ascii.eqb x c); [done |]. intros H. by rewrite IH.
Qed.

Lemma split1_absent (c : ascii) (s : string) :
  Py.contains c s = false -> Py.split1 c s = None.
Proof.
  induction s as [| x s IH]; simpl; [done |].
  destruct (Ascii.eqb x c); [done |]. intros H. by rewrite IH.
Qed.

Lemma split_absent (c : ascii) (s : string) :
  Py.contains c s = false -> Py.split c s = [s].
Proof.
  induction s as [| x s IH]; simpl; [done |].
  destruct (Ascii.eqb x c); [done |]. intros H. by rewrite IH.
Qed.

Lemma split_app (c : ascii) (a b : string) :
  Py.contains c a = false ->
  Py.split c (a +:+ String c b) = a :: Py.split c b.
Proof.
  induction a as [| x a IH]; simpl.
  - by rewrite Ascii.eqb_refl.
  - destruct (Ascii.eqb x c); [done |]. intros H. by rewrite IH.
Qed.

Lemma split_not_nil (c : ascii) (s : string) : Py.split c s <> [].
Proof.
  induction s as [| x s IH]; simpl; [done |].
  destruct (Ascii.eqb x c); [done |]. by destruct (Py.split c s).
Qed.

Lemma join_cons (sep x : string) (l : list string) :
  l <> [] -> Py.join sep (x :: l) = x +:+ sep +:+ Py.join sep l.
Proof. by destruct l. Qed.

Lemma join_nil_sep (x : string) (l : list string) :
  Py.join "" (x :: l) = x +:+ Py.join "" l.
Proof. destruct l; simpl; [by rewrite str_app_nil_r | done]. Qed.

Lemma remove_absent (c : ascii) (s : string) :
  Py.contains c s = false -> Py.remove c s = s.
Proof.
  induction s as [| x s IH]; simpl; [done |].
  destruct (Ascii.eqb x c); [done |]. intros H. by rewrite IH.
Qed.

Lemma replace_absent (a b : ascii) (s : string) :
  Py.contains a s = false -> Py.replace a b s = s.
Proof.
  induction s as [| x s IH]; simpl; [done |].
  destruct (Ascii.eqb x a); [done |]. intros H. by rewrite IH.
Qed.

Lemma lower_fixed (s : string) :
  Py.forallb (fun c => negb (Py.is_upper c)) s = true -> Py.lower s = s.
Proof.
  induction s as [| x s IH]; simpl; [done |].
  intros [Hx Hs]%andb_true_iff. unfold Py.lower_char.
  apply negb_true_iff in Hx. by rewrite Hx, IH.
Qed.

(** [span] cuts where the first character that fails [f] stands. *)
Lemma span_app (f : ascii -> bool) (a b : string) :
  Py.forallb f a = true ->
  match b with String c _ => f c = false | EmptyString => True end ->
  Py.span f (a +:+ b) = (a, b).
Proof.
  intros Ha Hb. induction a as [| x a IH]; simpl.
  - destruct b as [| c b]; [done |]. simpl. by rewrite Hb.
  - simpl in Ha. apply andb_true_iff in Ha as [Hx Ha].
    by rewrite Hx, IH.
Qed.

(** ** Percent-decoding *)

Lemma hexval_percent : urllib.hexval "%" = None.
Proof. reflexivity. Qed.

(** [unquote] read from left to right: a percent sign followed by two
    hexadecimal digits is the byte they denote, every other character
    stands for itself. *)
Lemma unquote_String (c : ascii) (s : string) :
  urllib.unquote (String c s)
  = if Ascii.eqb c "%" then
      match s with
      | String a (String b r) =>
          match urllib.hexval a, urllib.hexval b with
          | Some x, Some y => String (Py.chr (16 * x + y)) (urllib.unquote r)
          | _, _ => String "%" (urllib.unquote s)
          end
      | _ => String "%" (urllib.unquote s)
      end
    else String c (urllib.unquote s).
Proof.
  assert (Hfin : forall x l,
            Py.join "" (map urllib.unquote_item (x :: l))
            = urllib.unquote_item x +:+ Py.join "" (map urllib.unquote_item l)).
  { intros x l. cbn [map]. apply join_nil_sep. }
  unfold urllib.unquote. cbn [Py.split].
  destruct (Ascii.eqb c "%") eqn:Hc.
  - destruct s as [| a s1]; [reflexivity |].
    cbn [Py.split].
    destruct (Ascii.eqb_spec a "%") as [-> | Ha].
    + rewrite Hfin, hexval_percent. destruct s1 as [| b r]; reflexivity.
    + destruct s1 as [| b r]; [reflexivity |].
      cbn [Py.split].
      destruct (Ascii.eqb_spec b "%") as [-> | Hb].
      * rewrite Hfin, hexval_percent.
        destruct (urllib.hexval a); reflexivity.
      * pose proof (split_not_nil "%" r) as Hnil.
        destruct (Py.split "%" r) as [| p2 ps]; [done |].
        rewrite Hfin. cbn [urllib.unquote_item].
        destruct (urllib.hexval a), (urllib.hexval b); reflexivity.
  - pose proof (split_not_nil "%" s) as Hnil.
    destruct (Py.split "%" s) as [| p ps]; [done |]. reflexivity.
Qed.

(** Every byte that [quote] writes is read back by [unquote]: a safe
    character is not a percent sign, and an escape is a percent sign
    with the two hexadecimal digits of the byte. *)
Lemma quoter_shape (c : ascii) :
  match urllib.quoter (fun _ => false) c with
  | String a EmptyString => Ascii.eqb a c && negb (Ascii.eqb c "%")
  | String p (String h1 (String h2 EmptyString)) =>
      Ascii.eqb p "%"
      && match urllib.hexval h1, urllib.hexval h2 with
         | Some x, Some y => Ascii.eqb (Py.chr (16 * x + y)) c
         | _, _ => false
         end
  | _ => false
  end = true.
Proof. destruct c as [[] [] [] [] [] [] [] []]; vm_compute; reflexivity. Qed.

Lemma unquote_quoter (c : ascii) (rest : string) :
  urllib.unquote (urllib.quoter (fun _ => false) c +:+ rest)
  = String c (urllib.unquote rest).
Proof.
  pose proof (quoter_shape c) as H.
  destruct (urllib.quoter (fun _ => false) c) as [| a [| h1 [| h2 [| ? ?]]]];
    try done.
  - apply andb_true_iff in H as [Ha Hc]. apply Ascii.eqb_eq in Ha as ->.
    apply negb_true_iff in Hc. simpl. by rewrite unquote_String, Hc.
  - apply andb_true_iff in H as [Hp H]. apply Ascii.eqb_eq in Hp as ->.
    cbn [String.append]. rewrite unquote_String. cbn [Ascii.eqb Bool.eqb].
    destruct (urllib.hexval h1) as [x |]; [| done].
    destruct (urllib.hexval h2) as [y |]; [| done].
    apply Ascii.eqb_eq in H. by rewrite H.
Qed.

Lemma unquote_quote (s rest : string) :
  urllib.unquote (urllib.quote (fun _ => false) s +:+ rest)
  = s +:+ urllib.unquote rest.
Proof.
  induction s as [| c s IH]; simpl; [done |].
  by rewrite str_app_assoc, unquote_quoter, IH.
Qed.

Lemma unquote_quote_plus (s rest : string) :
  Py.contains " " s = false ->
  urllib.unquote (urllib.quote_plus s +:+ rest) = s +:+ urllib.unquote rest.
Proof.
  intros H. unfold urllib.quote_plus. rewrite H. apply unquote_quote.
Qed.

Lemma unquote_other (c : ascii) (s : string) :
  Ascii.eqb c "%" = false ->
  urllib.unquote (String c s) = String c (urllib.unquote s).
Proof. intros H. by rewrite unquote_String, H. Qed.

Lemma unquote_absent (s : string) :
  Py.contains "%" s = false -> urllib.unquote s = s.
Proof.
  induction s as [| c s IH]; [done |]. simpl.
  destruct (Ascii.eqb c "%") eqn:Hc; [done |].
  intros H. by rewrite unquote_other, IH.
Qed.

(** ** The query string of a dictionary *)

Lemma urlencode_items_flatten (d : list (string * urllib.qvalue)) :
  urllib.urlencode_items d
  = map (fun '(k, v) => urllib.quote_plus k +:+ "=" +:+ urllib.quote_plus v)
      (flatten d).
Proof.
  unfold urllib.urlencode_items, flatten.
  induction d as [| [k v] d IH]; [done |].
  cbn [flat_map]. rewrite map_app, IH. f_equal.
  destruct v as [s | l]; [done |]. simpl.
  induction l as [| x l IHl]; [done |]. simpl. by rewrite IHl.
Qed.

Lemma join_map_cons {A} (sep : string) (f : A -> string) (x y : A) (l : list A) :
  Py.join sep (map f (x :: y :: l))
  = f x +:+ sep +:+ Py.join sep (map f (y :: l)).
Proof. reflexivity. Qed.

Lemma unquote_encoded_pairs (pairs : list (string * string)) :
  Forall (fun '(k, v) => Py.contains " " k = false /\ Py.contains " " v = false)
    pairs ->
  urllib.unquote
    (Py.join "&"
       (map (fun '(k, v) => urllib.quote_plus k +:+ "=" +:+ urllib.quote_plus v)
          pairs))
  = render pairs.
Proof.
  unfold render.
  induction 1 as [| [k v] pairs [Hk Hv] _ IH]; [done |].
  destruct pairs as [| kv pairs].
  - simpl. rewrite <- (str_app_nil_r (urllib.quote_plus v)).
    rewrite unquote_quote_plus by done.
    rewrite unquote_other by done.
    rewrite unquote_quote_plus by done. simpl. by rewrite str_app_nil_r.
  - rewrite !join_map_cons. rewrite !str_app_assoc.
    rewrite unquote_quote_plus by done. cbn [String.append].
    rewrite unquote_other by done.
    rewrite unquote_quote_plus by done. cbn [String.append].
    rewrite unquote_other by done.
    apply (f_equal (String.append k)), (f_equal (String "=")),
      (f_equal (String.append v)), (f_equal (String "&")).
    exact IH.
Qed.

(** What a plain key or value does not contain. *)
Lemma plain_value_absent (c : ascii) (v : string) :
  plain_value_char c = false -> plain_value v = true -> Py.contains c v = false.
Proof.
  intros Hc [_ Hv]%andb_true_iff. by apply (forallb_contains plain_value_char).
Qed.

Lemma plain_key_absent (c : ascii) (k : string) :
  plain_key_char c = false -> plain_key k = true -> Py.contains c k = false.
Proof. intros Hc Hk. by apply (forallb_contains plain_key_char). Qed.

Lemma plain_params_flatten (d : list (string * urllib.qvalue)) :
  plain_params d = true ->
  Forall (fun '(k, v) => plain_key k = true /\ plain_value v = true) (flatten d)
  /\ Forall (fun '(k, v) => values_of v <> []) d.
Proof.
  unfold plain_params, flatten.
  induction d as [| [k v] d IH]; [done |].
  cbn [forallb flat_map]. intros [[Hk Hv]%andb_true_iff Hd]%andb_true_iff.
  destruct (IH Hd) as [IH1 IH2].
  assert (Hv' : values_of v <> []
                /\ forallb plain_value (values_of v) = true)
    by (by destruct (values_of v)).
  destruct Hv' as [Hne Hall]. split.
  - apply Forall_app. split; [| done].
    apply Forall_forall. intros [k' v'] Hin.
    apply list_elem_of_fmap in Hin as (y & [= -> ->] & Hy).
    split; [done |].
    apply list_elem_of_In in Hy.
    by apply (proj1 (forallb_forall _ _) Hall).
  - by constructor.
Qed.

(** ** Parsing a rendered query string *)

Lemma parse_field_plain (k v : string) :
  plain_key k = true -> plain_value v = true ->
  urllib.parse_field (k +:+ "=" +:+ v) = [(k, v)].
Proof.
  intros Hk Hv. unfold urllib.parse_field.
  assert (Ht : Py.truthy (k +:+ "=" +:+ v) = true) by (by destruct k).
  rewrite Ht. cbn [negb String.append].
  rewrite split1_app by (by apply plain_key_absent).
  assert (Hvt : Py.truthy v = true) by (by apply andb_true_iff in Hv as [? _]).
  rewrite Hvt.
  rewrite (replace_absent "+" " " k) by (by apply plain_key_absent).
  rewrite (replace_absent "+" " " v) by (by apply plain_value_absent).
  rewrite (unquote_absent k) by (by apply plain_key_absent).
  by rewrite (unquote_absent v) by (by apply plain_value_absent).
Qed.

Lemma render_cons (k v : string) (kv : string * string) (pairs : list (string * string)) :
  render ((k, v) :: kv :: pairs)
  = (k +:+ "=" +:+ v) +:+ String "&" (render (kv :: pairs)).
Proof. unfold render. by rewrite join_map_cons. Qed.

Lemma render_truthy (kv : string * string) (pairs : list (string * string)) :
  Py.truthy (render (kv :: pairs)) = true.
Proof.
  destruct kv as [k v]. destruct pairs as [| kv' pairs].
  - unfold render. simpl. by destruct k.
  - rewrite render_cons. by destruct k.
Qed.

Lemma split_render (pairs : list (string * string)) :
  pairs <> [] ->
  Forall (fun '(k, v) => plain_key k = true /\ plain_value v = true) pairs ->
  Py.split "&" (render pairs) = map (fun '(k, v) => k +:+ "=" +:+ v) pairs.
Proof.
  intros Hne H. induction H as [| [k v] pairs [Hk Hv] _ IH]; [done |].
  assert (Habs : Py.contains "&" (k +:+ "=" +:+ v) = false).
  { rewrite !contains_app, (plain_key_absent "&" k), (plain_value_absent "&" v);
      done. }
  cbn [String.append] in Habs.
  destruct pairs as [| kv pairs].
  - unfold render. simpl. by apply split_absent.
  - rewrite render_cons. cbn [String.append].
    rewrite split_app by done. cbn [map]. f_equal. by apply IH.
Qed.

Lemma parse_qsl_render (pairs : list (string * string)) :
  Forall (fun '(k, v) => plain_key k = true /\ plain_value v = true) pairs ->
  urllib.parse_qsl (render pairs) = pairs.
Proof.
  intros H. unfold urllib.parse_qsl.
  destruct pairs as [| kv pairs]; [done |].
  rewrite render_truthy, split_render by done.
  clear -H. induction H as [| [k v] l [Hk Hv] _ IH]; [done |].
  cbn [map flat_map]. by rewrite parse_field_plain, IH.
Qed.

(** ** Ordered dictionaries *)

Section dict.
Context {V : Type}.
Implicit Types (d : list (string * V)) (k : string) (v : V).

Lemma get_set_eq d k v : Dict.get k (Dict.set k v d) = Some v.
Proof.
  induction d as [| [k' v'] d IH]; simpl.
  - by rewrite String.eqb_refl.
  - destruct (String.eqb k' k) eqn:Hk; simpl.
    + by rewrite String.eqb_refl.
    + by rewrite Hk.
Qed.


Lemma get_None d k : Dict.get k d = None <-> k ∉ Dict.keys d.
Proof.
  induction d as [| [k0 v0] d IH]; simpl.
  - split; [intros _; apply not_elem_of_nil | done].
  - rewrite not_elem_of_cons.
    destruct (String.eqb_spec k0 k) as [-> | Hk0].
    + split; [done | by intros [? _]].
    + rewrite IH. split; [by intros ? | by intros [_ ?]].
Qed.

Lemma set_present d k v : k ∈ Dict.keys d -> Dict.keys (Dict.set k v d) = Dict.keys d.
Proof.
  induction d as [| [k0 v0] d IH]; simpl.
  - by intros ?%elem_of_nil.
  - intros Hin. destruct (String.eqb_spec k0 k) as [-> | Hk0]; [done |].
    simpl. f_equal. apply IH.
    apply elem_of_cons in Hin as [-> | Hin]; done.
Qed.

Lemma set_absent d k v : k ∉ Dict.keys d -> Dict.set k v d = d ++ [(k, v)].
Proof.
  induction d as [| [k0 v0] d IH]; simpl; [done |].
  intros [Hne Hnot]%not_elem_of_cons.
  destruct (String.eqb_spec k0 k) as [-> | _]; [done |].
  by rewrite IH.
Qed.

Lemma set_get_same d k v : Dict.get k d = Some v -> Dict.set k v d = d.
Proof.
  induction d as [| [k0 v0] d IH]; simpl; [done |].
  destruct (String.eqb_spec k0 k) as [-> | _].
  - by intros [= ->].
  - intros H. by rewrite IH.
Qed.

Lemma set_set d k v v' : Dict.set k v (Dict.set k v' d) = Dict.set k v d.
Proof.
  induction d as [| [k0 v0] d IH]; simpl.
  - by rewrite String.eqb_refl.
  - destruct (String.eqb k0 k) eqn:Hk; simpl.
    + by rewrite String.eqb_refl.
    + by rewrite Hk, IH.
Qed.


Lemma NoDup_keys_set d k v :
  NoDup (Dict.keys d) -> NoDup (Dict.keys (Dict.set k v d)).
Proof.
  intros Hnd. destruct (decide (k ∈ Dict.keys d)) as [Hin | Hnot].
  - by rewrite set_present.
  - rewrite set_absent by done. unfold Dict.keys. rewrite map_app.
    apply NoDup_app. split; [done |]. split.
    + intros x Hx ->%list_elem_of_singleton. done.
    + apply NoDup_singleton.
Qed.


Lemma update_cons d k v e :
  Dict.update d ((k, v) :: e) = Dict.update (Dict.set k v d) e.
Proof. reflexivity. Qed.

Lemma NoDup_keys_update d e :
  NoDup (Dict.keys d) -> NoDup (Dict.keys (Dict.update d e)).
Proof.
  revert d. induction e as [| [k v] e IH]; intros d Hnd; [done |].
  rewrite update_cons. by apply IH, NoDup_keys_set.
Qed.







End dict.

(** ** Grouping the pairs of a query string *)

Lemma group_existing (k : string) (l : list string) :
  forall (acc : list (string * urllib.qvalue)) (l0 : list string),
    Dict.get k acc = Some (urllib.QList l0) ->
    fold_left group_step (map (pair k) l) acc
    = Dict.set k (urllib.QList (l0 ++ l)) acc.
Proof.
  induction l as [| x l IH]; intros acc l0 Hget.
  - rewrite app_nil_r. simpl. by rewrite set_get_same.
  - cbn [map fold_left]. rewrite Hget.
    rewrite (IH _ (l0 ++ [x])) by apply get_set_eq.
    by rewrite set_set, <- app_assoc.
Qed.

Lemma group_new (k : string) (x : string) (l : list string)
    (acc : list (string * urllib.qvalue)) :
  k ∉ Dict.keys acc ->
  fold_left group_step (map (pair k) (x :: l)) acc
  = acc ++ [(k, urllib.QList (x :: l))].
Proof.
  intros Hnot. cbn [map fold_left].
  rewrite (proj2 (get_None acc k) Hnot).
  rewrite (group_existing k l _ [x]) by apply get_set_eq.
  rewrite set_set. by apply set_absent.
Qed.

Lemma group_flatten (d : list (string * urllib.qvalue)) :
  forall acc : list (string * urllib.qvalue),
    NoDup (Dict.keys acc ++ Dict.keys d) ->
    Forall (fun '(k, v) => values_of v <> []) d ->
    fold_left group_step (flatten d) acc = acc ++ as_lists d.
Proof.
  induction d as [| [k v] d IH]; intros acc Hnd Hne.
  - simpl. by rewrite app_nil_r.
  - apply Forall_cons in Hne as [Hv Hne].
    unfold flatten in *. cbn [flat_map]. rewrite fold_left_app.
    destruct (values_of v) as [| x l] eqn:Hvals; [done |].
    simpl in Hnd.
    assert (Hnot : k ∉ Dict.keys acc).
    { apply NoDup_app in Hnd as (_ & Hdis & _). intros Hin.
      apply (Hdis k Hin). by left. }
    rewrite group_new by done. rewrite IH; try done.
    + rewrite <- app_assoc. simpl. by rewrite Hvals.
    + unfold Dict.keys in *. rewrite map_app, <- app_assoc. exact Hnd.
Qed.

Lemma NoDup_keys_group (pairs : list (string * string)) :
  forall acc : list (string * urllib.qvalue),
    NoDup (Dict.keys acc) ->
    NoDup (Dict.keys (fold_left group_step pairs acc)).
Proof.
  induction pairs as [| [k v] pairs IH]; intros acc Hnd; [done |].
  cbn [fold_left]. apply IH.
  destruct (Dict.get k acc) as [[s | l] |]; by apply NoDup_keys_set.
Qed.

Lemma NoDup_keys_parse_qs (qs : string) : NoDup (Dict.keys (urllib.parse_qs qs)).
Proof. apply NoDup_keys_group, NoDup_nil_2. Qed.

(** [parse_qs] gives back the dictionary that a plain query string was
    rendered from, with every value as a list. *)
Lemma parse_qs_render (d : list (string * urllib.qvalue)) :
  NoDup (Dict.keys d) ->
  plain_params d = true ->
  urllib.parse_qs (render (flatten d)) = as_lists d.
Proof.
  intros Hnd Hplain. destruct (plain_params_flatten d Hplain) as [Hpairs Hne].
  unfold urllib.parse_qs, urllib.group_pairs.
  rewrite parse_qsl_render by done.
  by rewrite (group_flatten d []).
Qed.

(** [merge_params] writes a plain dictionary as it is. *)
Lemma unquote_urlencode (d : list (string * urllib.qvalue)) :
  plain_params d = true ->
  urllib.unquote (urllib.urlencode d) = render (flatten d).
Proof.
  intros Hplain. destruct (plain_params_flatten d Hplain) as [Hpairs _].
  unfold urllib.urlencode. rewrite urlencode_items_flatten.
  apply unquote_encoded_pairs.
  eapply Forall_impl; [exact Hpairs |]. intros [k v] [Hk Hv].
  split; [by apply plain_key_absent | by apply plain_value_absent].
Qed.

(** ** Updating a parsed dictionary again *)

Lemma same_values_as_lists (d : list (string * urllib.qvalue)) :
  same_values (as_lists d) d.
Proof. induction d as [| [k v] d IH]; constructor; done. Qed.

Lemma same_values_set (k : string) (v : urllib.qvalue)
    (d d' : list (string * urllib.qvalue)) :
  same_values d d' -> same_values (Dict.set k v d) (Dict.set k v d').
Proof.
  induction 1 as [| [k1 v1] [k2 v2] d d' [Hk Hv] Hd IH]; simpl.
  - by repeat constructor.
  - simpl in Hk, Hv. subst k2.
    destruct (String.eqb k1 k); constructor; done.
Qed.


Lemma same_values_flatten (d d' : list (string * urllib.qvalue)) :
  same_values d d' -> flatten d = flatten d'.
Proof.
  unfold flatten.
  induction 1 as [| [k1 v1] [k2 v2] d d' [Hk Hv] _ IH]; [done |].
  simpl in *. by rewrite Hk, Hv, IH.
Qed.


(** ** Parsing a URL that was put together *)

Lemma alpha_facts (c : ascii) :
  Py.is_alpha c = true ->
  urllib.c0_control_or_space c = false /\ Py.is_ascii c = true.
Proof. destruct c as [[] [] [] [] [] [] [] []]; vm_compute; intuition congruence. Qed.

Lemma scheme_char_facts (c : ascii) :
  urllib.scheme_chars c = true ->
  is_tab_cr_lf c = false /\ Ascii.eqb c ":" = false.
Proof. destruct c as [[] [] [] [] [] [] [] []]; vm_compute; intuition congruence. Qed.

Lemma no_tab_cr_lf (s : string) :
  Py.forallb (fun c => negb (is_tab_cr_lf c)) s = true ->
  urllib.remove_unsafe s = s.
Proof.
  intros H. unfold urllib.remove_unsafe.
  rewrite (remove_absent (Py.chr 9) s)
    by (by apply (forallb_contains (fun c => negb (is_tab_cr_lf c)))).
  rewrite (remove_absent (Py.chr 13) s)
    by (by apply (forallb_contains (fun c => negb (is_tab_cr_lf c)))).
  by rewrite (remove_absent (Py.chr 10) s)
    by (by apply (forallb_contains (fun c => negb (is_tab_cr_lf c)))).
Qed.

Lemma lstrip_fixed (f : ascii -> bool) (c : ascii) (s : string) :
  f c = false -> Py.lstrip f (String c s) = String c s.
Proof. intros H. simpl. by rewrite H. Qed.

(** The text that [urlunsplit] puts after the network location. *)
Lemma urlunsplit_shape (s n pa q f : string) :
  Py.truthy s = true ->
  Py.truthy n = true ->
  negb (Py.truthy pa) || String.eqb (Py.take1 pa) "/" = true ->
  urllib.urlunsplit s n pa q f
  = s +:+ String ":" (String "/" (String "/" (n +:+
      ((pa +:+ (if Py.truthy q then String "?" q else ""))
       +:+ (if Py.truthy f then String "#" f else ""))))).
Proof.
  intros Hs Hn Hpa. unfold urllib.urlunsplit. rewrite Hs, Hn. cbn [orb].
  assert (Hpa' : Py.truthy pa && negb (String.eqb (Py.take1 pa) "/") = false).
  { destruct (Py.truthy pa); [| done]. simpl in *. by rewrite Hpa. }
  rewrite Hpa'.
  destruct (Py.truthy q), (Py.truthy f); cbn [String.append];
    rewrite ?str_app_assoc; cbn [String.append];
    rewrite ?str_app_assoc, ?str_app_nil_r; cbn [String.append]; reflexivity.
Qed.

(** [urlparse] gives back the parts of a canonical URL that [geturl]
    put together, whatever safe query string they carry. *)
Lemma urlparse_geturl (p : urllib.ParseResult) (qs : string) :
  canonical p = true ->
  query_safe qs = true ->
  urllib.urlparse (urllib.geturl (with_query p qs)) EmptyString
  = Ok (with_query p qs).
Proof.
  destruct p as [s n pa prm q0 f]. unfold canonical, with_query, query_safe.
  cbn [urllib.scheme urllib.netloc urllib.path urllib.params urllib.fragment].
  intros H Hq.
  repeat (apply andb_true_iff in H as [H ?]).
  destruct s as [| c0 s']; [done |].
  destruct prm; [| done].
  match goal with Hs : Py.forallb _ (String c0 s') = true |- _ => rename Hs into Hscheme end.
  match goal with Hn : Py.forallb _ n = true |- _ => rename Hn into Hnet end.
  match goal with Hp : Py.forallb _ pa = true |- _ => rename Hp into Hpath end.
  match goal with Hf : Py.forallb _ f = true |- _ => rename Hf into Hfrag end.
  match goal with Ht : Py.truthy n = true |- _ => rename Ht into Hnt end.
  match goal with Ht : _ || _ = true |- _ => rename Ht into Hpa end.
  rename H into Halpha.
  destruct (alpha_facts c0 Halpha) as [Hc0 Hascii].
  (* what the parts do not contain *)
  assert (Hs_sc : Py.forallb urllib.scheme_chars (String c0 s') = true).
  { eapply forallb_impl; [| exact Hscheme]. by intros c [? _]%andb_true_iff. }
  assert (Hs_low : Py.forallb (fun c => negb (Py.is_upper c)) (String c0 s') = true).
  { eapply forallb_impl; [| exact Hscheme]. by intros c [_ ?]%andb_true_iff. }
  assert (Hs_colon : Py.contains ":" (String c0 s') = false).
  { apply (forallb_contains urllib.scheme_chars); done. }
  assert (Hs_tcl : Py.forallb (fun c => negb (is_tab_cr_lf c)) (String c0 s') = true).
  { eapply forallb_impl; [| exact Hs_sc]. intros c Hc.
    by destruct (scheme_char_facts c Hc) as [-> _]. }
  assert (Hn_tcl : Py.forallb (fun c => negb (is_tab_cr_lf c)) n = true).
  { eapply forallb_impl; [| exact Hnet]. by intros c [_ ?]%andb_true_iff. }
  assert (Hn_ascii : Py.forallb Py.is_ascii n = true).
  { eapply forallb_impl; [| exact Hnet].
    by intros c [[_ ?]%andb_true_iff _]%andb_true_iff. }
  assert (Hn_delim : Py.forallb (fun c => negb (Py.contains c "/?#")) n = true).
  { eapply forallb_impl; [| exact Hnet].
    intros c [[Hc _]%andb_true_iff _]%andb_true_iff.
    destruct c as [[] [] [] [] [] [] [] []]; vm_compute in Hc |- *; congruence. }
  assert (Hn_open : Py.contains "[" n = false).
  { eapply (forallb_contains _ "["); [| exact Hnet]. done. }
  assert (Hn_close : Py.contains "]" n = false).
  { eapply (forallb_contains _ "]"); [| exact Hnet]. done. }
  assert (Hp_tcl : Py.forallb (fun c => negb (is_tab_cr_lf c)) pa = true).
  { eapply forallb_impl; [| exact Hpath]. by intros c [_ ?]%andb_true_iff. }
  assert (Hp_q : Py.contains "?" pa = false).
  { eapply (forallb_contains _ "?"); [| exact Hpath]. done. }
  assert (Hp_h : Py.contains "#" pa = false).
  { eapply (forallb_contains _ "#"); [| exact Hpath]. done. }
  assert (Hp_s : Py.contains ";" pa = false).
  { eapply (forallb_contains _ ";"); [| exact Hpath]. done. }
  assert (Hq_tcl : Py.forallb (fun c => negb (is_tab_cr_lf c)) qs = true).
  { eapply forallb_impl; [| exact Hq]. by intros c [_ ?]%andb_true_iff. }
  assert (Hq_h : Py.contains "#" qs = false).
  { eapply (forallb_contains _ "#"); [| exact Hq]. done. }
  (* the URL *)
  unfold urllib.geturl, urllib.urlunparse.
  cbn [urllib.scheme urllib.netloc urllib.path urllib.params urllib.query
       urllib.fragment Py.truthy].
  rewrite urlunsplit_shape by done.
  set (qpart := if Py.truthy qs then String "?" qs else "").
  set (fpart := if Py.truthy f then String "#" f else "").
  assert (Hqpart_tcl : Py.forallb (fun c => negb (is_tab_cr_lf c)) qpart = true).
  { subst qpart. destruct (Py.truthy qs); [| done]. simpl. by rewrite Hq_tcl. }
  assert (Hfpart_tcl : Py.forallb (fun c => negb (is_tab_cr_lf c)) fpart = true).
  { subst fpart. destruct (Py.truthy f); [| done]. simpl. by rewrite Hfrag. }
  assert (Hqpart_h : Py.contains "#" qpart = false).
  { subst qpart. destruct (Py.truthy qs); [| done]. simpl. exact Hq_h. }
  set (tail := (pa +:+ qpart) +:+ fpart).
  set (rest := String "/" (String "/" (n +:+ tail))).
  (* urlsplit *)
  unfold urllib.urlparse, urllib.urlsplit.
  cbn [String.append]. rewrite (lstrip_fixed _ c0) by done.
  change (Py.strip urllib.c0_control_or_space "") with "".
  change (urllib.remove_unsafe "") with "".
  change (String c0 (s' +:+ String ":" rest))
    with (String c0 s' +:+ String ":" rest).
  rewrite no_tab_cr_lf.
  2:{ rewrite forallb_app, Hs_tcl. subst rest tail. cbn [Py.forallb andb].
      by rewrite !forallb_app, Hn_tcl, Hp_tcl, Hqpart_tcl, Hfpart_tcl. }
  unfold urllib.split_scheme. rewrite split1_app by done.
  rewrite Hascii, Halpha, Hs_sc. cbn [andb].
  rewrite lower_fixed by done.
  subst rest. cbn [Py.take2 String.eqb Ascii.eqb Bool.eqb].
  unfold urllib._splitnetloc. cbn [Py.drop2].
  rewrite (span_app _ n tail); [| done |].
  2:{ subst tail qpart fpart.
      destruct pa as [| c pa'].
      - destruct (Py.truthy qs); [done |]. cbn [String.append].
        by destruct (Py.truthy f).
      - cbn [Py.truthy negb orb Py.take1] in Hpa.
        apply String.eqb_eq in Hpa. injection Hpa as ->. done. }
  unfold urllib.check_brackets. rewrite Hn_open, Hn_close. cbn [andb orb negb rbind].
  unfold urllib._checknetloc. rewrite Hn_ascii, orb_true_r. cbn [rbind].
  assert (Hfrag_split :
            match Py.split1 "#" tail with
            | Some (u, fr) => (u, fr)
            | None => (tail, "")
            end = (pa +:+ qpart, f)).
  { subst tail fpart. destruct f as [| cf f']; cbn [Py.truthy].
    - rewrite str_app_nil_r, split1_absent; [done |].
      by rewrite contains_app, Hp_h, Hqpart_h.
    - rewrite split1_app; [done |]. by rewrite contains_app, Hp_h, Hqpart_h. }
  rewrite Hfrag_split.
  assert (Hquery_split :
            match Py.split1 "?" (pa +:+ qpart) with
            | Some (u, q) => (u, q)
            | None => (pa +:+ qpart, "")
            end = (pa, qs)).
  { subst qpart. destruct qs as [| cq qs']; cbn [Py.truthy].
    - by rewrite str_app_nil_r, split1_absent.
    - by rewrite split1_app. }
  rewrite Hquery_split.
  cbn [rbind urllib.s_scheme urllib.s_path urllib.s_netloc urllib.s_query
       urllib.s_fragment].
  by rewrite Hp_s, andb_false_r.
Qed.

(** ** The query merger *)

Lemma plain_char_safe (c : ascii) :
  plain_value_char c = true ->
  negb (Ascii.eqb c "#") && negb (is_tab_cr_lf c) = true.
Proof. destruct c as [[] [] [] [] [] [] [] []]; vm_compute; congruence. Qed.

Lemma query_safe_render (pairs : list (string * string)) :
  Forall (fun '(k, v) => plain_key k = true /\ plain_value v = true) pairs ->
  query_safe (render pairs) = true.
Proof.
  assert (Hpair : forall k v,
            plain_key k = true -> plain_value v = true ->
            query_safe (k +:+ "=" +:+ v) = true).
  { intros k v Hk [_ Hv]%andb_true_iff. unfold query_safe.
    rewrite !forallb_app. apply andb_true_iff. split; [| apply andb_true_iff; split].
    - eapply forallb_impl; [| exact Hk].
      intros c [Hc _]%andb_true_iff. by apply plain_char_safe.
    - done.
    - eapply forallb_impl; [| exact Hv]. apply plain_char_safe. }
  induction 1 as [| [k v] pairs [Hk Hv] _ IH]; [done |].
  destruct pairs as [| kv pairs].
  - unfold render. simpl. by apply Hpair.
  - rewrite render_cons. unfold query_safe in *. rewrite forallb_app.
    rewrite (Hpair k v Hk Hv). cbn [andb Py.forallb]. exact IH.
Qed.




(** What [merge_params] returns on a canonical URL and plain
    parameters, and how the result parses. *)
Lemma merge_params_run (url : string) (p : urllib.ParseResult)
    (newparams : list (string * urllib.qvalue)) :
  urllib.urlparse url EmptyString = Ok p ->
  canonical p = true ->
  plain_params (Dict.update (urllib.parse_qs (urllib.query p)) newparams) = true ->
  let d := Dict.update (urllib.parse_qs (urllib.query p)) newparams in
  let qs := render (flatten d) in
  merge_params url newparams = Ok (urllib.geturl (with_query p qs))
  /\ urllib.urlparse (urllib.geturl (with_query p qs)) EmptyString
     = Ok (with_query p qs)
  /\ urllib.parse_qs qs = as_lists d
  /\ urllib.unquote (urllib.urlencode d) = qs.
Proof.
  intros Hparse Hcan Hplain d qs.
  assert (Hq : urllib.unquote (urllib.urlencode d) = qs)
    by (by apply unquote_urlencode).
  split; [| split; [| split]].
  - unfold merge_params. rewrite Hparse. cbn [rbind]. fold d. by rewrite Hq.
  - apply urlparse_geturl; [done |].
    apply query_safe_render. by apply plain_params_flatten.
  - apply parse_qs_render; [| done].
    apply NoDup_keys_update, NoDup_keys_parse_qs.
  - done.
Qed.






(** The example of the specification: limit and bbox stay. *)
Example merge_params_keeps_limit_bbox :
  merge_params "http://test/search?limit=3&bbox=1,2,3,4"
    [("token", urllib.QStr "next:abc")]
  = Ok "http://test/search?limit=3&bbox=1,2,3,4&token=next:abc".
Proof. vm_compute. reflexivity. Qed.


(** * Further properties *)

(** ** Resolution of a relative path against a directory *)

Lemma rstrip_fixed (f : ascii -> bool) (s : string) :
  Py.forallb (fun c => negb (f c)) s = true -> Py.rstrip f s = s.
Proof.
  induction s as [| c s IH]; [done |]. cbn [Py.forallb Py.rstrip].
  intros [Hc Hs]%andb_true_iff. rewrite IH by done.
  apply negb_true_iff in Hc. rewrite Hc. by destruct s.
Qed.

Lemma strip_fixed (f : ascii -> bool) (s : string) :
  Py.forallb (fun c => negb (f c)) s = true -> Py.strip f s = s.
Proof.
  intros H. unfold Py.strip.
  assert (Hl : Py.lstrip f s = s).
  { destruct s as [| c s]; [done |]. simpl in H.
    apply andb_true_iff in H as [Hc _]. apply negb_true_iff in Hc.
    by apply lstrip_fixed. }
  rewrite Hl. by apply rstrip_fixed.
Qed.

Lemma scheme_char_not_space (c : ascii) :
  urllib.scheme_chars c = true -> urllib.c0_control_or_space c = false.
Proof. destruct c as [[] [] [] [] [] [] [] []]; vm_compute; congruence. Qed.

Lemma segment_char_facts (c : ascii) :
  segment_char c = true ->
  is_tab_cr_lf c = false /\ urllib.c0_control_or_space c = false.
Proof. destruct c as [[] [] [] [] [] [] [] []]; vm_compute; intuition congruence. Qed.

Lemma simple_segment_absent (c : ascii) (s : string) :
  segment_char c = false -> simple_segment s = true -> Py.contains c s = false.
Proof.
  intros Hc H. unfold simple_segment in H.
  repeat (apply andb_true_iff in H as [H ?]).
  by apply (forallb_contains segment_char).
Qed.

Lemma simple_segment_truthy (s : string) :
  simple_segment s = true -> Py.truthy s = true.
Proof.
  unfold simple_segment. intros H.
  by repeat (apply andb_true_iff in H as [H ?]).
Qed.

Lemma simple_segment_chars (s : string) :
  simple_segment s = true -> Py.forallb segment_char s = true.
Proof.
  unfold simple_segment. intros H.
  by repeat (apply andb_true_iff in H as [H ?]).
Qed.

Lemma forallb_Forall {A} (f : A -> bool) (l : list A) :
  forallb f l = true -> Forall (fun x => f x = true) l.
Proof.
  intros H. apply Forall_forall. intros x Hx.
  apply (proj1 (forallb_forall _ _) H). by apply list_elem_of_In.
Qed.

(** [split] undoes [join] when no piece contains the separator. *)
Lemma split_join (c : ascii) (l : list string) :
  l <> [] ->
  Forall (fun s => Py.contains c s = false) l ->
  Py.split c (Py.join (Py.str1 c) l) = l.
Proof.
  intros Hne H. induction H as [| x l Hx Hl IH]; [done |].
  destruct l as [| y l].
  - simpl. by apply split_absent.
  - rewrite join_cons by done. unfold Py.str1. cbn [String.append].
    rewrite split_app by done. f_equal. by apply IH.
Qed.

Lemma split_join_slash (l : list string) :
  l <> [] ->
  Forall (fun s => Py.contains "/" s = false) l ->
  Py.split "/" (Py.join "/" l) = l.
Proof. apply (split_join "/"). Qed.

Lemma join_forallb (f : ascii -> bool) (sep : string) (l : list string) :
  Py.forallb f sep = true ->
  Forall (fun s => Py.forallb f s = true) l ->
  Py.forallb f (Py.join sep l) = true.
Proof.
  intros Hsep H. induction H as [| x l Hx Hl IH]; [done |].
  destruct l as [| y l]; [done |].
  rewrite join_cons by done. by rewrite !forallb_app, Hx, Hsep, IH.
Qed.

Lemma join_app_dir (l : list string) (x : string) (l' : list string) :
  Py.join "/" (l ++ x :: l')
  = Py.join "/" (l ++ [EmptyString]) +:+ Py.join "/" (x :: l').
Proof.
  induction l as [| y l IH].
  - done.
  - cbn [app]. rewrite !join_cons by (by destruct l).
    by rewrite IH, !str_app_assoc.
Qed.

(** The first occurrence of [c] in a text whose first part has none. *)
Lemma split1_skip (c : ascii) (a b : string) :
  Py.contains c a = false ->
  Py.split1 c (a +:+ b)
  = match Py.split1 c b with
    | Some (x, y) => Some (a +:+ x, y)
    | None => None
    end.
Proof.
  induction a as [| x a IH]; simpl.
  - intros _. by destruct (Py.split1 c b) as [[? ?] |].
  - destruct (Ascii.eqb x c); [done |]. intros H. rewrite IH by done.
    by destruct (Py.split1 c b) as [[? ?] |].
Qed.

Lemma path_char_facts (c : ascii) :
  path_char c = true ->
  is_tab_cr_lf c = false
  /\ Ascii.eqb c "?" = false /\ Ascii.eqb c "#" = false
  /\ Ascii.eqb c ";" = false /\ Ascii.eqb c ":" = false.
Proof. destruct c as [[] [] [] [] [] [] [] []]; vm_compute; intuition congruence. Qed.

Lemma join_path_chars (segs : list string) :
  Forall (fun s => simple_segment s = true) segs ->
  Py.forallb path_char (Py.join "/" segs) = true.
Proof.
  intros H. apply join_forallb; [done |].
  eapply Forall_impl; [exact H |]. intros s Hs.
  eapply forallb_impl; [| by apply simple_segment_chars].
  intros c Hc. unfold path_char. by rewrite Hc.
Qed.

Lemma join_first_char (segs : list string) :
  segs <> [] ->
  Forall (fun s => simple_segment s = true) segs ->
  exists c r, Py.join "/" segs = String c r /\ segment_char c = true.
Proof.
  intros Hne Hsegs. destruct Hsegs as [| x l Hx Hl]; [done |].
  pose proof (simple_segment_truthy _ Hx) as Ht.
  pose proof (simple_segment_chars _ Hx) as Hc.
  destruct x as [| c x']; [done |].
  simpl in Hc. apply andb_true_iff in Hc as [Hc _].
  destruct l as [| y l]; [by exists c, x' |].
  rewrite join_cons by done. by eexists c, _.
Qed.

Lemma path_absent (c : ascii) (segs : list string) :
  path_char c = false ->
  Forall (fun s => simple_segment s = true) segs ->
  Py.contains c (Py.join "/" segs) = false.
Proof.
  intros Hc H. apply (forallb_contains path_char); [done |].
  by apply join_path_chars.
Qed.

Lemma query_part_safe (qs : string) :
  query_safe qs = true ->
  Py.forallb (fun c => negb (is_tab_cr_lf c)) (query_part qs) = true
  /\ Py.contains "#" (query_part qs) = false.
Proof.
  intros H. unfold query_part.
  destruct (Py.truthy qs); [| done]. split.
  - cbn [Py.forallb]. apply andb_true_iff. split; [done |].
    eapply forallb_impl; [| exact H]. by intros c [_ ?]%andb_true_iff.
  - cbn [Py.contains]. change (Ascii.eqb "?" "#") with false. cbv iota.
    eapply (forallb_contains _ "#"); [| exact H]. done.
Qed.

(** A relative path of simple segments, with or without a query string,
    parses as that path and that query string on the default scheme. *)
Lemma urlparse_relative_path (segs : list string) (qs dflt : string) :
  segs <> [] ->
  Forall (fun s => simple_segment s = true) segs ->
  query_safe qs = true ->
  Py.forallb urllib.scheme_chars dflt = true ->
  urllib.urlparse (Py.join "/" segs +:+ query_part qs) dflt
  = Ok {| urllib.scheme := dflt; urllib.netloc := "";
          urllib.path := Py.join "/" segs; urllib.params := "";
          urllib.query := qs; urllib.fragment := "" |}.
Proof.
  intros Hne Hsegs Hqs Hdflt.
  pose proof (join_path_chars segs Hsegs) as Hg.
  destruct (query_part_safe qs Hqs) as [Hq_tcl Hq_hash].
  assert (Htcl : Py.forallb (fun c => negb (is_tab_cr_lf c))
                   (Py.join "/" segs +:+ query_part qs) = true).
  { rewrite forallb_app, Hq_tcl, andb_true_r.
    eapply forallb_impl; [| exact Hg]. intros c Hc.
    by destruct (path_char_facts c Hc) as [-> _]. }
  destruct (join_first_char segs Hne Hsegs) as (c & r & Href & Hc).
  destruct (segment_char_facts c Hc) as [_ Hc0].
  unfold urllib.urlparse, urllib.urlsplit.
  rewrite Href. cbn [String.append].
  rewrite (lstrip_fixed _ c) by done.
  change (String c (r +:+ query_part qs))
    with (String c r +:+ query_part qs).
  rewrite <- Href.
  rewrite no_tab_cr_lf by done.
  rewrite strip_fixed.
  2:{ eapply forallb_impl; [| exact Hdflt]. intros a Ha.
      by rewrite (scheme_char_not_space a Ha). }
  rewrite (no_tab_cr_lf dflt).
  2:{ eapply forallb_impl; [| exact Hdflt]. intros a Ha.
      by destruct (scheme_char_facts a Ha) as [-> _]. }
  (* no scheme *)
  assert (Hscheme : urllib.split_scheme (Py.join "/" segs +:+ query_part qs) dflt
                    = (dflt, Py.join "/" segs +:+ query_part qs)).
  { unfold urllib.split_scheme.
    rewrite split1_skip by (by apply path_absent).
    unfold query_part. destruct (Py.truthy qs); [| done].
    cbn [Py.split1]. change (Ascii.eqb "?" ":") with false. cbv iota.
    destruct (Py.split1 ":" qs) as [[l rest] |]; [| done].
    destruct (Py.join "/" segs +:+ String "?" l) as [| c0 pre] eqn:Hpre; [done |].
    assert (Hno : Py.forallb urllib.scheme_chars (String c0 pre) = false).
    { rewrite <- Hpre, forallb_app. cbn [Py.forallb].
      change (urllib.scheme_chars "?") with false.
      by rewrite andb_false_r. }
    by rewrite Hno, andb_false_r. }
  rewrite Hscheme.
  assert (Htake : String.eqb (Py.take2 (Py.join "/" segs +:+ query_part qs)) "//"
                  = false).
  { rewrite Href. cbn [String.append]. apply String.eqb_neq. intros Heq.
    assert (c = "/"%char).
    { destruct (r +:+ query_part qs); simpl in Heq; congruence. }
    subst c. done. }
  rewrite Htake. cbn [rbind].
  rewrite (split1_absent "#").
  2:{ rewrite contains_app, Hq_hash, orb_false_r. by apply path_absent. }
  assert (Hquery :
            match Py.split1 "?" (Py.join "/" segs +:+ query_part qs) with
            | Some (u, q) => (u, q)
            | None => (Py.join "/" segs +:+ query_part qs, "")
            end = (Py.join "/" segs, qs)).
  { unfold query_part. destruct qs as [| cq qs']; cbn [Py.truthy].
    - rewrite str_app_nil_r, split1_absent; [done |]. by apply path_absent.
    - rewrite split1_app; [done |]. by apply path_absent. }
  rewrite Hquery.
  cbn [urllib._checknetloc Py.truthy negb orb rbind urllib.s_scheme urllib.s_path
       urllib.s_netloc urllib.s_query urllib.s_fragment].
  rewrite (path_absent ";") by done.
  by rewrite andb_false_r.
Qed.

(** The loop of [urljoin] keeps segments that are not dot segments. *)
Lemma resolve_segments_plain (l : list string) :
  Forall (fun s => String.eqb s "." = false /\ String.eqb s ".." = false) l ->
  urllib.resolve_segments l = l.
Proof.
  unfold urllib.resolve_segments.
  assert (Hgen : forall acc,
            Forall (fun s => String.eqb s "." = false /\ String.eqb s ".." = false) l ->
            fold_left
              (fun resolved seg =>
                 if String.eqb seg ".." then Py.removelast_list resolved
                 else if String.eqb seg "." then resolved
                 else resolved ++ [seg]) l acc
            = acc ++ l).
  { induction l as [| x l IH]; intros acc H.
    - by rewrite app_nil_r.
    - apply Forall_cons in H as [[Hd Hdd] H]. cbn [fold_left].
      rewrite Hd, Hdd, IH by done. by rewrite <- app_assoc. }
  intros H. by rewrite Hgen.
Qed.

Lemma uses_relative_netloc (s : string) :
  urllib.mem s urllib.uses_relative = true ->
  urllib.mem s urllib.uses_netloc = true.
Proof.
  unfold urllib.mem, urllib.uses_relative. cbn [existsb]. intros H.
  repeat (apply orb_true_iff in H as [H | H];
          [apply String.eqb_eq in H; subst s; reflexivity |]).
  discriminate H.
Qed.

Lemma filter_inner_dir (bsegs segs : list string) :
  Forall (fun s => Py.truthy s = true) bsegs ->
  Forall (fun s => Py.truthy s = true) segs ->
  segs <> [] ->
  urllib.filter_inner ((EmptyString :: bsegs ++ [EmptyString]) ++ segs)
  = EmptyString :: bsegs ++ segs.
Proof.
  intros Hb Hs Hne.
  destruct (exists_last Hne) as (front & z & ->).
  assert (Hrest : (bsegs ++ [EmptyString]) ++ front ++ [z]
                  = (bsegs ++ EmptyString :: front) ++ [z]).
  { by rewrite <- !app_assoc. }
  cbn [app]. rewrite Hrest. unfold urllib.filter_inner.
  destruct ((bsegs ++ EmptyString :: front) ++ [z]) as [| y rest] eqn:Heq.
  { by destruct (bsegs ++ EmptyString :: front). }
  rewrite <- Heq. unfold Py.removelast_list.
  rewrite List.removelast_last, List.last_last.
  rewrite List.filter_app. cbn [List.filter Py.truthy].
  apply Forall_app in Hs as [Hfront _].
  assert (Hfilter : forall l, Forall (fun s => Py.truthy s = true) l ->
                              List.filter Py.truthy l = l).
  { induction 1 as [| x l Hx _ IH]; [done |]. simpl. by rewrite Hx, IH. }
  rewrite !Hfilter by done. by rewrite <- !app_assoc.
Qed.

(** What a base URL with the path of a directory is made of. *)
Lemma base_parts_facts (b : urllib.ParseResult) (bsegs : list string) :
  base_parts_ok b bsegs = true ->
  canonical b = true
  /\ urllib.mem (urllib.scheme b) urllib.uses_relative = true
  /\ urllib.path b = dir_path bsegs
  /\ Forall (fun s => simple_segment s = true) bsegs
  /\ urllib.query b = "" /\ urllib.fragment b = "" /\ urllib.params b = ""
  /\ Py.forallb urllib.scheme_chars (urllib.scheme b) = true
  /\ Py.truthy (urllib.scheme b) = true
  /\ Py.truthy (urllib.netloc b) = true.
Proof.
  unfold base_parts_ok. intros H.
  do 5 (apply andb_true_iff in H as [H ?]).
  pose proof H as Hcan. unfold canonical in Hcan.
  repeat (apply andb_true_iff in Hcan as [Hcan ?]).
  repeat match goal with
         | Hn : negb _ = true |- _ => apply negb_true_iff in Hn
         end.
  split; [done |]. split; [done |].
  split; [by apply String.eqb_eq |].
  split; [by apply forallb_Forall |].
  split; [by destruct (urllib.query b) |].
  split; [by destruct (urllib.fragment b) |].
  split; [by destruct (urllib.params b) |].
  split; [| split; [| done]].
  - match goal with
    | Hs : Py.forallb _ (urllib.scheme b) = true |- _ =>
        eapply forallb_impl; [| exact Hs]
    end.
    by intros c [? _]%andb_true_iff.
  - by destruct (urllib.scheme b).
Qed.

Lemma dir_path_slash (bsegs : list string) :
  exists d, dir_path bsegs = String "/" d.
Proof.
  unfold dir_path. rewrite join_cons by (by destruct bsegs). by eexists.
Qed.

(** The text of a URL on the scheme and network location of the base,
    below its directory. *)
Lemma geturl_below (b : urllib.ParseResult) (bsegs : list string) (p qs : string) :
  base_parts_ok b bsegs = true ->
  urllib.geturl
    {| urllib.scheme := urllib.scheme b; urllib.netloc := urllib.netloc b;
       urllib.path := dir_path bsegs +:+ p; urllib.params := "";
       urllib.query := qs; urllib.fragment := "" |}
  = urllib.geturl b +:+ p +:+ query_part qs.
Proof.
  intros H.
  destruct (base_parts_facts b bsegs H)
    as (_ & _ & Hpath & _ & Hq & Hf & Hprm & _ & Hst & Hnt).
  destruct (dir_path_slash bsegs) as [d Hd].
  unfold urllib.geturl, urllib.urlunparse.
  cbn [urllib.scheme urllib.netloc urllib.path urllib.params urllib.query
       urllib.fragment Py.truthy].
  rewrite Hprm, Hpath, Hq, Hf. cbn [Py.truthy].
  rewrite !urlunsplit_shape; try done; [| by rewrite Hd | by rewrite Hd].
  cbn [Py.truthy]. fold (query_part qs).
  rewrite !str_app_nil_r, !str_app_assoc. cbn [String.append].
  by rewrite !str_app_assoc.
Qed.

Lemma geturl_base (b : urllib.ParseResult) (bsegs : list string) :
  base_parts_ok b bsegs = true ->
  urllib.geturl b
  = urllib.scheme b +:+ "://" +:+ urllib.netloc b +:+ dir_path bsegs.
Proof.
  intros H.
  destruct (base_parts_facts b bsegs H)
    as (_ & _ & Hpath & _ & Hq & Hf & Hprm & _ & Hst & Hnt).
  destruct (dir_path_slash bsegs) as [d Hd].
  unfold urllib.geturl, urllib.urlunparse. rewrite Hprm, Hpath, Hq, Hf.
  cbn [Py.truthy]. rewrite urlunsplit_shape; try done; [| by rewrite Hd].
  cbn [Py.truthy String.append]. by rewrite !str_app_nil_r.
Qed.

Lemma urlparse_base (b : urllib.ParseResult) (bsegs : list string) :
  base_parts_ok b bsegs = true ->
  urllib.urlparse (urllib.geturl b) "" = Ok b.
Proof.
  intros H.
  destruct (base_parts_facts b bsegs H) as (Hcan & _ & _ & _ & Hq & _).
  assert (Hb : with_query b "" = b).
  { destruct b as [s n pa prm q f]. simpl in Hq. by subst q. }
  rewrite <- Hb at 1. rewrite urlparse_geturl; [by rewrite Hb | done | reflexivity].
Qed.

(** Against a base URL that names a directory, [urljoin] appends a
    relative path of simple segments, and its query string, to the base
    URL. *)
Lemma urljoin_directory_query (b : urllib.ParseResult) (bsegs segs : list string)
    (qs : string) :
  base_parts_ok b bsegs = true ->
  segs <> [] ->
  forallb simple_segment segs = true ->
  query_safe qs = true ->
  urllib.urljoin (urllib.geturl b) (Py.join "/" segs +:+ query_part qs)
  = Ok (urllib.geturl b +:+ Py.join "/" segs +:+ query_part qs).
Proof.
  intros Hbase Hne Hsegs Hqs.
  destruct (base_parts_facts b bsegs Hbase)
    as (Hcan & Hrel & Hpath & Hbsegs & Hq & Hf & Hprm & Hsc & Hst & Hnt).
  apply forallb_Forall in Hsegs.
  pose proof (urlparse_base b bsegs Hbase) as Hparse.
  assert (Hbase_t : Py.truthy (urllib.geturl b) = true).
  { rewrite (geturl_base b bsegs Hbase). by destruct (urllib.scheme b). }
  destruct (join_first_char segs Hne Hsegs) as (c & r & Href & Hc).
  unfold urllib.urljoin. rewrite Hbase_t. cbn [negb].
  assert (Hreft : Py.truthy (Py.join "/" segs +:+ query_part qs) = true)
    by (by rewrite Href).
  rewrite Hreft. cbn [negb].
  rewrite Hparse. cbn [rbind].
  rewrite urlparse_relative_path by done. cbn [rbind].
  cbn [urllib.scheme urllib.netloc urllib.path urllib.params urllib.query
       urllib.fragment Py.truthy].
  rewrite String.eqb_refl, Hrel, (uses_relative_netloc _ Hrel).
  cbn [negb orb andb].
  assert (Hpt : Py.truthy (Py.join "/" segs) = true) by (by rewrite Href).
  rewrite Hpt. cbn [negb andb].
  (* the path *)
  rewrite Hpath. unfold dir_path.
  assert (Hnoslash : forall l, Forall (fun s => simple_segment s = true) l ->
                               Forall (fun s => Py.contains "/" s = false) l).
  { intros l Hl. eapply Forall_impl; [exact Hl |].
    intros s Hs. by apply simple_segment_absent. }
  rewrite (split_join_slash (EmptyString :: bsegs ++ [EmptyString])).
  2:{ done. }
  2:{ constructor; [done |]. apply Forall_app. split; [by apply Hnoslash |].
      by constructor. }
  assert (Hlast : List.last (EmptyString :: bsegs ++ [EmptyString]) EmptyString
                  = EmptyString).
  { change (EmptyString :: bsegs ++ [EmptyString])
      with ((EmptyString :: bsegs) ++ [EmptyString]).
    apply List.last_last. }
  rewrite Hlast. cbn [String.eqb negb].
  assert (Htake1 : String.eqb (Py.take1 (Py.join "/" segs)) "/" = false).
  { rewrite Href. apply String.eqb_neq. intros [= ->]. done. }
  rewrite Htake1.
  rewrite (split_join_slash segs) by (done || by apply Hnoslash).
  rewrite filter_inner_dir; [| | | done].
  2:{ eapply Forall_impl; [exact Hbsegs |]. apply simple_segment_truthy. }
  2:{ eapply Forall_impl; [exact Hsegs |]. apply simple_segment_truthy. }
  assert (Hnodot : forall l, Forall (fun s => simple_segment s = true) l ->
            Forall (fun s => String.eqb s "." = false
                             /\ String.eqb s ".." = false) l).
  { intros l Hl. eapply Forall_impl; [exact Hl |].
    intros s Hs. unfold simple_segment in Hs.
    repeat (apply andb_true_iff in Hs as [Hs ?]).
    split; by apply negb_true_iff. }
  rewrite resolve_segments_plain.
  2:{ constructor; [done |]. apply Forall_app. split; by apply Hnodot. }
  assert (Hlastseg : urllib.mem (List.last (EmptyString :: bsegs ++ segs) EmptyString)
                       ["."; ".."] = false).
  { destruct (exists_last Hne) as (front & z & Hz).
    assert (Hzs : simple_segment z = true).
    { apply (proj1 (Forall_forall _ _) Hsegs). rewrite Hz.
      apply elem_of_app. right. by left. }
    rewrite Hz.
    change (EmptyString :: bsegs ++ front ++ [z])
      with ((EmptyString :: bsegs) ++ front ++ [z]).
    rewrite app_assoc, List.last_last.
    unfold simple_segment in Hzs.
    repeat (apply andb_true_iff in Hzs as [Hzs ?]).
    unfold urllib.mem. cbn [existsb].
    repeat match goal with H : negb _ = true |- _ => apply negb_true_iff in H end.
    by repeat match goal with H : String.eqb z _ = false |- _ => rewrite H; clear H end. }
  rewrite Hlastseg.
  destruct segs as [| x segs']; [done |].
  change (EmptyString :: bsegs ++ x :: segs')
    with ((EmptyString :: bsegs) ++ x :: segs').
  rewrite join_app_dir.
  change (Py.join "/" ((EmptyString :: bsegs) ++ [EmptyString]))
    with (dir_path bsegs).
  destruct (dir_path_slash bsegs) as [d' Hdir].
  assert (Hjt : Py.truthy (dir_path bsegs +:+ Py.join "/" (x :: segs')) = true)
    by (by rewrite Hdir).
  rewrite Hjt.
  change (urllib.urlunparse ?p) with (urllib.geturl p).
  by rewrite (geturl_below b bsegs).
Qed.

Lemma urljoin_directory (b : urllib.ParseResult) (bsegs segs : list string) :
  base_parts_ok b bsegs = true ->
  segs <> [] ->
  forallb simple_segment segs = true ->
  urllib.urljoin (urllib.geturl b) (Py.join "/" segs)
  = Ok (urllib.geturl b +:+ Py.join "/" segs).
Proof.
  intros Hbase Hne Hsegs.
  pose proof (urljoin_directory_query b bsegs segs "" Hbase Hne Hsegs eq_refl) as H.
  unfold query_part in H. cbn [Py.truthy] in H.
  by rewrite !str_app_nil_r in H.
Qed.

(** ** The hrefs of the collection and item links *)

(** X1: [BaseLinks.resolve] appends a relative path of simple segments to a
    base URL that names a directory. *)
Theorem resolve_relative_path (self : links) (b : urllib.ParseResult)
    (bsegs segs : list string) :
  base_url self = urllib.geturl b ->
  base_parts_ok b bsegs = true ->
  segs <> [] ->
  forallb simple_segment segs = true ->
  resolve self (VStr (Py.join "/" segs))
  = Ok (base_url self +:+ Py.join "/" segs).
Proof.
  intros Hb Hbase Hne Hsegs. unfold resolve. cbn [py_str rbind].
  rewrite Hb. by apply (urljoin_directory b bsegs).
Qed.

Lemma resolve_relative_path_witness :
  resolve example_links (VStr "lic/a.txt") = Ok "http://test/stac/lic/a.txt".
Proof.
  apply (resolve_relative_path example_links
           {| urllib.scheme := "http"; urllib.netloc := "test";
              urllib.path := "/stac/"; urllib.params := "";
              urllib.query := ""; urllib.fragment := "" |}
           ["stac"] ["lic"; "a.txt"]).
  - reflexivity.
  - vm_compute. reflexivity.
  - discriminate.
  - vm_compute. reflexivity.
Defined.

Lemma resolve_path (self : links) (b : urllib.ParseResult)
    (bsegs segs : list string) (ref : string) :
  base_url self = urllib.geturl b ->
  base_parts_ok b bsegs = true ->
  forallb simple_segment segs = true ->
  segs <> [] ->
  ref = Py.join "/" segs ->
  resolve self (VStr ref) = Ok (base_url self +:+ ref).
Proof.
  intros Hb Hbase Hsegs Hne ->. unfold resolve. cbn [py_str rbind].
  rewrite Hb. by apply (urljoin_directory b bsegs).
Qed.

Lemma simple_segments_2 (a b : string) :
  simple_segment a = true -> simple_segment b = true ->
  forallb simple_segment [a; b] = true.
Proof. intros Ha Hb. cbn [forallb]. by rewrite Ha, Hb. Qed.

(** The producers of a [CollectionLinks] that [create_links] finds in
    [dir(self)], in order. *)
Lemma create_links_collection (r : Request.t) (cid : string) :
  create_links (CollectionLinks r cid)
  = (let self := CollectionLinks r cid in
     let* a := link_items self cid in
     let* b := CollectionLinks_link_parent self in
     let* c := link_root self in
     let* d := CollectionLinks_link_self self cid in
     ret [a; b; c; d]).
Proof. reflexivity. Qed.

(** The producers of an [ItemLinks] that [create_links] finds in
    [dir(self)], in order. *)
Lemma create_links_item (r : Request.t) (cid iid : string) :
  create_links (ItemLinks r cid iid)
  = (let self := ItemLinks r cid iid in
     let* a := link_collection self cid in
     let* b := ItemLinks_link_parent self cid in
     let* c := link_root self in
     let* d := ItemLinks_link_self self cid iid in
     let* e := link_tiles self cid iid in
     ret [a; b; c; d; e]).
Proof. reflexivity. Qed.

Lemma resolve_collection (self : links) (b : urllib.ParseResult)
    (bsegs : list string) (cid : string) :
  base_url self = urllib.geturl b ->
  base_parts_ok b bsegs = true ->
  simple_segment cid = true ->
  resolve self (VStr ("collections/" +:+ cid))
  = Ok (base_url self +:+ "collections/" +:+ cid).
Proof.
  intros Hb Hbase Hcid.
  apply (resolve_path self b bsegs ["collections"; cid]); try done.
  by apply simple_segments_2.
Qed.

Lemma resolve_items (self : links) (b : urllib.ParseResult)
    (bsegs : list string) (cid : string) :
  base_url self = urllib.geturl b ->
  base_parts_ok b bsegs = true ->
  simple_segment cid = true ->
  resolve self (VStr ("collections/" +:+ cid +:+ "/items"))
  = Ok (base_url self +:+ "collections/" +:+ cid +:+ "/items").
Proof.
  intros Hb Hbase Hcid.
  apply (resolve_path self b bsegs ["collections"; cid; "items"]); try done.
  cbn [forallb]. by rewrite Hcid.
Qed.

Lemma resolve_item (self : links) (b : urllib.ParseResult)
    (bsegs : list string) (cid iid : string) :
  base_url self = urllib.geturl b ->
  base_parts_ok b bsegs = true ->
  simple_segment cid = true ->
  simple_segment iid = true ->
  resolve self (VStr ("collections/" +:+ cid +:+ "/items/" +:+ iid))
  = Ok (base_url self +:+ "collections/" +:+ cid +:+ "/items/" +:+ iid).
Proof.
  intros Hb Hbase Hcid Hiid.
  apply (resolve_path self b bsegs ["collections"; cid; "items"; iid]); try done.
  cbn [forallb]. by rewrite Hcid, Hiid.
Qed.

Lemma resolve_item_tiles (self : links) (b : urllib.ParseResult)
    (bsegs : list string) (cid iid : string) :
  base_url self = urllib.geturl b ->
  base_parts_ok b bsegs = true ->
  simple_segment cid = true ->
  simple_segment iid = true ->
  resolve self (VStr ("collections/" +:+ cid +:+ "/items/" +:+ iid +:+ "/tiles"))
  = Ok (base_url self +:+ "collections/" +:+ cid +:+ "/items/" +:+ iid
        +:+ "/tiles").
Proof.
  intros Hb Hbase Hcid Hiid.
  apply (resolve_path self b bsegs ["collections"; cid; "items"; iid; "tiles"]);
    try done.
  cbn [forallb]. by rewrite Hcid, Hiid.
Qed.

(** X2: [collection_link], and with it the self link of a collection and the
    parent and collection links of an item: a new dictionary with the
    given relation whose href is the base URL followed by
    "collections/<collection_id>". *)
Theorem collection_link_href (self : links) (b : urllib.ParseResult)
    (bsegs : list string) (cid rel : string) (st : state) :
  base_url self = urllib.geturl b ->
  base_parts_ok b bsegs = true ->
  simple_segment cid = true ->
  collection_link self cid rel st
  = Ok (VRef (List.length (st_heap st)),
        {| st_heap :=
             st_heap st
             ++ [ODict {[ "rel" := VStr rel;
                          "type" := VStr "application/json";
                          "href" := VStr (base_url self +:+ "collections/" +:+ cid) ]}];
           st_postbody := st_postbody st |}).
Proof.
  intros Hb Hbase Hcid. unfold collection_link, bind, lift.
  by rewrite (resolve_collection self b bsegs).
Qed.

Lemma collection_link_href_witness :
  collection_link example_links "naip" "parent" example_state
  = Ok (VRef 4,
        {| st_heap :=
             example_heap
             ++ [ODict {[ "rel" := VStr "parent";
                          "type" := VStr "application/json";
                          "href" := VStr "http://test/stac/collections/naip" ]}];
           st_postbody := None |}).
Proof.
  apply (collection_link_href example_links
           {| urllib.scheme := "http"; urllib.netloc := "test";
              urllib.path := "/stac/"; urllib.params := "";
              urllib.query := ""; urllib.fragment := "" |}
           ["stac"] "naip" "parent" example_state).
  - reflexivity.
  - vm_compute. reflexivity.
  - vm_compute. reflexivity.
Defined.

(** X3: The links of a collection: [create_links] returns four new
    dictionaries, in the order items, parent, root, self; parent and root
    point to the base URL, self to "collections/<collection_id>" below
    it and items to "collections/<collection_id>/items". *)
Theorem collection_create_links (r : Request.t) (b : urllib.ParseResult)
    (bsegs : list string) (cid : string) (st : state) :
  Request.base_url r = urllib.geturl b ->
  base_parts_ok b bsegs = true ->
  simple_segment cid = true ->
  let n := List.length (st_heap st) in
  let base := Request.base_url r in
  create_links (CollectionLinks r cid) st
  = Ok ([VRef n; VRef (S n); VRef (S (S n)); VRef (S (S (S n)))],
        {| st_heap :=
             st_heap st
             ++ [ODict {[ "rel" := VStr "items";
                          "type" := VStr "application/geo+json";
                          "href" := VStr (base +:+ "collections/" +:+ cid +:+ "/items") ]};
                 ODict {[ "rel" := VStr "parent";
                          "type" := VStr "application/json";
                          "href" := VStr base ]};
                 ODict {[ "rel" := VStr "root";
                          "type" := VStr "application/json";
                          "href" := VStr base ]};
                 ODict {[ "rel" := VStr "self";
                          "type" := VStr "application/json";
                          "href" := VStr (base +:+ "collections/" +:+ cid) ]}];
           st_postbody := st_postbody st |}).
Proof.
  intros Hb Hbase Hcid n base.
  rewrite create_links_collection. cbv zeta.
  unfold link_items, CollectionLinks_link_parent, link_root,
    CollectionLinks_link_self, collection_link, bind, lift, alloc, ret.
  rewrite (resolve_items _ b bsegs), (resolve_collection _ b bsegs) by done.
  cbn [st_heap st_postbody].
  rewrite !length_app. cbn [List.length].
  rewrite <- !app_assoc. cbn [app].
  subst n base. cbn [base_url request].
  by rewrite !Nat.add_1_r.
Qed.

Lemma collection_create_links_witness :
  exists st',
    create_links example_links example_state
    = Ok ([VRef 4; VRef 5; VRef 6; VRef 7], st')
    /\ field (st_heap st') (VRef 4) "href"
       = Some (VStr "http://test/stac/collections/naip/items")
    /\ field (st_heap st') (VRef 7) "href"
       = Some (VStr "http://test/stac/collections/naip").
Proof.
  eexists. split.
  - apply (collection_create_links
             {| Request.method := "GET";
                Request.url := "http://test/stac/collections/naip";
                Request.base_url := "http://test/stac/";
                Request.json := Raise ValueError |}
             {| urllib.scheme := "http"; urllib.netloc := "test";
                urllib.path := "/stac/"; urllib.params := "";
                urllib.query := ""; urllib.fragment := "" |}
             ["stac"] "naip" example_state).
    + reflexivity.
    + vm_compute. reflexivity.
    + vm_compute. reflexivity.
  - split; vm_compute; reflexivity.
Defined.

(** X4: The links of an item: [create_links] returns five new dictionaries,
    in the order collection, parent, root, self, tiles; collection and
    parent point to "collections/<collection_id>" below the base URL,
    self to "collections/<collection_id>/items/<item_id>" and tiles to
    the self href followed by "/tiles". *)
Theorem item_create_links (r : Request.t) (b : urllib.ParseResult)
    (bsegs : list string) (cid iid : string) (st : state) :
  Request.base_url r = urllib.geturl b ->
  base_parts_ok b bsegs = true ->
  simple_segment cid = true ->
  simple_segment iid = true ->
  let n := List.length (st_heap st) in
  let base := Request.base_url r in
  let item := base +:+ "collections/" +:+ cid +:+ "/items/" +:+ iid in
  create_links (ItemLinks r cid iid) st
  = Ok ([VRef n; VRef (S n); VRef (S (S n)); VRef (S (S (S n)));
         VRef (S (S (S (S n))))],
        {| st_heap :=
             st_heap st
             ++ [ODict {[ "rel" := VStr "collection";
                          "type" := VStr "application/json";
                          "href" := VStr (base +:+ "collections/" +:+ cid) ]};
                 ODict {[ "rel" := VStr "parent";
                          "type" := VStr "application/json";
                          "href" := VStr (base +:+ "collections/" +:+ cid) ]};
                 ODict {[ "rel" := VStr "root";
                          "type" := VStr "application/json";
                          "href" := VStr base ]};
                 ODict {[ "rel" := VStr "self";
                          "type" := VStr "application/geo+json";
                          "href" := VStr item ]};
                 ODict {[ "rel" := VStr "alternate";
                          "type" := VStr "application/json";
                          "title" := VStr "tiles";
                          "href" := VStr (item +:+ "/tiles") ]}];
           st_postbody := st_postbody st |}).
Proof.
  intros Hb Hbase Hcid Hiid n base item.
  rewrite create_links_item. cbv zeta.
  unfold link_collection, ItemLinks_link_parent, link_root,
    ItemLinks_link_self, link_tiles, collection_link, bind, lift, alloc, ret.
  rewrite (resolve_item_tiles _ b bsegs), (resolve_item _ b bsegs),
    (resolve_collection _ b bsegs) by done.
  cbn [st_heap st_postbody].
  rewrite !length_app. cbn [List.length].
  rewrite <- !app_assoc. cbn [app].
  subst n base item. cbn [base_url request].
  rewrite !Nat.add_1_r.
  by rewrite !str_app_assoc.
Qed.

Lemma item_create_links_witness :
  exists st',
    create_links
      (ItemLinks
         {| Request.method := "GET";
            Request.url := "http://test/stac/collections/naip/items/m_1";
            Request.base_url := "http://test/stac/";
            Request.json := Raise ValueError |}
         "naip" "m_1")
      example_state
    = Ok ([VRef 4; VRef 5; VRef 6; VRef 7; VRef 8], st')
    /\ field (st_heap st') (VRef 7) "href"
       = Some (VStr "http://test/stac/collections/naip/items/m_1")
    /\ field (st_heap st') (VRef 8) "href"
       = Some (VStr "http://test/stac/collections/naip/items/m_1/tiles").
Proof.
  eexists. split.
  - apply (item_create_links
             {| Request.method := "GET";
                Request.url := "http://test/stac/collections/naip/items/m_1";
                Request.base_url := "http://test/stac/";
                Request.json := Raise ValueError |}
             {| urllib.scheme := "http"; urllib.netloc := "test";
                urllib.path := "/stac/"; urllib.params := "";
                urllib.query := ""; urllib.fragment := "" |}
             ["stac"] "naip" "m_1" example_state).
    + reflexivity.
    + vm_compute. reflexivity.
    + vm_compute. reflexivity.
    + vm_compute. reflexivity.
  - split; vm_compute; reflexivity.
Defined.

(** ** References that are resolved already *)

(** The default scheme plays no part when the URL has a scheme of its
    own. *)
Lemma urlparse_own_scheme (url dflt : string) (p : urllib.ParseResult) :
  urllib.urlparse url "" = Ok p ->
  Py.truthy (urllib.scheme p) = true ->
  urllib.urlparse url dflt = Ok p.
Proof.
  unfold urllib.urlparse, urllib.urlsplit.
  change (Py.strip urllib.c0_control_or_space "") with "".
  change (urllib.remove_unsafe "") with "".
  set (u := urllib.remove_unsafe (Py.lstrip urllib.c0_control_or_space url)).
  set (d := urllib.remove_unsafe (Py.strip urllib.c0_control_or_space dflt)).
  assert (Hnone : forall (u0 : string),
            rbind
              (rbind
                 (if String.eqb (Py.take2 u0) "//" then
                    let '(netloc, url) := urllib._splitnetloc u0 in
                    rbind (urllib.check_brackets netloc) (fun _ => Ok (netloc, url))
                  else Ok (EmptyString, u0))
                 (fun '(netloc, url) =>
                    let '(url, fragment) :=
                      match Py.split1 "#" url with
                      | Some (u, f) => (u, f)
                      | None => (url, EmptyString)
                      end in
                    let '(url, query) :=
                      match Py.split1 "?" url with
                      | Some (u, q) => (u, q)
                      | None => (url, EmptyString)
                      end in
                    rbind (urllib._checknetloc netloc) (fun _ =>
                      Ok {| urllib.s_scheme := ""; urllib.s_netloc := netloc;
                            urllib.s_path := url; urllib.s_query := query;
                            urllib.s_fragment := fragment |})))
              (fun sr =>
                 let '(url, params) :=
                   if urllib.mem (urllib.s_scheme sr) urllib.uses_params
                      && Py.contains ";" (urllib.s_path sr)
                   then urllib._splitparams (urllib.s_path sr)
                   else (urllib.s_path sr, EmptyString) in
                 Ok {| urllib.scheme := urllib.s_scheme sr;
                       urllib.netloc := urllib.s_netloc sr; urllib.path := url;
                       urllib.params := params; urllib.query := urllib.s_query sr;
                       urllib.fragment := urllib.s_fragment sr |})
            = Ok p ->
            urllib.scheme p = "").
  { intros u0 H.
    destruct (String.eqb (Py.take2 u0) "//").
    - destruct (urllib._splitnetloc u0) as [nl u1].
      destruct (urllib.check_brackets nl); [| done]. cbn [rbind] in H.
      destruct (match Py.split1 "#" u1 with Some (a, f) => (a, f) | None => (u1, "") end)
        as [u2 fr].
      destruct (match Py.split1 "?" u2 with Some (a, q) => (a, q) | None => (u2, "") end)
        as [u3 q].
      destruct (urllib._checknetloc nl); [| done]. cbn [rbind] in H.
      cbn [urllib.s_scheme urllib.s_path] in H.
      destruct (urllib.mem "" urllib.uses_params && Py.contains ";" u3);
        [destruct (urllib._splitparams u3) |]; by injection H as <-.
    - cbn [rbind] in H.
      destruct (match Py.split1 "#" u0 with Some (a, f) => (a, f) | None => (u0, "") end)
        as [u2 fr].
      destruct (match Py.split1 "?" u2 with Some (a, q) => (a, q) | None => (u2, "") end)
        as [u3 q].
      cbn [urllib._checknetloc Py.truthy negb orb rbind] in H.
      cbn [urllib.s_scheme urllib.s_path] in H.
      destruct (urllib.mem "" urllib.uses_params && Py.contains ";" u3);
        [destruct (urllib._splitparams u3) |]; by injection H as <-. }
  unfold urllib.split_scheme.
  destruct (Py.split1 ":" u) as [[[| c0 pre] rest] |].
  - intros H Ht. apply Hnone in H. by rewrite H in Ht.
  - destruct (Py.is_ascii c0 && Py.is_alpha c0
              && Py.forallb urllib.scheme_chars (String c0 pre)); [done |].
    intros H Ht. apply Hnone in H. by rewrite H in Ht.
  - intros H Ht. apply Hnone in H. by rewrite H in Ht.
Qed.

Lemma canonical_scheme_truthy (p : urllib.ParseResult) :
  canonical p = true ->
  Py.truthy (urllib.scheme p) = true /\ Py.truthy (urllib.netloc p) = true.
Proof.
  unfold canonical. intros H.
  repeat (apply andb_true_iff in H as [H ?]).
  split; [by destruct (urllib.scheme p) | done].
Qed.

(** [urljoin] returns a canonical absolute URL as it is, whatever the
    base. *)
Lemma urljoin_canonical (base : string) (b p : urllib.ParseResult) (qs : string) :
  urllib.urlparse base "" = Ok b ->
  canonical p = true ->
  query_safe qs = true ->
  urllib.urljoin base (urllib.geturl (with_query p qs))
  = Ok (urllib.geturl (with_query p qs)).
Proof.
  intros Hb Hcan Hqs.
  destruct (canonical_scheme_truthy p Hcan) as [Hst Hnt].
  pose proof (urlparse_geturl p qs Hcan Hqs) as Hparse.
  apply (urlparse_own_scheme _ (urllib.scheme b)) in Hparse; [| done].
  assert (Hreft : Py.truthy (urllib.geturl (with_query p qs)) = true).
  { unfold urllib.geturl, urllib.urlunparse, urllib.urlunsplit.
    cbn [with_query urllib.scheme urllib.netloc]. rewrite Hst, Hnt. cbn [orb].
    destruct (urllib.scheme p); [done |].
    by repeat match goal with |- context [if ?c then _ else _] => destruct c end. }
  unfold urllib.urljoin. destruct (Py.truthy base); [| done]. cbn [negb].
  rewrite Hreft, Hb. cbn [negb rbind]. rewrite Hparse. cbn [rbind].
  cbn [with_query urllib.scheme urllib.netloc].
  destruct (String.eqb (urllib.scheme p) (urllib.scheme b)); [| done].
  destruct (urllib.mem (urllib.scheme p) urllib.uses_relative) eqn:Hrel; [| done].
  by rewrite (uses_relative_netloc _ Hrel), Hnt.
Qed.

(** X5: [BaseLinks.resolve] returns an absolute URL in canonical form (that
    is, as [geturl] writes it from canonical parts and a query string
    without "#") unchanged, whatever the base URL of the request, as
    long as that one parses. *)
Theorem resolve_canonical_unchanged (self : links) (b p : urllib.ParseResult)
    (qs : string) :
  urllib.urlparse (base_url self) "" = Ok b ->
  canonical p = true ->
  query_safe qs = true ->
  resolve self (VStr (urllib.geturl (with_query p qs)))
  = Ok (urllib.geturl (with_query p qs)).
Proof.
  intros Hb Hcan Hqs. unfold resolve. cbn [py_str rbind].
  by apply (urljoin_canonical _ b).
Qed.

Lemma resolve_canonical_unchanged_witness :
  resolve example_links (VStr "http://test/other/lic.txt?v=2#top")
  = Ok "http://test/other/lic.txt?v=2#top".
Proof.
  apply (resolve_canonical_unchanged example_links
           {| urllib.scheme := "http"; urllib.netloc := "test";
              urllib.path := "/stac/"; urllib.params := "";
              urllib.query := ""; urllib.fragment := "" |}
           {| urllib.scheme := "http"; urllib.netloc := "test";
              urllib.path := "/other/lic.txt"; urllib.params := "";
              urllib.query := ""; urllib.fragment := "top" |}
           "v=2").
  - vm_compute. reflexivity.
  - vm_compute. reflexivity.
  - vm_compute. reflexivity.
Defined.

(** The parts of a URL below the directory of the base are canonical. *)
Lemma canonical_below (b : urllib.ParseResult) (bsegs segs : list string) :
  base_parts_ok b bsegs = true ->
  Forall (fun s => simple_segment s = true) segs ->
  canonical
    {| urllib.scheme := urllib.scheme b; urllib.netloc := urllib.netloc b;
       urllib.path := dir_path bsegs +:+ Py.join "/" segs; urllib.params := "";
       urllib.query := ""; urllib.fragment := "" |} = true.
Proof.
  intros Hbase Hsegs.
  destruct (base_parts_facts b bsegs Hbase)
    as (Hcan & _ & Hpath & _ & _ & _ & _ & _ & _ & _).
  destruct (dir_path_slash bsegs) as [d Hd].
  unfold canonical in *.
  cbn [urllib.scheme urllib.netloc urllib.path urllib.params urllib.fragment].
  repeat (apply andb_true_iff in Hcan as [Hcan ?]).
  rewrite Hpath in *.
  repeat (apply andb_true_iff; split); try done.
  - by rewrite Hd.
  - rewrite forallb_app. apply andb_true_iff. split; [done |].
    eapply forallb_impl; [| by apply join_path_chars].
    intros c Hc. destruct (path_char_facts c Hc) as (Ht & Hq & Hh & Hs & _).
    rewrite Ht. cbn [Py.contains]. rewrite !(Ascii.eqb_sym _ c), Hq, Hh, Hs.
    done.
Qed.

(** X6: Resolving is idempotent on relative paths: the URL that
    [BaseLinks.resolve] makes of a relative path of simple segments
    resolves to itself. *)
Theorem resolve_idempotent (self : links) (b : urllib.ParseResult)
    (bsegs segs : list string) :
  base_url self = urllib.geturl b ->
  base_parts_ok b bsegs = true ->
  segs <> [] ->
  forallb simple_segment segs = true ->
  exists href,
    resolve self (VStr (Py.join "/" segs)) = Ok href
    /\ resolve self (VStr href) = Ok href.
Proof.
  intros Hb Hbase Hne Hsegs.
  exists (base_url self +:+ Py.join "/" segs). split.
  - by apply (resolve_path self b bsegs segs).
  - pose proof (geturl_below b bsegs (Py.join "/" segs) "" Hbase) as Hget.
    unfold query_part in Hget. cbn [Py.truthy] in Hget.
    rewrite str_app_nil_r in Hget.
    unfold resolve. cbn [py_str rbind]. rewrite Hb, <- Hget.
    apply (urljoin_canonical _ b
             {| urllib.scheme := urllib.scheme b; urllib.netloc := urllib.netloc b;
                urllib.path := dir_path bsegs +:+ Py.join "/" segs;
                urllib.params := ""; urllib.query := ""; urllib.fragment := "" |}
             "").
    + by apply (urlparse_base b bsegs).
    + apply canonical_below; [done | by apply forallb_Forall].
    + reflexivity.
Qed.

Lemma resolve_idempotent_witness :
  exists href,
    resolve example_links (VStr "lic/a.txt") = Ok href
    /\ resolve example_links (VStr href) = Ok href.
Proof.
  apply (resolve_idempotent example_links
           {| urllib.scheme := "http"; urllib.netloc := "test";
              urllib.path := "/stac/"; urllib.params := "";
              urllib.query := ""; urllib.fragment := "" |}
           ["stac"] ["lic"; "a.txt"]).
  - reflexivity.
  - vm_compute. reflexivity.
  - discriminate.
  - vm_compute. reflexivity.
Defined.

(** ** A later token replaces an earlier one *)

(** X7: Merging a value for a key into the URL that [merge_params] made by
    merging another value for that key gives what merging it into the
    first URL gives: the values do not pile up. *)
Theorem merge_params_overwrites (url : string) (p : urllib.ParseResult)
    (k v1 v2 : string) :
  urllib.urlparse url EmptyString = Ok p ->
  canonical p = true ->
  plain_params (Dict.update (urllib.parse_qs (urllib.query p)) [(k, urllib.QStr v1)])
  = true ->
  plain_params (Dict.update (urllib.parse_qs (urllib.query p)) [(k, urllib.QStr v2)])
  = true ->
  exists url1 url2,
    merge_params url [(k, urllib.QStr v1)] = Ok url1
    /\ merge_params url [(k, urllib.QStr v2)] = Ok url2
    /\ merge_params url1 [(k, urllib.QStr v2)] = Ok url2.
Proof.
  intros Hparse Hcan Hp1 Hp2.
  destruct (merge_params_run url p _ Hparse Hcan Hp1) as (Hm1 & Hparse1 & Hqs1 & _).
  destruct (merge_params_run url p _ Hparse Hcan Hp2) as (Hm2 & _ & _ & Hq2).
  eexists. eexists. split; [exact Hm1 |]. split; [exact Hm2 |].
  unfold merge_params. rewrite Hparse1.
  cbn [rbind with_query urllib.scheme urllib.netloc urllib.path urllib.params
       urllib.query urllib.fragment].
  rewrite Hqs1. unfold with_query. do 3 f_equal.
  set (d0 := urllib.parse_qs (urllib.query p)) in *.
  rewrite <- Hq2.
  assert (Hsame : same_values
                    (Dict.update (as_lists (Dict.update d0 [(k, urllib.QStr v1)]))
                       [(k, urllib.QStr v2)])
                    (Dict.update d0 [(k, urllib.QStr v2)])).
  { unfold Dict.update. cbn [fold_left fst snd].
    rewrite <- (set_set d0 k (urllib.QStr v2) (urllib.QStr v1)).
    apply same_values_set, same_values_as_lists. }
  apply same_values_flatten in Hsame.
  unfold urllib.urlencode. by rewrite !urlencode_items_flatten, Hsame.
Qed.

Lemma merge_params_overwrites_witness :
  merge_params "http://test/search?limit=3" [("token", urllib.QStr "next:a")]
  = Ok "http://test/search?limit=3&token=next:a"
  /\ merge_params "http://test/search?limit=3&token=next:a"
       [("token", urllib.QStr "prev:b")]
     = Ok "http://test/search?limit=3&token=prev:b".
Proof.
  destruct (merge_params_overwrites "http://test/search?limit=3"
              {| urllib.scheme := "http"; urllib.netloc := "test";
                 urllib.path := "/search"; urllib.params := "";
                 urllib.query := "limit=3"; urllib.fragment := "" |}
              "token" "next:a" "prev:b"
              ltac:(vm_compute; reflexivity) ltac:(vm_compute; reflexivity)
              ltac:(vm_compute; reflexivity) ltac:(vm_compute; reflexivity))
    as (url1 & url2 & H1 & H2 & H12).
  vm_compute in H1. injection H1 as <-.
  vm_compute in H2. injection H2 as <-.
  split; [vm_compute; reflexivity | exact H12].
Defined.

(** ** Paging links under POST *)

(** X8: Under POST, with one cursor, [get_links] stores the parsed body of
    the request in [postbody], writes the token of that cursor into this
    very dictionary, leaving its other keys as they were, and returns a
    paging link whose body is a reference to it and whose href is the
    URL of the request; the producer without a cursor leaves [None] in
    its place. *)
Theorem post_single_cursor (r : Request.t) (c : string) (b : loc)
    (d : gmap string value) (st : state) :
  Request.method r = "POST" ->
  Request.json r = Ok (VRef b) ->
  st_heap st !! b = Some (ODict d) ->
  let n := List.length (st_heap st) in
  let paging rel :=
    ODict {[ "rel" := VStr rel; "type" := VStr "application/json";
             "method" := VStr "POST"; "href" := VStr (Request.url r);
             "body" := VRef b ]} in
  let generated (self : links) :=
    [ODict {[ "rel" := VStr "root"; "type" := VStr "application/json";
              "href" := VStr (Request.base_url r) ]};
     ODict {[ "rel" := VStr "self"; "type" := VStr "application/json";
              "href" := VStr (Request.url r) ]}] in
  get_links (PagingLinks r (Some c) None) (Some VNone) st
  = Ok ([VRef n; VNone; VRef (S n); VRef (S (S n))],
        {| st_heap :=
             <[b := ODict (<["token" := VStr ("next:" +:+ c)]> d)]> (st_heap st)
             ++ paging "next" :: generated (PagingLinks r (Some c) None);
           st_postbody := Some (VRef b) |})
  /\ get_links (PagingLinks r None (Some c)) (Some VNone) st
     = Ok ([VNone; VRef n; VRef (S n); VRef (S (S n))],
           {| st_heap :=
                <[b := ODict (<["token" := VStr ("prev:" +:+ c)]> d)]> (st_heap st)
                ++ paging "previous" :: generated (PagingLinks r None (Some c));
              st_postbody := Some (VRef b) |}).
Proof.
  intros Hm Hj Hb n paging generated.
  set (st1 := {| st_heap := st_heap st; st_postbody := Some (VRef b) |}).
  pose proof (link_next_post r c b d st1 Hm eq_refl Hb) as Hn.
  pose proof (link_prev_post r c b d st1 Hm eq_refl Hb) as Hp.
  split.
  - unfold get_links. cbn [request]. rewrite Hm. simpl String.eqb. cbv iota.
    unfold bind at 1. unfold bind at 1. unfold lift. rewrite Hj.
    unfold set_postbody. fold st1.
    rewrite create_links_paging.
    unfold bind at 1. unfold bind at 1. rewrite Hn.
    unfold bind, link_prev, link_root, BaseLinks_link_self, alloc, ret.
    cbn [st_heap st_postbody base_url url request].
    rewrite !length_app, length_insert. cbn [List.length].
    rewrite <- !app_assoc. cbn [app]. subst n st1. cbn [st_heap].
    by rewrite !Nat.add_1_r.
  - unfold get_links. cbn [request]. rewrite Hm. simpl String.eqb. cbv iota.
    unfold bind at 1. unfold bind at 1. unfold lift. rewrite Hj.
    unfold set_postbody. fold st1.
    rewrite create_links_paging.
    unfold bind at 1. unfold bind at 1. unfold link_next at 1, ret at 1.
    unfold bind at 1. rewrite Hp.
    unfold bind, link_root, BaseLinks_link_self, alloc, ret.
    cbn [st_heap st_postbody base_url url request].
    rewrite !length_app, length_insert. cbn [List.length].
    rewrite <- !app_assoc. cbn [app]. subst n st1. cbn [st_heap].
    by rewrite !Nat.add_1_r.
Qed.

Lemma post_single_cursor_witness :
  let r := {| Request.method := "POST"; Request.url := "http://test/search";
              Request.base_url := "http://test/"; Request.json := Ok (VRef 1) |} in
  let d : gmap string value := {[ "limit" := VInt 3 ]} in
  let st := {| st_heap := [OList []; ODict d]; st_postbody := None |} in
  exists st',
    get_links (PagingLinks r (Some "n") None) (Some VNone) st
    = Ok ([VRef 2; VNone; VRef 3; VRef 4], st')
    /\ field (st_heap st') (VRef 2) "body" = Some (VRef 1)
    /\ field (st_heap st') (VRef 1) "token" = Some (VStr "next:n")
    /\ field (st_heap st') (VRef 1) "limit" = Some (VInt 3).
Proof.
  intros r d st. eexists. split.
  - exact (proj1 (post_single_cursor r "n" 1 d st eq_refl eq_refl eq_refl)).
  - split; [| split]; vm_compute; reflexivity.
Defined.

Lemma link_next_fails (r : Request.t) (c : string) (st : state) (e : exn) :
  Request.method r = "POST" ->
  (let* body := get_postbody in
   setitem body "token" (VStr ("next:" +:+ c))) st = Raise e ->
  link_next r (Some c) st = Raise e.
Proof.
  intros Hm H. unfold link_next. rewrite Hm. simpl. simpl in H.
  unfold bind in *. destruct (get_postbody st) as [[body st0] |]; [| congruence].
  by rewrite H.
Qed.

Lemma link_prev_fails (r : Request.t) (c : string) (st : state) (e : exn) :
  Request.method r = "POST" ->
  (let* body := get_postbody in
   setitem body "token" (VStr ("prev:" +:+ c))) st = Raise e ->
  link_prev r (Some c) st = Raise e.
Proof.
  intros Hm H. unfold link_prev. rewrite Hm. simpl. simpl in H.
  unfold bind in *. destruct (get_postbody st) as [[body st0] |]; [| congruence].
  by rewrite H.
Qed.

(** When its first paging producer with a cursor fails, so does
    [create_links]. *)
Lemma create_links_paging_fails (r : Request.t) (n p : option string)
    (st : state) (e : exn) :
  Request.method r = "POST" ->
  n <> None \/ p <> None ->
  (forall x, (let* body := get_postbody in setitem body "token" x) st = Raise e) ->
  create_links (PagingLinks r n p) st = Raise e.
Proof.
  intros Hm Hc H. rewrite create_links_paging.
  destruct n as [n |].
  - unfold bind at 1. by rewrite (link_next_fails r n st e).
  - destruct p as [p |]; [| by destruct Hc].
    unfold bind at 1. cbn [link_next ret].
    unfold bind at 1. by rewrite (link_prev_fails r p st e).
Qed.

(** X9: Under POST a paging producer with a cursor reads [postbody], which
    only [get_links] sets: [create_links] called on its own raises
    [AttributeError]. *)
Theorem post_paging_needs_postbody (r : Request.t) (n p : option string) (st : state) :
  Request.method r = "POST" ->
  st_postbody st = None ->
  n <> None \/ p <> None ->
  create_links (PagingLinks r n p) st = Raise AttributeError.
Proof.
  intros Hm Hpb Hc. apply create_links_paging_fails; try done.
  intros x. unfold bind, get_postbody. by rewrite Hpb.
Qed.

Lemma post_paging_needs_postbody_witness :
  create_links
    (PagingLinks
       {| Request.method := "POST"; Request.url := "http://test/search";
          Request.base_url := "http://test/"; Request.json := Ok (VRef 1) |}
       (Some "n") None)
    {| st_heap := [OList []; ODict {[ "limit" := VInt 3 ]}]; st_postbody := None |}
  = Raise AttributeError.
Proof.
  apply post_paging_needs_postbody.
  - reflexivity.
  - reflexivity.
  - left. discriminate.
Defined.

(** X10: Under POST, with a cursor, [get_links] raises [TypeError] when the
    JSON body of the request is not an object: a list, a string, a
    number, a boolean or null has no key to assign. *)
Theorem post_body_not_object (r : Request.t) (n p : option string)
    (body : value) (extra_links : option value) (st : state) :
  Request.method r = "POST" ->
  Request.json r = Ok body ->
  match body with
  | VRef l => exists items, st_heap st !! l = Some (OList items)
  | _ => True
  end ->
  n <> None \/ p <> None ->
  get_links (PagingLinks r n p) extra_links st = Raise TypeError.
Proof.
  intros Hm Hj Hbody Hc.
  unfold get_links. cbn [request]. rewrite Hm. simpl String.eqb. cbv iota.
  unfold bind at 1. unfold bind at 1. unfold lift. rewrite Hj.
  unfold set_postbody.
  set (st1 := {| st_heap := st_heap st; st_postbody := Some body |}).
  assert (Hraise : create_links (PagingLinks r n p) st1 = Raise TypeError).
  { apply create_links_paging_fails; try done.
    intros x. unfold bind, get_postbody, setitem. cbn [st1 st_postbody st_heap].
    destruct body as [| | | | l]; try done.
    destruct Hbody as [items Hl]. by rewrite Hl. }
  unfold bind. by rewrite Hraise.
Qed.

Lemma post_body_not_object_witness :
  get_links
    (PagingLinks
       {| Request.method := "POST"; Request.url := "http://test/search";
          Request.base_url := "http://test/"; Request.json := Ok (VRef 1) |}
       None (Some "p"))
    None
    {| st_heap := [OList []; OList [VInt 1; VInt 2]]; st_postbody := None |}
  = Raise TypeError.
Proof.
  apply (post_body_not_object _ None (Some "p") (VRef 1)).
  - reflexivity.
  - reflexivity.
  - by exists [VInt 1; VInt 2].
  - right. discriminate.
Defined.

(** ** What [get_links] does with the body of the request *)

Lemma keeps_postbody_bind {A B} (m : M A) (k : A -> M B) :
  keeps_postbody m -> (forall a, keeps_postbody (k a)) -> keeps_postbody (bind m k).
Proof.
  intros Hm Hk st b st' H. unfold bind in H.
  destruct (m st) as [[a st1] |] eqn:Hmst; [| done].
  by rewrite (Hk a _ _ _ H), (Hm _ _ _ Hmst).
Qed.

Lemma keeps_postbody_ret {A} (a : A) : keeps_postbody (ret a).
Proof. intros st x st' H. by injection H as <- <-. Qed.

Lemma keeps_postbody_raise {A} (e : exn) : keeps_postbody (raise (A := A) e).
Proof. intros st x st' H. discriminate H. Qed.

Lemma keeps_postbody_lift {A} (r : result A) : keeps_postbody (lift r).
Proof.
  intros st x st' H. unfold lift in H. destruct r; [| done].
  by injection H as <- <-.
Qed.

Lemma keeps_postbody_alloc (o : object) : keeps_postbody (alloc o).
Proof. intros st x st' H. unfold alloc in H. by injection H as <- <-. Qed.

Lemma keeps_postbody_get_postbody : keeps_postbody get_postbody.
Proof.
  intros st x st' H. unfold get_postbody in H.
  destruct (st_postbody st) eqn:E; [| done]. by injection H as <- <-.
Qed.

Lemma keeps_postbody_getitem (v : value) (k : string) : keeps_postbody (getitem v k).
Proof.
  intros st x st' H. unfold getitem in H.
  destruct v as [| | | | l]; try done.
  destruct (st_heap st !! l) as [[d | items] |]; try done.
  destruct (d !! k); [| done]. by injection H as <- <-.
Qed.

Lemma keeps_postbody_setitem (v : value) (k : string) (x : value) :
  keeps_postbody (setitem v k x).
Proof.
  intros st a st' H. unfold setitem in H.
  destruct v as [| | | | l]; try done.
  destruct (st_heap st !! l) as [[d | items] |]; try done.
  by injection H as <- <-.
Qed.

Lemma keeps_postbody_iterate (v : value) : keeps_postbody (iterate v).
Proof.
  intros st a st' H. unfold iterate in H.
  destruct v as [| | | s | l]; try done.
  - by injection H as <- <-.
  - destruct (st_heap st !! l) as [[d | items] |]; try done;
      by injection H as <- <-.
Qed.

Create HintDb postbody.
#[local] Hint Resolve keeps_postbody_ret keeps_postbody_raise keeps_postbody_lift
  keeps_postbody_alloc keeps_postbody_get_postbody keeps_postbody_getitem
  keeps_postbody_setitem keeps_postbody_iterate : postbody.
#[local] Hint Extern 2 (keeps_postbody (bind _ _)) =>
  apply keeps_postbody_bind; [| intros ?] : postbody.

Lemma keeps_postbody_call_link (self : links) (name : string) :
  keeps_postbody (call_link self name).
Proof.
  unfold call_link, link_root, BaseLinks_link_self, CollectionLinks_link_self,
    CollectionLinks_link_parent, link_items, ItemLinks_link_self,
    ItemLinks_link_parent, link_collection, link_tiles, collection_link,
    link_next, link_prev.
  repeat case_match; auto 6 with postbody.
Qed.

Lemma keeps_postbody_create_links_loop (self : links) (names : list string) :
  forall links, keeps_postbody (create_links_loop self names links).
Proof.
  induction names as [| name names IH]; intros links; simpl.
  - apply keeps_postbody_ret.
  - destruct (Py.startswith "link_" name); [| apply IH].
    apply keeps_postbody_bind; [apply keeps_postbody_call_link |].
    intros v. apply IH.
Qed.

Lemma keeps_postbody_get_links_loop (self : links) (items : list value) :
  forall links, keeps_postbody (get_links_loop self items links).
Proof.
  induction items as [| v items IH]; intros links; simpl.
  - apply keeps_postbody_ret.
  - apply keeps_postbody_bind; [auto with postbody |]. intros rel.
    destruct (not_inferred rel); [| apply IH].
    do 3 (apply keeps_postbody_bind; [auto with postbody |]; intros ?).
    apply IH.
Qed.

(** What [get_links] makes once the body is dealt with leaves [postbody]
    alone. *)
Lemma keeps_postbody_links (self : links) (extra_links : value) :
  keeps_postbody
    (let* links := create_links self in
     match extra_links with
     | VNone => ret links
     | _ =>
         let* items := iterate extra_links in
         get_links_loop self items links
     end).
Proof.
  apply keeps_postbody_bind; [apply keeps_postbody_create_links_loop |].
  intros links.
  destruct extra_links; auto using keeps_postbody_get_links_loop with postbody.
Qed.

(** X11: When [get_links] returns, [postbody] is the parsed body of the
    request if the method is POST, whatever the class of the links, and
    is what it was before under every other method. *)
Theorem get_links_postbody (self : links) (extra_links : option value)
    (st st' : state) (res : list value) :
  get_links self extra_links st = Ok (res, st') ->
  if String.eqb (Request.method (request self)) "POST"
  then exists body,
         Request.json (request self) = Ok body /\ st_postbody st' = Some body
  else st_postbody st' = st_postbody st.
Proof.
  unfold get_links. intros H. unfold bind at 1 in H.
  destruct (String.eqb (Request.method (request self)) "POST").
  - unfold bind at 1, lift, set_postbody in H.
    destruct (Request.json (request self)) as [body | e]; [| done].
    exists body. split; [done |].
    by rewrite (keeps_postbody_links self _ _ _ _ H).
  - unfold ret at 1 in H.
    by rewrite (keeps_postbody_links self _ _ _ _ H).
Qed.

Lemma get_links_postbody_witness :
  exists res st',
    get_links
      (CollectionLinks
         {| Request.method := "POST"; Request.url := "http://test/stac/collections";
            Request.base_url := "http://test/stac/"; Request.json := Ok (VInt 7) |}
         "naip")
      (Some (VRef 3)) example_state
    = Ok (res, st')
    /\ st_postbody st' = Some (VInt 7).
Proof.
  eexists. eexists. split; [vm_compute; reflexivity |].
  destruct (get_links_postbody
              (CollectionLinks
                 {| Request.method := "POST";
                    Request.url := "http://test/stac/collections";
                    Request.base_url := "http://test/stac/";
                    Request.json := Ok (VInt 7) |}
                 "naip")
              (Some (VRef 3)) example_state _ _
              ltac:(vm_compute; reflexivity))
    as (body & Hj & Hpb).
  injection Hj as <-. exact Hpb.
Defined.

Lemma base_url_with_json (self : links) (j : result value) :
  base_url (with_json self j) = base_url self.
Proof. by destruct self. Qed.

Lemma create_links_with_json (self : links) (j : result value) :
  create_links (with_json self j) = create_links self.
Proof. destruct self as [r | r n p | r cid | r cid | r cid iid]; reflexivity. Qed.

Lemma get_links_loop_base (self self' : links) (items : list value) :
  base_url self = base_url self' ->
  forall links st,
    get_links_loop self items links st = get_links_loop self' items links st.
Proof.
  intros Hb. induction items as [| v items IH]; intros links st; [done |].
  simpl. unfold bind.
  destruct (getitem v "rel" st) as [[rel st0] |]; [| done].
  destruct (not_inferred rel); [| apply IH].
  destruct (getitem v "href" st0) as [[href st1] |]; [| done].
  unfold resolve. rewrite Hb.
  destruct (lift _ st1) as [[href' st2] |]; [| done].
  destruct (setitem v "href" (VStr href') st2) as [[[] st3] |]; [| done].
  apply IH.
Qed.

(** X12: [get_links] reads the body of the request exactly under POST: then
    the exception of [request.json()] is the exception of [get_links],
    for every class of links; under any other method the result does
    not depend on the body. *)
Theorem get_links_reads_body (self : links) (extra_links : option value)
    (st : state) :
  (Request.method (request self) = "POST" ->
   forall e, Request.json (request self) = Raise e ->
             get_links self extra_links st = Raise e)
  /\ (Request.method (request self) <> "POST" ->
      forall j, get_links (with_json self j) extra_links st
                = get_links self extra_links st).
Proof.
  split.
  - intros Hm e He. unfold get_links. rewrite Hm. simpl String.eqb. cbv iota.
    unfold bind, lift. by rewrite He.
  - intros Hm j. apply String.eqb_neq in Hm.
    assert (Hm' : String.eqb (Request.method (request (with_json self j))) "POST"
                  = false) by (by destruct self).
    unfold get_links. rewrite Hm, Hm', create_links_with_json.
    unfold bind, ret.
    destruct (create_links self st) as [[links st1] |]; [| done].
    destruct (match extra_links with Some v => v | None => _ end); try done;
      destruct (iterate _ st1) as [[items st2] |]; try done;
      apply get_links_loop_base, base_url_with_json.
Qed.

Lemma get_links_reads_body_witness :
  get_links
    (CollectionLinks
       {| Request.method := "POST"; Request.url := "http://test/stac/collections";
          Request.base_url := "http://test/stac/"; Request.json := Raise ValueError |}
       "naip")
    (Some VNone) example_state
  = Raise ValueError
  /\ get_links (with_json example_links (Ok (VInt 7))) (Some (VRef 3)) example_state
     = get_links example_links (Some (VRef 3)) example_state.
Proof.
  split.
  - apply (proj1 (get_links_reads_body _ (Some VNone) example_state));
      reflexivity.
  - apply (proj2 (get_links_reads_body example_links (Some (VRef 3)) example_state)).
    discriminate.
Defined.

(** ** Extra links that cannot be processed *)

Lemma get_links_loop_app (self : links) (a b : list value) :
  forall links st,
    get_links_loop self (a ++ b) links st
    = match get_links_loop self a links st with
      | Ok (res, st1) => get_links_loop self b res st1
      | Raise e => Raise e
      end.
Proof.
  induction a as [| v a IH]; intros links st; [done |].
  cbn [app get_links_loop]. unfold bind.
  destruct (getitem v "rel" st) as [[rel st0] |]; [| done].
  destruct (not_inferred rel); [| apply IH].
  destruct (getitem v "href" st0) as [[href st1] |]; [| done].
  destruct (lift (resolve self href) st1) as [[href' st2] |]; [| done].
  destruct (setitem v "href" (VStr href') st2) as [[[] st3] |]; [| done].
  apply IH.
Qed.

(** X13: An entry of [extra_links] without the key "rel", or with a relation
    that is not inferred and without the key "href", makes [get_links]
    raise [KeyError], when the entries before it can be processed. *)
Theorem extra_link_missing_key (self : links) (e l : loc)
    (pre post : list value) (d : gmap string value)
    (st : state) (gen : list value) (st1 : state) :
  get_links self (Some VNone) st = Ok (gen, st1) ->
  st_heap st !! e = Some (OList (pre ++ VRef l :: post)) ->
  NoDup (pre ++ [VRef l]) ->
  Forall (entry_ok self (st_heap st)) pre ->
  st_heap st !! l = Some (ODict d) ->
  d !! "rel" = None
  \/ (exists rel, d !! "rel" = Some rel /\ not_inferred rel = true
                  /\ d !! "href" = None) ->
  get_links self (Some (VRef e)) st = Raise KeyError.
Proof.
  intros Hgen He Hnd Hok Hl Hbad.
  destruct (get_links_frame _ _ _ _ Hgen) as [Hp _].
  assert (He1 : st_heap st1 !! e = Some (OList (pre ++ VRef l :: post))).
  { destruct Hp as [_ Hp]. exact (Hp e _ He). }
  assert (Hl1 : exists d', st_heap st1 !! l = Some (ODict d')
                           /\ d' !! "rel" = d !! "rel"
                           /\ d' !! "href" = d !! "href").
  { destruct Hp as [_ Hp]. destruct (Hp l _ Hl) as (d' & Hd' & Hk).
    exists d'. split; [done |].
    split; apply Hk; intros Hin%list_elem_of_singleton; discriminate Hin. }
  destruct Hl1 as (d' & Hl1 & Hrel & Hhref).
  assert (Hok1 : Forall (entry_ok self (st_heap st1)) pre).
  { eapply Forall_impl; [exact Hok |]. intros x. by apply entry_ok_preserved. }
  apply NoDup_app in Hnd as (Hndpre & Hnotin & _).
  destruct (get_links_loop_run self pre gen st1 Hndpre Hok1) as (st2 & Hrun & _ & Hsame).
  assert (Hl2 : st_heap st2 !! l = Some (ODict d')).
  { rewrite Hsame; [done |]. intros [Hin _]. apply (Hnotin _ Hin). by left. }
  rewrite get_links_extra, Hgen. unfold bind at 1, iterate. rewrite He1.
  rewrite get_links_loop_app, Hrun. cbn [get_links_loop].
  unfold bind at 1. unfold getitem at 1. rewrite Hl2, Hrel.
  destruct Hbad as [-> | (rel & -> & Hni & Hnone)]; [done |].
  rewrite Hni. unfold bind at 1. unfold getitem. by rewrite Hl2, Hhref, Hnone.
Qed.

Lemma extra_link_missing_key_witness :
  get_links example_links (Some (VRef 3))
    {| st_heap :=
         [OList [];
          ODict {[ "rel" := VStr "self"; "href" := VStr "http://old/collections/naip" ]};
          ODict {[ "rel" := VStr "license" ]};
          OList [VRef 1; VRef 2]];
       st_postbody := None |}
  = Raise KeyError.
Proof.
  eapply (extra_link_missing_key example_links 3 2 [VRef 1] []
            {[ "rel" := VStr "license" ]}).
  - vm_compute. reflexivity.
  - reflexivity.
  - apply (bool_decide_unpack _). vm_compute. exact I.
  - repeat constructor.
    eexists 1, _, _. repeat split; try reflexivity. vm_compute. discriminate.
  - reflexivity.
  - right. exists (VStr "license"). by repeat split.
Defined.

(** ** The filter *)

Lemma getitem_inv (v : value) (k : string) (st : state) (x : value) (st' : state) :
  getitem v k st = Ok (x, st') ->
  st' = st /\ field (st_heap st) v k = Some x.
Proof.
  unfold getitem, field, deref. destruct v as [| | | | l]; try done.
  destruct (st_heap st !! l) as [[d | items] |]; try done.
  destruct (d !! k) eqn:Hk; [| done]. intros [= <- <-]. by split.
Qed.

(** What [filter_links] returns when it returns. *)
Lemma filter_links_inv (links : list value) (st : state) :
  forall res st',
    filter_links links st = Ok (res, st') ->
    st' = st
    /\ res = List.filter (keeps (st_heap st)) links
    /\ Forall (fun v => is_Some (field (st_heap st) v "rel")) links.
Proof.
  induction links as [| v links IH]; intros res st' H.
  - injection H as <- <-. by repeat split.
  - cbn [filter_links] in H. unfold bind in H.
    destruct (getitem v "rel" st) as [[rel st0] |] eqn:Hget; [| done].
    apply getitem_inv in Hget as [-> Hrel].
    destruct (filter_links links st) as [[rest st1] |] eqn:Hrest; [| done].
    destruct (IH _ _ eq_refl) as (-> & -> & Hall).
    injection H as <- <-.
    split; [done |]. split; [| by constructor].
    assert (Hk : keeps (st_heap st) v = not_inferred rel).
    { unfold keeps. by rewrite Hrel. }
    cbn [List.filter]. by rewrite Hk.
Qed.

Lemma filter_filter {A} (f : A -> bool) (l : list A) :
  List.filter f (List.filter f l) = List.filter f l.
Proof.
  induction l as [| x l IH]; [done |]. simpl.
  destruct (f x) eqn:Hx; [| done]. simpl. by rewrite Hx, IH.
Qed.

(** X14: [filter_links] changes nothing, neither the list it is given nor the
    links, and filtering its result again gives that result. *)
Theorem filter_links_idempotent (links kept : list value) (st st' : state) :
  filter_links links st = Ok (kept, st') ->
  st' = st /\ filter_links kept st = Ok (kept, st).
Proof.
  intros H. destruct (filter_links_inv _ _ _ _ H) as (-> & -> & Hall).
  split; [done |].
  rewrite filter_links_run.
  - by rewrite filter_filter.
  - apply Forall_forall. intros x Hx.
    apply list_elem_of_In, List.filter_In in Hx as [Hx _].
    apply (proj1 (Forall_forall _ _) Hall). by apply list_elem_of_In.
Qed.

Lemma filter_links_idempotent_witness :
  filter_links [VRef 1; VRef 2] example_state = Ok ([VRef 2], example_state)
  /\ filter_links [VRef 2] example_state = Ok ([VRef 2], example_state).
Proof.
  split; [vm_compute; reflexivity |].
  apply (filter_links_idempotent [VRef 1; VRef 2] [VRef 2]
           example_state example_state).
  vm_compute. reflexivity.
Defined.

(** X15: [filter_links] raises [KeyError] on a list of dictionaries one of
    which has no key "rel". *)
Theorem filter_links_missing_rel (links : list value) (st : state) :
  Forall (fun v => is_Some (deref (st_heap st) v)) links ->
  Exists (fun v => field (st_heap st) v "rel" = None) links ->
  filter_links links st = Raise KeyError.
Proof.
  induction 1 as [| v links [d Hd] _ IH]; intros Hex.
  - by apply Exists_nil in Hex.
  - cbn [filter_links]. unfold bind.
    assert (Hget : getitem v "rel" st
                   = match d !! "rel" with
                     | Some x => Ok (x, st)
                     | None => Raise KeyError
                     end).
    { unfold deref in Hd. unfold getitem. destruct v as [| | | | l]; try done.
      destruct (st_heap st !! l) as [[d' | items] |]; try done.
      by injection Hd as ->. }
    rewrite Hget.
    destruct (d !! "rel") as [rel |] eqn:Hrel; [| done].
    apply Exists_cons in Hex as [Hv | Hex].
    + unfold field in Hv. rewrite Hd in Hv. congruence.
    + by rewrite (IH Hex).
Qed.

Lemma filter_links_missing_rel_witness :
  filter_links [VRef 1; VRef 2]
    {| st_heap :=
         [OList [];
          ODict {[ "rel" := VStr "self"; "href" := VStr "http://old/collections/naip" ]};
          ODict {[ "href" := VStr "lic/a.txt" ]}];
       st_postbody := None |}
  = Raise KeyError.
Proof.
  apply filter_links_missing_rel.
  - repeat constructor; vm_compute; eauto.
  - apply Exists_cons_tl, Exists_cons_hd. vm_compute. reflexivity.
Defined.

(** ** Generated links and the filter *)

Lemma lookup_new (h news : heap) (i : nat) :
  (h ++ news) !! (i + List.length h) = news !! i.
Proof.
  rewrite lookup_app_r by lia. f_equal. lia.
Qed.

Lemma field_new (h news : heap) (i : nat) (d : gmap string value) (k : string) :
  news !! i = Some (ODict d) ->
  field (h ++ news) (VRef (i + List.length h)) k = d !! k.
Proof. intros H. apply field_dict. by rewrite lookup_new. Qed.

(** What [create_links] leaves on the heap for a collection. *)
Lemma create_links_collection_shape (r : Request.t) (cid : string)
    (st : state) (res : list value) (st' : state) :
  create_links (CollectionLinks r cid) st = Ok (res, st') ->
  let n := List.length (st_heap st) in
  exists hi hs,
    res = [VRef n; VRef (S n); VRef (S (S n)); VRef (S (S (S n)))]
    /\ st_heap st'
       = st_heap st
         ++ [ODict {[ "rel" := VStr "items";
                      "type" := VStr "application/geo+json";
                      "href" := VStr hi ]};
             ODict {[ "rel" := VStr "parent";
                      "type" := VStr "application/json";
                      "href" := VStr (Request.base_url r) ]};
             ODict {[ "rel" := VStr "root";
                      "type" := VStr "application/json";
                      "href" := VStr (Request.base_url r) ]};
             ODict {[ "rel" := VStr "self";
                      "type" := VStr "application/json";
                      "href" := VStr hs ]}].
Proof.
  rewrite create_links_collection. cbv zeta.
  unfold link_items, CollectionLinks_link_parent, link_root,
    CollectionLinks_link_self, collection_link, bind, lift, alloc, ret.
  destruct (resolve _ (VStr ("collections/" +:+ cid +:+ "/items"))) as [hi |];
    [| done].
  destruct (resolve _ (VStr ("collections/" +:+ cid))) as [hs |]; [| done].
  intros [= <- <-]. exists hi, hs.
  cbn [st_heap]. rewrite !length_app. cbn [List.length].
  rewrite <- !app_assoc. cbn [app]. by rewrite !Nat.add_1_r.
Qed.

(** What [create_links] leaves on the heap for an item. *)
Lemma create_links_item_shape (r : Request.t) (cid iid : string)
    (st : state) (res : list value) (st' : state) :
  create_links (ItemLinks r cid iid) st = Ok (res, st') ->
  let n := List.length (st_heap st) in
  exists hc hs ht,
    res = [VRef n; VRef (S n); VRef (S (S n)); VRef (S (S (S n)));
           VRef (S (S (S (S n))))]
    /\ st_heap st'
       = st_heap st
         ++ [ODict {[ "rel" := VStr "collection";
                      "type" := VStr "application/json";
                      "href" := VStr hc ]};
             ODict {[ "rel" := VStr "parent";
                      "type" := VStr "application/json";
                      "href" := VStr hc ]};
             ODict {[ "rel" := VStr "root";
                      "type" := VStr "application/json";
                      "href" := VStr (Request.base_url r) ]};
             ODict {[ "rel" := VStr "self";
                      "type" := VStr "application/geo+json";
                      "href" := VStr hs ]};
             ODict {[ "rel" := VStr "alternate";
                      "type" := VStr "application/json";
                      "title" := VStr "tiles";
                      "href" := VStr ht ]}].
Proof.
  rewrite create_links_item. cbv zeta.
  unfold link_collection, ItemLinks_link_parent, link_root,
    ItemLinks_link_self, link_tiles, collection_link, bind, lift, alloc, ret.
  destruct (resolve _ (VStr ("collections/" +:+ cid))) as [hc |]; [| done].
  destruct (resolve _ (VStr ("collections/" +:+ cid +:+ "/items/" +:+ iid)))
    as [hs |]; [| done].
  destruct (resolve _ (VStr ("collections/" +:+ cid +:+ "/items/" +:+ iid
                             +:+ "/tiles"))) as [ht |]; [| done].
  intros [= <- <-]. exists hc, hs, ht.
  cbn [st_heap]. rewrite !length_app. cbn [List.length].
  rewrite <- !app_assoc. cbn [app]. by rewrite !Nat.add_1_r.
Qed.

(** X16: Of the links that [create_links] generates for a collection,
    [filter_links] keeps exactly the first, the items link: its
    relation, "items", is not an inferred one, while parent, root and
    self are. *)
Theorem filter_collection_links (r : Request.t) (cid : string)
    (st : state) (res : list value) (st' : state) :
  create_links (CollectionLinks r cid) st = Ok (res, st') ->
  filter_links res st' = Ok ([VRef (List.length (st_heap st))], st')
  /\ field (st_heap st') (VRef (List.length (st_heap st))) "rel"
     = Some (VStr "items").
Proof.
  intros H. destruct (create_links_collection_shape _ _ _ _ _ H)
    as (hi & hs & -> & Hheap).
  set (n := List.length (st_heap st)) in *.
  match type of Hheap with
  | _ = _ ++ ?news =>
      pose proof (fun i d k => field_new (st_heap st) news i d k) as Hf
  end.
  rewrite <- Hheap in Hf.
  pose proof (Hf 0 _ "rel" eq_refl) as H0.
  pose proof (Hf 1 _ "rel" eq_refl) as H1.
  pose proof (Hf 2 _ "rel" eq_refl) as H2.
  pose proof (Hf 3 _ "rel" eq_refl) as H3.
  cbn [Nat.add] in H0, H1, H2, H3. fold n in H0, H1, H2, H3.
  split; [| exact H0].
  rewrite filter_links_run.
  - cbn [List.filter]. unfold keeps. by rewrite H0, H1, H2, H3.
  - repeat constructor; [rewrite H0 | rewrite H1 | rewrite H2 | rewrite H3]; eauto.
Qed.

Lemma filter_collection_links_witness :
  exists res st',
    create_links example_links example_state = Ok (res, st')
    /\ filter_links res st' = Ok ([VRef 4], st')
    /\ field (st_heap st') (VRef 4) "rel" = Some (VStr "items").
Proof.
  eexists. eexists. split; [vm_compute; reflexivity |].
  apply (filter_collection_links
           {| Request.method := "GET";
              Request.url := "http://test/stac/collections/naip";
              Request.base_url := "http://test/stac/";
              Request.json := Raise ValueError |}
           "naip" example_state).
  vm_compute. reflexivity.
Defined.

(** X17: Of the links that [create_links] generates for an item,
    [filter_links] keeps exactly the last, the tiles link, whose
    relation is "alternate"; collection, parent, root and self are
    inferred. *)
Theorem filter_item_links (r : Request.t) (cid iid : string)
    (st : state) (res : list value) (st' : state) :
  create_links (ItemLinks r cid iid) st = Ok (res, st') ->
  filter_links res st' = Ok ([VRef (4 + List.length (st_heap st))], st')
  /\ field (st_heap st') (VRef (4 + List.length (st_heap st))) "rel"
     = Some (VStr "alternate")
  /\ field (st_heap st') (VRef (4 + List.length (st_heap st))) "title"
     = Some (VStr "tiles").
Proof.
  intros H. destruct (create_links_item_shape _ _ _ _ _ _ H)
    as (hc & hs & ht & -> & Hheap).
  set (n := List.length (st_heap st)) in *.
  match type of Hheap with
  | _ = _ ++ ?news =>
      pose proof (fun i d k => field_new (st_heap st) news i d k) as Hf
  end.
  rewrite <- Hheap in Hf.
  pose proof (Hf 0 _ "rel" eq_refl) as H0.
  pose proof (Hf 1 _ "rel" eq_refl) as H1.
  pose proof (Hf 2 _ "rel" eq_refl) as H2.
  pose proof (Hf 3 _ "rel" eq_refl) as H3.
  pose proof (Hf 4 _ "rel" eq_refl) as H4.
  pose proof (Hf 4 _ "title" eq_refl) as H5.
  cbn [Nat.add] in H0, H1, H2, H3, H4, H5 |- *.
  fold n in H0, H1, H2, H3, H4, H5.
  split; [| split; [exact H4 | exact H5]].
  rewrite filter_links_run.
  - cbn [List.filter]. unfold keeps. by rewrite H0, H1, H2, H3, H4.
  - repeat constructor;
      [rewrite H0 | rewrite H1 | rewrite H2 | rewrite H3 | rewrite H4]; eauto.
Qed.

Lemma filter_item_links_witness :
  let self :=
    ItemLinks
      {| Request.method := "GET";
         Request.url := "http://test/stac/collections/naip/items/m_1";
         Request.base_url := "http://test/stac/";
         Request.json := Raise ValueError |}
      "naip" "m_1" in
  exists res st',
    create_links self example_state = Ok (res, st')
    /\ filter_links res st' = Ok ([VRef 8], st')
    /\ field (st_heap st') (VRef 8) "rel" = Some (VStr "alternate")
    /\ field (st_heap st') (VRef 8) "title" = Some (VStr "tiles").
Proof.
  intros self. eexists. eexists. split; [vm_compute; reflexivity |].
  apply (filter_item_links
           {| Request.method := "GET";
              Request.url := "http://test/stac/collections/naip/items/m_1";
              Request.base_url := "http://test/stac/";
              Request.json := Raise ValueError |}
           "naip" "m_1" example_state).
  vm_compute. reflexivity.
Defined.

(** ** Hrefs that are not paths *)

(** X18: [BaseLinks.resolve] takes [str()] of the href: an empty href
    resolves to the base URL itself, and [None], [True] and [False] to
    the base URL followed by their names. *)
Theorem resolve_edge_hrefs (self : links) (b : urllib.ParseResult)
    (bsegs : list string) :
  base_url self = urllib.geturl b ->
  base_parts_ok b bsegs = true ->
  resolve self (VStr "") = Ok (base_url self)
  /\ resolve self VNone = Ok (base_url self +:+ "None")
  /\ resolve self (VBool true) = Ok (base_url self +:+ "True")
  /\ resolve self (VBool false) = Ok (base_url self +:+ "False").
Proof.
  intros Hb Hbase.
  assert (Hname : forall name,
            simple_segment name = true ->
            urllib.urljoin (base_url self) name = Ok (base_url self +:+ name)).
  { intros name Hname. rewrite Hb.
    apply (urljoin_directory b bsegs [name]); [done | done |].
    cbn [forallb]. by rewrite Hname. }
  split; [| split; [| split]].
  - unfold resolve. cbn [py_str rbind]. unfold urllib.urljoin.
    rewrite Hb, (geturl_base b bsegs Hbase).
    destruct (base_parts_facts b bsegs Hbase) as (_ & _ & _ & _ & _ & _ & _ & _ & Hst & _).
    by destruct (urllib.scheme b).
  - by apply Hname.
  - by apply Hname.
  - by apply Hname.
Qed.

Lemma resolve_edge_hrefs_witness :
  resolve example_links (VStr "") = Ok "http://test/stac/"
  /\ resolve example_links VNone = Ok "http://test/stac/None"
  /\ resolve example_links (VBool true) = Ok "http://test/stac/True"
  /\ resolve example_links (VBool false) = Ok "http://test/stac/False".
Proof.
  apply (resolve_edge_hrefs example_links
           {| urllib.scheme := "http"; urllib.netloc := "test";
              urllib.path := "/stac/"; urllib.params := "";
              urllib.query := ""; urllib.fragment := "" |}
           ["stac"]).
  - reflexivity.
  - vm_compute. reflexivity.
Defined.

(** ** The links to the tile service *)

Lemma scheme_char_safe (c : ascii) :
  urllib.scheme_chars c = true ->
  negb (Ascii.eqb c "#") && negb (is_tab_cr_lf c) = true.
Proof. destruct c as [[] [] [] [] [] [] [] []]; vm_compute; congruence. Qed.

Lemma netloc_char_safe (c : ascii) :
  negb (Py.contains c "/?#[]") && Py.is_ascii c && negb (is_tab_cr_lf c) = true ->
  negb (Ascii.eqb c "#") && negb (is_tab_cr_lf c) = true.
Proof. destruct c as [[] [] [] [] [] [] [] []]; vm_compute; congruence. Qed.

Lemma canonical_path_char_safe (c : ascii) :
  negb (Py.contains c "?#;") && negb (is_tab_cr_lf c) = true ->
  negb (Ascii.eqb c "#") && negb (is_tab_cr_lf c) = true.
Proof. destruct c as [[] [] [] [] [] [] [] []]; vm_compute; congruence. Qed.

Lemma path_char_safe (c : ascii) :
  path_char c = true ->
  negb (Ascii.eqb c "#") && negb (is_tab_cr_lf c) = true.
Proof. destruct c as [[] [] [] [] [] [] [] []]; vm_compute; congruence. Qed.

(** A base URL that names a directory can stand in a query string. *)
Lemma geturl_base_safe (b : urllib.ParseResult) (bsegs : list string) :
  base_parts_ok b bsegs = true -> query_safe (urllib.geturl b) = true.
Proof.
  intros Hbase.
  destruct (base_parts_facts b bsegs Hbase)
    as (Hcan & _ & Hpath & _ & _ & _ & _ & Hsc & _ & _).
  rewrite (geturl_base b bsegs Hbase), <- Hpath.
  unfold canonical in Hcan.
  repeat (apply andb_true_iff in Hcan as [Hcan ?]).
  unfold query_safe. rewrite !forallb_app.
  apply andb_true_iff. split; [| apply andb_true_iff; split;
                                 [| apply andb_true_iff; split]].
  - eapply forallb_impl; [| exact Hsc]. apply scheme_char_safe.
  - reflexivity.
  - match goal with
    | Hn : Py.forallb _ (urllib.netloc b) = true |- _ =>
        eapply forallb_impl; [| exact Hn]
    end.
    apply netloc_char_safe.
  - match goal with
    | Hn : Py.forallb _ (urllib.path b) = true |- _ =>
        eapply forallb_impl; [| exact Hn]
    end.
    apply canonical_path_char_safe.
Qed.

(** The URL of an item can stand in a query string. *)
Lemma item_uri_safe (b : urllib.ParseResult) (bsegs : list string) (cid iid : string) :
  base_parts_ok b bsegs = true ->
  simple_segment cid = true ->
  simple_segment iid = true ->
  query_safe
    ("url=" +:+ urllib.geturl b +:+ "collections/" +:+ cid +:+ "/items/" +:+ iid)
  = true.
Proof.
  intros Hbase Hcid Hiid.
  assert (Hpath : Py.forallb path_char
                    (Py.join "/" ["collections"; cid; "items"; iid]) = true).
  { apply join_path_chars. by repeat constructor. }
  unfold query_safe in *. rewrite !forallb_app.
  apply andb_true_iff. split; [reflexivity |].
  apply andb_true_iff. split; [by apply (geturl_base_safe b bsegs) |].
  rewrite <- !forallb_app.
  eapply forallb_impl; [| exact Hpath]. apply path_char_safe.
Qed.

(** Against a base URL that names a directory, [urljoin] appends a
    reference made of a relative path and a query string. *)
Lemma urljoin_template (b : urllib.ParseResult) (bsegs segs : list string)
    (qs ref : string) :
  base_parts_ok b bsegs = true ->
  segs <> [] ->
  forallb simple_segment segs = true ->
  query_safe qs = true ->
  Py.truthy qs = true ->
  ref = Py.join "/" segs +:+ String "?" qs ->
  urllib.urljoin (urllib.geturl b) ref = Ok (urllib.geturl b +:+ ref).
Proof.
  intros Hbase Hne Hsegs Hqs Ht ->.
  pose proof (urljoin_directory_query b bsegs segs qs Hbase Hne Hsegs Hqs) as H.
  unfold query_part in H. by rewrite Ht in H.
Qed.

(** X19: [TileLinks.__post_init__], when it is called, sets [item_uri] to the
    URL of the item: the base URL followed by
    "collections/<collection_id>/items/<item_id>", which is the href of
    the self link of [ItemLinks] for the same base URL. *)
Theorem tile_links_item_uri (b : urllib.ParseResult) (bsegs : list string)
    (cid iid : string) :
  base_parts_ok b bsegs = true ->
  simple_segment cid = true ->
  simple_segment iid = true ->
  TileLinks.__post_init__ (TileLinks.new (urllib.geturl b) cid iid)
  = Ok {| TileLinks.base_url := urllib.geturl b;
          TileLinks.collection_id := cid;
          TileLinks.item_id := iid;
          TileLinks.item_uri :=
            Some (urllib.geturl b +:+ "collections/" +:+ cid
                  +:+ "/items/" +:+ iid) |}.
Proof.
  intros Hbase Hcid Hiid. unfold TileLinks.__post_init__, TileLinks.new.
  cbn [TileLinks.base_url TileLinks.collection_id TileLinks.item_id].
  assert (Hjoin : urllib.urljoin (urllib.geturl b)
                    ("collections/" +:+ cid +:+ "/items/" +:+ iid)
                  = Ok (urllib.geturl b +:+ "collections/" +:+ cid
                        +:+ "/items/" +:+ iid)).
  { apply (urljoin_directory b bsegs ["collections"; cid; "items"; iid]);
      [done | done |].
    cbn [forallb]. by rewrite Hcid, Hiid. }
  by rewrite Hjoin.
Qed.

Lemma tile_links_item_uri_witness :
  TileLinks.__post_init__ (TileLinks.new "http://test/stac/" "naip" "m_1")
  = Ok {| TileLinks.base_url := "http://test/stac/";
          TileLinks.collection_id := "naip";
          TileLinks.item_id := "m_1";
          TileLinks.item_uri := Some "http://test/stac/collections/naip/items/m_1" |}.
Proof.
  apply (tile_links_item_uri
           {| urllib.scheme := "http"; urllib.netloc := "test";
              urllib.path := "/stac/"; urllib.params := "";
              urllib.query := ""; urllib.fragment := "" |}
           ["stac"] "naip" "m_1").
  - vm_compute. reflexivity.
  - vm_compute. reflexivity.
  - vm_compute. reflexivity.
Defined.

(** X20: Once [__post_init__] has run, the four links of [TileLinks] are new
    dictionaries whose href is the base URL followed by the path of the
    tile service and "?url=" and the URL of the item, written as it is,
    without percent-encoding. *)
Theorem tile_links_hrefs (b : urllib.ParseResult) (bsegs : list string)
    (cid iid : string) (self : TileLinks.t) (st : state) :
  base_parts_ok b bsegs = true ->
  simple_segment cid = true ->
  simple_segment iid = true ->
  TileLinks.__post_init__ (TileLinks.new (urllib.geturl b) cid iid) = Ok self ->
  let base := urllib.geturl b in
  let uri := base +:+ "collections/" +:+ cid +:+ "/items/" +:+ iid in
  let new (d : gmap string value) : result (value * state) :=
    Ok (VRef (List.length (st_heap st)),
        {| st_heap := st_heap st ++ [ODict d];
           st_postbody := st_postbody st |}) in
  TileLinks.link_tiles self st
  = new {[ "href" := VStr (base +:+ "titiler/tiles/{z}/{x}/{y}.png?url=" +:+ uri);
           "rel" := VStr "item"; "title" := VStr "tiles";
           "type" := VStr "image/png"; "templated" := VBool true ]}
  /\ TileLinks.link_viewer self st
     = new {[ "href" := VStr (base +:+ "titiler/viewer?url=" +:+ uri);
              "rel" := VStr "alternate"; "type" := VStr "text/html";
              "title" := VStr "viewer" ]}
  /\ TileLinks.link_tilejson self st
     = new {[ "href" := VStr (base +:+ "titiler/tilejson.json?url=" +:+ uri);
              "rel" := VStr "alternate"; "type" := VStr "application/json";
              "title" := VStr "tilejson" ]}
  /\ TileLinks.link_wmts self st
     = new {[ "href" := VStr (base +:+ "titiler/WMTSCapabilities.xml?url=" +:+ uri);
              "rel" := VStr "alternate"; "type" := VStr "application/xml";
              "title" := VStr "WMTS Capabilities"; "templated" := VBool false ]}.
Proof.
  intros Hbase Hcid Hiid Hinit base uri new.
  assert (Hself : self
                  = {| TileLinks.base_url := base; TileLinks.collection_id := cid;
                       TileLinks.item_id := iid; TileLinks.item_uri := Some uri |}).
  { unfold TileLinks.__post_init__, TileLinks.new in Hinit.
    cbn [TileLinks.base_url TileLinks.collection_id TileLinks.item_id] in Hinit.
    assert (Hjoin : urllib.urljoin base
                      ("collections/" +:+ cid +:+ "/items/" +:+ iid)
                    = Ok uri).
    { apply (urljoin_directory b bsegs ["collections"; cid; "items"; iid]);
        [done | done |].
      cbn [forallb]. by rewrite Hcid, Hiid. }
    fold base in Hinit. rewrite Hjoin in Hinit.
    by injection Hinit as <-. }
  assert (Hsafe : query_safe ("url=" +:+ uri) = true)
    by (by apply (item_uri_safe b bsegs)).
  assert (Hjoin : forall segs ref,
            forallb simple_segment segs = true ->
            segs <> [] ->
            ref = Py.join "/" segs +:+ String "?" ("url=" +:+ uri) ->
            urllib.urljoin base ref = Ok (base +:+ ref)).
  { intros segs ref Hsegs Hne Href.
    by apply (urljoin_template b bsegs segs ("url=" +:+ uri)). }
  subst self.
  unfold TileLinks.link_tiles, TileLinks.link_viewer, TileLinks.link_tilejson,
    TileLinks.link_wmts, TileLinks.get_item_uri, bind, lift, alloc.
  cbn [TileLinks.base_url TileLinks.item_uri].
  rewrite (Hjoin ["titiler"; "tiles"; "{z}"; "{x}"; "{y}.png"]) by done.
  rewrite (Hjoin ["titiler"; "viewer"]) by done.
  rewrite (Hjoin ["titiler"; "tilejson.json"]) by done.
  rewrite (Hjoin ["titiler"; "WMTSCapabilities.xml"]) by done.
  by repeat split.
Qed.

Lemma tile_links_hrefs_witness :
  exists self st',
    TileLinks.__post_init__ (TileLinks.new "http://test/stac/" "naip" "m_1") = Ok self
    /\ TileLinks.link_viewer self example_state = Ok (VRef 4, st')
    /\ field (st_heap st') (VRef 4) "href"
       = Some (VStr ("http://test/stac/titiler/viewer?url="
                     +:+ "http://test/stac/collections/naip/items/m_1")).
Proof.
  eexists. eexists. split; [vm_compute; reflexivity |].
  split.
  - apply (proj1 (proj2
             (tile_links_hrefs
                {| urllib.scheme := "http"; urllib.netloc := "test";
                   urllib.path := "/stac/"; urllib.params := "";
                   urllib.query := ""; urllib.fragment := "" |}
                ["stac"] "naip" "m_1" _ example_state
                ltac:(vm_compute; reflexivity) ltac:(vm_compute; reflexivity)
                ltac:(vm_compute; reflexivity) ltac:(vm_compute; reflexivity)))).
  - vm_compute. reflexivity.
Defined.

(** X21: The constructor of [TileLinks] does not run [__post_init__]: on a
    new instance [item_uri] is not set, and each of the four links
    raises [AttributeError]. *)
Theorem tile_links_unset_item_uri (base_url collection_id item_id : string)
    (st : state) :
  let self := TileLinks.new base_url collection_id item_id in
  TileLinks.link_tiles self st = Raise AttributeError
  /\ TileLinks.link_viewer self st = Raise AttributeError
  /\ TileLinks.link_tilejson self st = Raise AttributeError
  /\ TileLinks.link_wmts self st = Raise AttributeError.
Proof. by repeat split. Qed.

(** ** Links that need no resolution *)

(** X22: [create_links] of a [BaseLinks], and of a [CollectionLinksBase],
    never raises: whatever the request, it returns two new dictionaries,
    the root link and then the self link, whose hrefs are the base URL
    and the URL of the request as they are. *)
Theorem base_create_links (r : Request.t) (st : state) :
  let n := List.length (st_heap st) in
  let generated :=
    Ok ([VRef n; VRef (S n)],
        {| st_heap :=
             st_heap st
             ++ [ODict {[ "rel" := VStr "root"; "type" := VStr "application/json";
                          "href" := VStr (Request.base_url r) ]};
                 ODict {[ "rel" := VStr "self"; "type" := VStr "application/json";
                          "href" := VStr (Request.url r) ]}];
           st_postbody := st_postbody st |}) in
  create_links (BaseLinks r) st = generated
  /\ forall cid, create_links (CollectionLinksBase r cid) st = generated.
Proof.
  intros n generated. subst generated n.
  split; [| intros cid];
    unfold create_links; simpl;
    unfold bind, ret, link_root, BaseLinks_link_self, alloc; simpl;
    rewrite length_app; simpl; rewrite Nat.add_1_r, <- app_assoc; reflexivity.
Qed.

(** X23: [get_links] raises [TypeError] when [extra_links] is a non-empty
    string, whose characters have no key "rel", or a number or a
    boolean, which cannot be iterated. *)
Theorem extra_links_not_a_list (self : links) (extra_links : value)
    (st : state) (gen : list value) (st1 : state) :
  get_links self (Some VNone) st = Ok (gen, st1) ->
  match extra_links with
  | VStr s => Py.truthy s = true
  | VInt _ | VBool _ => True
  | VNone | VRef _ => False
  end ->
  get_links self (Some extra_links) st = Raise TypeError.
Proof.
  unfold get_links, bind. intros Hgen Hextra.
  destruct (if String.eqb (Request.method (request self)) "POST" then _ else _)
    as [[[] st0] |]; [| done].
  destruct (create_links self st0) as [[g st2] |]; [| done].
  destruct extra_links as [| x | z | s | l]; try done.
  by destruct s.
Qed.

Lemma extra_links_not_a_list_witness :
  get_links example_links (Some (VStr "license")) example_state = Raise TypeError.
Proof.
  eapply (extra_links_not_a_list example_links (VStr "license") example_state).
  - vm_compute. reflexivity.
  - reflexivity.
Defined.
